(** * sso-service: a shallow embedding of the auth service, the storage
    adapters, the admission interceptor and the gRPC facade, with the
    properties of the specification proved over it.

Layout, following the packages of the repository:
- [errors], [fmt]: Go error values, wrapping and [errors.Is];
- the world: the [core.users] collection, the Redis keyspace, the clock,
  the outcome of the next driver calls and the random source;
- [mongo] and [redis] drivers (contracts of the client libraries);
- package [storage/mongo] ([UserDAO]) and [storage/redis] ([TokenStorage]);
- package [lib/jwt], package [services/auth], package [grpc/auth],
  package [app/grpc] (the interceptor);
- the theorems. *)

From Stdlib Require Import ZArith Lia Strings.Byte Strings.Ascii.
From stdpp Require Import base option list gmap strings pretty relations.

Local Open Scope Z_scope.
Local Open Scope string_scope.

(** ** Go errors *)

(** The gRPC status codes the service uses. *)
Inductive Code := OK | InvalidArgument | Unauthenticated | PermissionDenied | Internal.

(** Package-level error values created with [errors.New]. Go compares them by
    identity, so [storage.ErrUserExists] and [auth.ErrUserExists] are
    different errors although their texts agree. *)
Inductive sentinel :=
  | storage_ErrUserExists
  | storage_ErrTokenExists
  | storage_ErrUserNotFound
  | storage_ErrTokenNotFound
  | auth_ErrInvalidCredentials
  | auth_ErrUserExists
  | auth_ErrTokenExists
  | auth_ErrUserNotFound
  | mongo_ErrNoDocuments
  | redis_Nil.

Inductive error :=
  | errors_New (s : sentinel)
  | lib_error (msg : string)          (* any other error made by a library *)
  | mongo_DuplicateKey (msg : string) (* write exception E11000 *)
  | fmt_Errorf (prefix : string) (e : error) (* fmt.Errorf(prefix ++ "%w", e) *)
  | status_Error (c : Code) (msg : string).

Global Instance Code_eq_dec : EqDecision Code.
Proof. solve_decision. Defined.
Global Instance sentinel_eq_dec : EqDecision sentinel.
Proof. solve_decision. Defined.
Global Instance error_eq_dec : EqDecision error.
Proof. solve_decision. Defined.

Definition sentinel_text (s : sentinel) : string :=
  match s with
  | storage_ErrUserExists => "user already exists"
  | storage_ErrTokenExists => "token for that user already exists"
  | storage_ErrUserNotFound => "user not found"
  | storage_ErrTokenNotFound => "token for that user not found"
  | auth_ErrInvalidCredentials => "invalid credentials"
  | auth_ErrUserExists => "user already exists"
  | auth_ErrTokenExists => "token for that user already exists"
  | auth_ErrUserNotFound => "user not found"
  | mongo_ErrNoDocuments => "mongo: no documents in result"
  | redis_Nil => "redis: nil"
  end.

Definition Code_text (c : Code) : string :=
  match c with
  | OK => "OK"
  | InvalidArgument => "InvalidArgument"
  | Unauthenticated => "Unauthenticated"
  | PermissionDenied => "PermissionDenied"
  | Internal => "Internal"
  end.

(** [err.Error()] *)
Fixpoint Error (e : error) : string :=
  match e with
  | errors_New s => sentinel_text s
  | lib_error msg => msg
  | mongo_DuplicateKey msg => msg
  | fmt_Errorf prefix e' => prefix +:+ Error e'
  | status_Error c msg => "rpc error: code = " +:+ Code_text c +:+ " desc = " +:+ msg
  end.

(** [errors.Is(err, target)] for a package-level [target]: walks the chain of
    wrapped errors and compares by identity. *)
Fixpoint errors_Is (e : error) (target : sentinel) : bool :=
  match e with
  | errors_New s => bool_decide (s = target)
  | fmt_Errorf _ e' => errors_Is e' target
  | _ => false
  end.

(** [mongo.IsDuplicateKeyError] *)
Fixpoint mongo_IsDuplicateKeyError (e : error) : bool :=
  match e with
  | mongo_DuplicateKey _ => true
  | fmt_Errorf _ e' => mongo_IsDuplicateKeyError e'
  | _ => false
  end.

(** [status.Code(err)] for the errors the interceptor and the facade build. *)
Definition status_Code (e : option error) : Code :=
  match e with
  | None => OK
  | Some (status_Error c _) => c
  | Some _ => Internal (* codes.Unknown does not occur in this development *)
  end.

(** ** Domain model (package models) *)

Module models.

Record User := mkUser {
  ID : Z;                      (* int64, bson _id *)
  Login : string;
  PassHash : list byte;
  IsAdmin : bool;
  TelegramLogin : string;
}.

(** [models.User{}] *)
Definition zero : User := mkUser 0 "" [] false "".

Definition with_ID (id : Z) (u : User) : User :=
  mkUser id (Login u) (PassHash u) (IsAdmin u) (TelegramLogin u).
Definition with_PassHash (h : list byte) (u : User) : User :=
  mkUser (ID u) (Login u) h (IsAdmin u) (TelegramLogin u).
Definition with_IsAdmin (b : bool) (u : User) : User :=
  mkUser (ID u) (Login u) (PassHash u) b (TelegramLogin u).

End models.

(** ** The world the service runs in *)

(** A Redis entry: the value and, when the key has a time to live, the instant
    it expires at. *)
Record TokenEntry := mkEntry {
  value : string;
  expires : option Z;
}.

Record World := mkWorld {
  users : list models.User;                 (* collection core.users, in insertion order *)
  tokens : gmap string TokenEntry;   (* Redis database 0 *)
  clock : Z;                         (* time.Now(), in nanoseconds *)
  faults : list (option error);      (* what the next driver calls fail with *)
  entropy : list Z;                  (* crypto/rand *)
  SECRET : string;                   (* os.Getenv("SECRET") *)
}.

Definition set_users (us : list models.User) (w : World) : World :=
  mkWorld us (tokens w) (clock w) (faults w) (entropy w) (SECRET w).
Definition set_tokens (ts : gmap string TokenEntry) (w : World) : World :=
  mkWorld (users w) ts (clock w) (faults w) (entropy w) (SECRET w).
Definition set_faults (fs : list (option error)) (w : World) : World :=
  mkWorld (users w) (tokens w) (clock w) fs (entropy w) (SECRET w).
Definition set_entropy (rs : list Z) (w : World) : World :=
  mkWorld (users w) (tokens w) (clock w) (faults w) rs (SECRET w).

(** Go code with side effects is a state transformer over the world. A Go
    function returning [(T, error)] returns a pair [T * option error], with
    [None] for [nil]. *)
Definition M (A : Type) : Type := World → A * World.

Definition ret {A} (a : A) : M A := λ w, (a, w).
Definition bind {A B} (m : M A) (k : A → M B) : M B :=
  λ w, let '(a, w') := m w in k a w'.
Definition gets {A} (f : World → A) : M A := λ w, (f w, w).
Definition modify (f : World → World) : M unit := λ w, (tt, f w).

Notation "'do' x <- m ; k" := (bind m (λ x, k))
  (at level 10, x name, m at level 100, k at level 200).
Notation "'do' ' p <- m ; k" := (bind m (λ x, match x with p => k end))
  (at level 10, p pattern, m at level 100, k at level 200).

(** Every call into a client library first learns whether the call fails:
    the head of [faults], nothing failing once the list is used up. A failed
    call has no effect on the store. *)
Definition driver_call : M (option error) :=
  λ w, match faults w with
       | [] => (None, w)
       | f :: fs => (f, set_faults fs w)
       end.

(** [crypto/rand]: the next random value. *)
Definition rand_Read : M Z :=
  λ w, match entropy w with
       | [] => (0, w)
       | r :: rs => (r, set_entropy rs w)
       end.

(** ** The MongoDB driver on [core.users]

[app.New] calls [EnsureIndexes] before anything else and panics when it
fails, so the collection always carries a unique index on [login] and one
on [telegramLogin], besides the one on [_id]. *)

Inductive Filter :=
  | by_id (id : Z)                  (* bson.D{{"_id", id}} *)
  | by_login (login : string)       (* bson.D{{"login", login}} *)
  | by_telegramLogin (tl : string)  (* bson.D{{"telegramLogin", tl}} *)
  | all_documents.                  (* bson.D{} *)

Definition matches (f : Filter) (u : models.User) : bool :=
  match f with
  | by_id id => bool_decide (models.ID u = id)
  | by_login l => bool_decide (models.Login u = l)
  | by_telegramLogin tl => bool_decide (models.TelegramLogin u = tl)
  | all_documents => true
  end.

(** [c.FindOne(ctx, filter).Decode(&user)] *)
Definition mongo_FindOne (f : Filter) : M (models.User * option error) :=
  do fault <- driver_call;
  match fault with
  | Some e => ret (models.zero, Some e)
  | None =>
      do us <- gets users;
      match find (matches f) us with
      | Some u => ret (u, None)
      | None => ret (models.zero, Some (errors_New mongo_ErrNoDocuments))
      end
  end.

(** [c.Find(ctx, filter)]: the cursor over the matching documents. *)
Definition mongo_Find (f : Filter) : M (list models.User * option error) :=
  do fault <- driver_call;
  match fault with
  | Some e => ret ([], Some e)
  | None => do us <- gets users; ret (filter (λ u, matches f u = true) us, None)
  end.

(** Draining a cursor with [Next]/[Decode] and reading [cursor.Err()]: the
    documents read and the error the iteration stopped with. Documents decode
    into [models.User], the type they were written from. *)
Definition mongo_cursor_drain (cursor : list models.User) : M (list models.User * option error) :=
  do fault <- driver_call;
  match fault with
  | Some e => ret ([], Some e)
  | None => ret (cursor, None)
  end.

Definition violates_unique_index (u : models.User) (us : list models.User) : bool :=
  existsb (λ v, bool_decide (models.ID v = models.ID u)
                || bool_decide (models.Login v = models.Login u)
                || bool_decide (models.TelegramLogin v = models.TelegramLogin u)) us.

(** [c.InsertOne(ctx, user)] *)
Definition mongo_InsertOne (u : models.User) : M (option error) :=
  do fault <- driver_call;
  match fault with
  | Some e => ret (Some e)
  | None =>
      do us <- gets users;
      if violates_unique_index u us
      then ret (Some (mongo_DuplicateKey "E11000 duplicate key error"))
      else do _ <- modify (set_users (us ++ [u])); ret None
  end.

(** The first document matching the filter is replaced; no match is not an
    error. *)
Fixpoint replace_first (f : Filter) (u : models.User) (us : list models.User) : list models.User :=
  match us with
  | [] => []
  | v :: us' => if matches f v then u :: us' else v :: replace_first f u us'
  end.

(** [c.ReplaceOne(ctx, filter, user)] *)
Definition mongo_ReplaceOne (f : Filter) (u : models.User) : M (option error) :=
  do fault <- driver_call;
  match fault with
  | Some e => ret (Some e)
  | None => do us <- gets users; do _ <- modify (set_users (replace_first f u us)); ret None
  end.

(** ** The Redis client *)

Definition live (now : Z) (e : TokenEntry) : bool :=
  match expires e with
  | None => true
  | Some t => bool_decide (now < t)
  end.

Definition live_entry (w : World) (key : string) : option TokenEntry :=
  match tokens w !! key with
  | Some e => if live (clock w) e then Some e else None
  | None => None
  end.

(** [db.Get(ctx, key).Result()] *)
Definition redis_Get (key : string) : M (string * option error) :=
  do fault <- driver_call;
  match fault with
  | Some e => ret ("", Some e)
  | None =>
      do entry <- gets (λ w, live_entry w key);
      match entry with
      | Some e => ret (value e, None)
      | None => ret ("", Some (errors_New redis_Nil))
      end
  end.

(** [db.SetNX(ctx, key, value, expiration).Result()]: sets the key only when it
    does not exist; a zero expiration means no time to live. A command the
    server refuses (an expiration it does not accept, say) is a failed call.
    The client sends the expiration as a number of milliseconds
    ([PX expiration/1ms], 1 at least) and the server keeps time in
    milliseconds: the expiry stored here is, to the millisecond, the one the
    server applies when the expiration is a positive number of whole
    milliseconds. What is proved of the moment of expiry is proved for such
    expirations only. *)
Definition redis_SetNX (key val : string) (expiration : Z) : M (bool * option error) :=
  do fault <- driver_call;
  match fault with
  | Some e => ret (false, Some e)
  | None =>
      do entry <- gets (λ w, live_entry w key);
      match entry with
      | Some _ => ret (false, None)
      | None =>
          do now <- gets clock;
          let e := mkEntry val (if bool_decide (expiration = 0) then None
                                else Some (now + expiration)) in
          do _ <- modify (λ w, set_tokens (<[key := e]> (tokens w)) w);
          ret (true, None)
      end
  end.

(** [db.Del(ctx, key).Err()] *)
Definition redis_Del (key : string) : M (option error) :=
  do fault <- driver_call;
  match fault with
  | Some e => ret (Some e)
  | None => do _ <- modify (λ w, set_tokens (delete key (tokens w)) w); ret None
  end.

(** ** Package storage/mongo: [UserDAO] *)

(** [uuid.New()]: sixteen random bytes, read as one 128-bit number (big
    endian); version and variant are written into bytes 6 and 8. *)
Definition uuid_New : M Z :=
  do r <- rand_Read;
  let u := r mod 2 ^ 128 in
  let u := Z.lor (Z.land u (Z.lnot (Z.shiftl 0xf0 72))) (Z.shiftl 0x40 72) in
  let u := Z.lor (Z.land u (Z.lnot (Z.shiftl 0xc0 56))) (Z.shiftl 0x80 56) in
  ret u.

(** [UUID.ID()]: the first four bytes as a [uint32]. *)
Definition uuid_ID (u : Z) : Z := Z.land (Z.shiftr u 96) 0xffffffff.

(** [int64(x)] for an unsigned 32-bit [x]. *)
Definition int64_of_uint32 (x : Z) : Z :=
  let y := x mod 2 ^ 64 in if bool_decide (y < 2 ^ 63) then y else y - 2 ^ 64.

Module UserDAO.

Definition findByID (userID : Z) : M (models.User * option error) :=
  do '(user, err) <- mongo_FindOne (by_id userID);
  match err with
  | Some e => ret (models.zero, Some e)
  | None => ret (user, None)
  end.

Definition SaveUser (user : models.User) : M (option error) :=
  let op := "storage.mongo.SaveUser" in
  do u <- uuid_New;
  let user := models.with_ID (int64_of_uint32 (uuid_ID u)) user in
  do err <- mongo_InsertOne user;
  match err with
  | Some e =>
      if mongo_IsDuplicateKeyError e
      then ret (Some (fmt_Errorf (op +:+ ": ") (errors_New storage_ErrUserExists)))
      else ret (Some (fmt_Errorf (op +:+ ": ") e))
  | None => ret None
  end.

Definition ChangePassword (userID : Z) (newPasswordHash : list byte) : M (option error) :=
  let op := "storage.mongo.ChangePassword" in
  do '(user, err) <- findByID userID;
  match err with
  | Some e =>
      if errors_Is e mongo_ErrNoDocuments
      then ret (Some (fmt_Errorf (op +:+ ": ") (errors_New storage_ErrUserNotFound)))
      else ret (Some (fmt_Errorf (op +:+ ": ") e))
  | None =>
      let user := models.with_PassHash newPasswordHash user in
      do err <- mongo_ReplaceOne (by_id userID) user;
      match err with
      | Some e => ret (Some (fmt_Errorf (op +:+ ": ") e))
      | None => ret None
      end
  end.

Definition MakeAdmin (userID : Z) : M (option error) :=
  let op := "storage.mongo.MakeAdmin" in
  do '(user, err) <- findByID userID;
  match err with
  | Some e =>
      if errors_Is e mongo_ErrNoDocuments
      then ret (Some (fmt_Errorf (op +:+ ": ") (errors_New storage_ErrUserNotFound)))
      else ret (Some (fmt_Errorf (op +:+ ": ") e))
  | None =>
      let user := models.with_IsAdmin true user in
      do err <- mongo_ReplaceOne (by_id userID) user;
      match err with
      | Some e => ret (Some (fmt_Errorf (op +:+ ": ") e))
      | None => ret None
      end
  end.

Definition User (login : string) : M (models.User * option error) :=
  let op := "storage.mongo.User" in
  do '(user, err) <- mongo_FindOne (by_login login);
  match err with
  | Some e =>
      if errors_Is e mongo_ErrNoDocuments
      then ret (models.zero, Some (fmt_Errorf (op +:+ ": ") (errors_New storage_ErrUserNotFound)))
      else ret (models.zero, Some (fmt_Errorf (op +:+ ": ") e))
  | None => ret (user, None)
  end.

Definition IsAdmin (userID : Z) : M (bool * option error) :=
  let op := "storage.mongo.IsAdmin" in
  do '(user, err) <- findByID userID;
  match err with
  | Some e =>
      if errors_Is e mongo_ErrNoDocuments
      then ret (false, Some (fmt_Errorf (op +:+ ": ") (errors_New storage_ErrUserNotFound)))
      else ret (false, Some (fmt_Errorf (op +:+ ": ") e))
  | None => ret (models.IsAdmin user, None)
  end.

Definition GetUserByTelegram (telegramLogin : string) : M (list models.User * option error) :=
  let op := "storage.mongo.GetUserByTelegram" in
  do '(cursor, err) <- mongo_Find (by_telegramLogin telegramLogin);
  match err with
  | Some e =>
      if errors_Is e mongo_ErrNoDocuments
      then ret ([], Some (fmt_Errorf (op +:+ ": ") (errors_New storage_ErrUserNotFound)))
      else ret ([], Some (fmt_Errorf (op +:+ ": ") e))
  | None =>
      do '(users, err) <- mongo_cursor_drain cursor;
      match err with
      | Some e => ret ([], Some (fmt_Errorf (op +:+ ": ") e))
      | None => ret (users, None)
      end
  end.

Definition GetAllUsers : M (list models.User * option error) :=
  let op := "storage.mongo.GetAllUsers" in
  do '(cursor, err) <- mongo_Find all_documents;
  match err with
  | Some e => ret ([], Some (fmt_Errorf (op +:+ ": ") e))
  | None =>
      do '(users, err) <- mongo_cursor_drain cursor;
      match err with
      | Some e => ret ([], Some (fmt_Errorf (op +:+ ": ") e))
      | None => ret (users, None)
      end
  end.

End UserDAO.

(** ** Package storage/redis: [TokenStorage] *)

(** [fmt.Sprintf("user:%d", userID)] *)
Definition token_key (userID : Z) : string := "user:" +:+ pretty userID.

Module TokenStorage.

Definition JWT (userID : Z) : M (string * option error) :=
  let op := "storage.redis.JWT" in
  let key := token_key userID in
  do '(token, err) <- redis_Get key;
  match err with
  | Some e =>
      if bool_decide (e = errors_New redis_Nil)
      then ret ("", Some (fmt_Errorf (op +:+ ": ") (errors_New storage_ErrTokenNotFound)))
      else ret ("", Some (fmt_Errorf
                  (op +:+ ": failed to get JWT for user " +:+ pretty userID +:+ ": ") e))
  | None => ret (token, None)
  end.

Definition SaveJWT (token : string) (userID : Z) (ttl : Z) : M (option error) :=
  let op := "storage.redis.SaveJWT" in
  let key := token_key userID in
  do '(wasSet, err) <- redis_SetNX key token ttl;
  match err with
  | Some e => ret (Some (fmt_Errorf (op +:+ ": ") e))
  | None =>
      if negb wasSet
      then ret (Some (fmt_Errorf (op +:+ " ") (errors_New storage_ErrTokenExists)))
      else ret None
  end.

Definition DeleteJWT (userID : Z) : M (option error) :=
  let op := "storage.redis.DeleteJWT" in
  let key := token_key userID in
  do err <- redis_Del key;
  match err with
  | Some e => ret (Some (fmt_Errorf (op +:+ ": ") e))
  | None => ret None
  end.

End TokenStorage.

(** ** Libraries the service computes with

[bcrypt] (golang.org/x/crypto) and the HS256 signer of [golang-jwt] are
taken as an interface: the development holds for every implementation,
and the theorems that need a law of the library (a hash verifies against
the password it was made from) state it as a hypothesis. *)

Inductive claim :=
  | claim_int (n : Z)
  | claim_string (s : string)
  | claim_time (t : Z).

Class Libs := {
  (* password, cost, salt *)
  bcrypt_GenerateFromPassword : list byte → Z → Z → list byte * option error;
  (* hashedPassword, password *)
  bcrypt_CompareHashAndPassword : list byte → list byte → option error;
  (* token.SignedString(key) for a token with the given claims *)
  jwt_SignedString : gmap string claim → list byte → string * option error;
}.

Definition bcrypt_DefaultCost : Z := 10.

(** [[]byte(s)] and [string(b)] *)
Definition bytes_of (s : string) : list byte := String.list_byte_of_string s.
Definition string_of (b : list byte) : string := String.string_of_list_byte b.

(** ** Package lib/jwt *)

Module jwt.
Section jwt.
  Context {libs : Libs}.

Definition NewToken (user : models.User) (duration : Z) : M (string * option error) :=
  do secret <- gets SECRET;
  let claims : gmap string claim := ∅ in
  let claims := <["uid" := claim_int (models.ID user)]> claims in
  let claims := <["login" := claim_string (models.Login user)]> claims in
  do now <- gets clock;
  let claims := <["exp" := claim_time (now + duration)]> claims in
  let '(tokenString, err) := jwt_SignedString claims (bytes_of secret) in
  match err with
  | Some e => ret ("", Some e)
  | None => ret (tokenString, None)
  end.

End jwt.
End jwt.

(** ** The messages of the protocol (package ssov1, generated code of the
    sso-protos repository; the fields are those the service reads and
    writes) *)

Module ssov1.

Module User.
Record t := mk {
    UserId : Z;
    Login : string;
    Password : string;
    IsAdmin : bool;
    TelegramLogin : string;
  }.
End User.

Module RegisterRequest.
Record t := mk { Login : string; Password : string; TelegramLogin : string }.
End RegisterRequest.

(** (the name is spelled this way in the generated code) *)
Module AutohrizeRequest.
Record t := mk { Login : string; Password : string }.
End AutohrizeRequest.

Module AuthorizeResponse.
Record t := mk { Token : string }.
End AuthorizeResponse.

Module ChangePasswordRequest.
Record t := mk { UserId : Z; NewPassword : string }.
End ChangePasswordRequest.

Module GetUserByTelegramRequest.
Record t := mk { TelegramLogin : string }.
End GetUserByTelegramRequest.

Module ListOfUsers.
Record t := mk { Users : list User.t }.
End ListOfUsers.

End ssov1.

(** ** Package services/auth *)

Module auth.

Module UserChanger.
Record t := mk {
    SaveUser : models.User → M (option error);
    ChangePassword : Z → list byte → M (option error);
    MakeAdmin : Z → M (option error);
  }.
End UserChanger.

Module UserProvider.
Record t := mk {
    User : string → M (models.User * option error);
    IsAdmin : Z → M (bool * option error);
    GetAllUsers : M (list models.User * option error);
    GetUserByTelegram : string → M (list models.User * option error);
  }.
End UserProvider.

Module TokenProvider.
Record t := mk {
    JWT : Z → M (string * option error);
    SaveJWT : string → Z → Z → M (option error);
    DeleteJWT : Z → M (option error);
  }.
End TokenProvider.

(** The logger of the struct is left out: logging has no effect on what the
    methods return or store. *)
Record Auth := New {
  usrChanger : UserChanger.t;
  usrProvider : UserProvider.t;
  tknProvider : TokenProvider.t;
  tokenTTL : Z;
}.

Section auth.
  Context {libs : Libs}.

Definition RegisterUser (a : Auth) (login password telegramLogin : string)
  : M (option error) :=
  let op := "auth.RegisterUser" in
  do salt <- rand_Read;
  let '(passHash, err) :=
    bcrypt_GenerateFromPassword (bytes_of password) bcrypt_DefaultCost salt in
  match err with
  | Some e => ret (Some (fmt_Errorf (op +:+ ": ") e))
  | None =>
      let user := models.mkUser 0 login passHash false telegramLogin in
      do err <- UserChanger.SaveUser (usrChanger a) user;
      match err with
      | Some e =>
          if errors_Is e storage_ErrUserExists
          then ret (Some (fmt_Errorf (op +:+ ": ") (errors_New auth_ErrUserExists)))
          else ret (Some (fmt_Errorf (op +:+ ": ") e))
      | None => ret None
      end
  end.

Definition AuthorizeUser (a : Auth) (login password : string)
  : M (string * option error) :=
  let op := "auth.AuthorizeUser" in
  do '(user, err) <- UserProvider.User (usrProvider a) login;
  match err with
  | Some e =>
      if errors_Is e storage_ErrUserNotFound
      then ret ("", Some (fmt_Errorf (op +:+ ": ") (errors_New auth_ErrInvalidCredentials)))
      else ret ("", Some (fmt_Errorf (op +:+ ": ") e))
  | None =>
      match bcrypt_CompareHashAndPassword (models.PassHash user) (bytes_of password) with
      | Some _ =>
          ret ("", Some (fmt_Errorf (op +:+ ": ") (errors_New auth_ErrInvalidCredentials)))
      | None =>
          do '(token, err) <- jwt.NewToken user (tokenTTL a);
          match err with
          | Some e => ret ("", Some (fmt_Errorf (op +:+ ": ") e))
          | None =>
              do err <- TokenProvider.SaveJWT (tknProvider a) token (models.ID user) (tokenTTL a);
              match err with
              | Some e => ret ("", Some (fmt_Errorf (op +:+ ": ") e))
              | None => ret (token, None)
              end
          end
      end
  end.

Definition IsAdmin (a : Auth) (userID : Z) : M (bool * option error) :=
  let op := "auth.IsAdmin" in
  do '(isAdmin, err) <- UserProvider.IsAdmin (usrProvider a) userID;
  match err with
  | Some e => ret (false, Some (fmt_Errorf (op +:+ ": ") e))
  | None => ret (isAdmin, None)
  end.

Definition ChangePassword (a : Auth) (userID : Z) (newPassword : string)
  : M (option error) :=
  let op := "auth.ChangePassword" in
  do salt <- rand_Read;
  let '(newPassHash, err) :=
    bcrypt_GenerateFromPassword (bytes_of newPassword) bcrypt_DefaultCost salt in
  match err with
  | Some e => ret (Some (fmt_Errorf (op +:+ ": ") e))
  | None =>
      do err <- UserChanger.ChangePassword (usrChanger a) userID newPassHash;
      match err with
      | Some e =>
          if errors_Is e storage_ErrUserNotFound
          then ret (Some (fmt_Errorf (op +:+ ": ") (errors_New auth_ErrUserNotFound)))
          else ret (Some (fmt_Errorf (op +:+ ": ") e))
      | None => ret None
      end
  end.

Definition GetUserByTelegram (a : Auth) (telegramLogin : string)
  : M (list ssov1.User.t * option error) :=
  let op := "auth.GetUserByTelegram" in
  do '(users, err) <- UserProvider.GetUserByTelegram (usrProvider a) telegramLogin;
  match err with
  | Some e =>
      if errors_Is e storage_ErrUserNotFound
      then ret ([], Some (fmt_Errorf (op +:+ ": ") (errors_New auth_ErrInvalidCredentials)))
      else ret ([], Some (fmt_Errorf (op +:+ ": ") e))
  | None =>
      let grpcUsers :=
        map (λ user, ssov1.User.mk (models.ID user) (models.Login user)
                       (string_of (models.PassHash user)) (models.IsAdmin user)
                       (models.TelegramLogin user)) users in
      ret (grpcUsers, None)
  end.

Definition GetAllUsers (a : Auth) : M (list ssov1.User.t * option error) :=
  let op := "auth.GetAllUsers" in
  do '(users, err) <- UserProvider.GetAllUsers (usrProvider a);
  match err with
  | Some e => ret ([], Some (fmt_Errorf (op +:+ ": ") e))
  | None =>
      (* the TelegramLogin field of the message is not set: it keeps the
         zero value of a string *)
      let grpcUsers :=
        map (λ user, ssov1.User.mk (models.ID user) (models.Login user)
                       (string_of (models.PassHash user)) (models.IsAdmin user)
                       "") users in
      ret (grpcUsers, None)
  end.

Definition MakeAdmin (a : Auth) (userID : Z) : M (option error) :=
  let op := "auth.MakeAdmin" in
  do err <- UserChanger.MakeAdmin (usrChanger a) userID;
  match err with
  | Some e =>
      if errors_Is e storage_ErrUserNotFound
      then ret (Some (fmt_Errorf (op +:+ ": ") (errors_New auth_ErrUserNotFound)))
      else ret (Some (fmt_Errorf (op +:+ ": ") e))
  | None => ret None
  end.

Definition GetJWT (a : Auth) (userID : Z) : M (string * option error) :=
  let op := "auth.GetJWT" in
  do '(token, err) <- TokenProvider.JWT (tknProvider a) userID;
  match err with
  | Some e =>
      if errors_Is e storage_ErrUserNotFound
      then ret ("", Some (fmt_Errorf (op +:+ ": ") (errors_New auth_ErrUserNotFound)))
      else ret ("", Some (fmt_Errorf (op +:+ ": ") e))
  | None => ret (token, None)
  end.

Definition DeleteJWT (a : Auth) (userID : Z) : M (option error) :=
  let op := "auth.DeleteJWT" in
  do err <- TokenProvider.DeleteJWT (tknProvider a) userID;
  match err with
  | Some e =>
      if errors_Is e storage_ErrUserNotFound
      then ret (Some (fmt_Errorf (op +:+ ": ") (errors_New auth_ErrUserNotFound)))
      else ret (Some (fmt_Errorf (op +:+ ": ") e))
  | None => ret None
  end.

End auth.
End auth.

(** ** Package grpc/auth: the facade *)

Module authgrpc.

(** The interface the facade calls the service through. *)
Module Auth.
Record t := mk {
    RegisterUser : string → string → string → M (option error);
    AuthorizeUser : string → string → M (string * option error);
    IsAdmin : Z → M (bool * option error);
    ChangePassword : Z → string → M (option error);
    GetAllUsers : M (list ssov1.User.t * option error);
    GetUserByTelegram : string → M (list ssov1.User.t * option error);
    MakeAdmin : Z → M (option error);
    GetJWT : Z → M (string * option error);
    DeleteJWT : Z → M (option error);
  }.
End Auth.

Record ServerAPI := mkServerAPI { auth : Auth.t }.

Definition validateRegister (req : ssov1.RegisterRequest.t) : option error :=
  if bool_decide (ssov1.RegisterRequest.Login req = "")
  then Some (status_Error InvalidArgument "login is required")
  else if bool_decide (ssov1.RegisterRequest.Password req = "")
  then Some (status_Error InvalidArgument "password is required")
  else None.

Definition validateAuth (req : ssov1.AutohrizeRequest.t) : option error :=
  if bool_decide (ssov1.AutohrizeRequest.Login req = "")
  then Some (status_Error InvalidArgument "login is required")
  else if bool_decide (ssov1.AutohrizeRequest.Password req = "")
  then Some (status_Error InvalidArgument "password is required")
  else None.

Definition validateChangePassword (req : ssov1.ChangePasswordRequest.t) : option error :=
  if bool_decide (ssov1.ChangePasswordRequest.NewPassword req = "")
  then Some (status_Error InvalidArgument "password is required")
  else None.

Definition validateGetUserByTelegram (req : ssov1.GetUserByTelegramRequest.t)
  : option error :=
  if bool_decide (ssov1.GetUserByTelegramRequest.TelegramLogin req = "")
  then Some (status_Error InvalidArgument "telegram login is required")
  else None.

(** A method of the facade returns a response or [nil], and an error. *)

Definition RegisterNewUser (s : ServerAPI) (req : ssov1.RegisterRequest.t)
  : M (option unit * option error) :=
  match validateRegister req with
  | Some err => ret (None, Some err)
  | None =>
      do err <- Auth.RegisterUser (auth s) (ssov1.RegisterRequest.Login req)
                  (ssov1.RegisterRequest.Password req)
                  (ssov1.RegisterRequest.TelegramLogin req);
      match err with
      | Some _ => ret (None, Some (status_Error Internal "internal error"))
      | None => ret (Some tt, None)
      end
  end.

Definition AuthorizeUser (s : ServerAPI) (req : ssov1.AutohrizeRequest.t)
  : M (option ssov1.AuthorizeResponse.t * option error) :=
  match validateAuth req with
  | Some err => ret (None, Some err)
  | None =>
      do '(token, err) <- Auth.AuthorizeUser (auth s) (ssov1.AutohrizeRequest.Login req)
                            (ssov1.AutohrizeRequest.Password req);
      match err with
      | Some _ => ret (None, Some (status_Error Internal "internal error"))
      | None => ret (Some (ssov1.AuthorizeResponse.mk token), None)
      end
  end.

Definition ChangePassword (s : ServerAPI) (req : ssov1.ChangePasswordRequest.t)
  : M (option unit * option error) :=
  match validateChangePassword req with
  | Some err => ret (None, Some err)
  | None =>
      do err <- Auth.ChangePassword (auth s) (ssov1.ChangePasswordRequest.UserId req)
                  (ssov1.ChangePasswordRequest.NewPassword req);
      match err with
      | Some _ => ret (None, Some (status_Error Internal "internal error"))
      | None => ret (Some tt, None)
      end
  end.

Definition GetUserByTelegram (s : ServerAPI) (req : ssov1.GetUserByTelegramRequest.t)
  : M (option ssov1.ListOfUsers.t * option error) :=
  match validateGetUserByTelegram req with
  | Some err => ret (None, Some err)
  | None =>
      do '(users, err) <- Auth.GetUserByTelegram (auth s)
                            (ssov1.GetUserByTelegramRequest.TelegramLogin req);
      match err with
      | Some _ => ret (None, Some (status_Error Internal "internal error"))
      | None => ret (Some (ssov1.ListOfUsers.mk users), None)
      end
  end.

End authgrpc.

(** ** Package app: the wiring of [app.New] *)

Module app.
Section app.
  Context {libs : Libs}.

Definition userDAO_changer : auth.UserChanger.t :=
  auth.UserChanger.mk UserDAO.SaveUser UserDAO.ChangePassword UserDAO.MakeAdmin.
Definition userDAO_provider : auth.UserProvider.t :=
  auth.UserProvider.mk UserDAO.User UserDAO.IsAdmin UserDAO.GetAllUsers
    UserDAO.GetUserByTelegram.
Definition redisclient : auth.TokenProvider.t :=
  auth.TokenProvider.mk TokenStorage.JWT TokenStorage.SaveJWT TokenStorage.DeleteJWT.

(** [auth.New(log, userDAO, userDAO, redisclient, tokenTTL)] *)
Definition authService (tokenTTL : Z) : auth.Auth :=
  auth.New userDAO_changer userDAO_provider redisclient tokenTTL.

(** [*auth.Auth] as the facade sees it. *)
Definition as_grpc (a : auth.Auth) : authgrpc.Auth.t :=
  authgrpc.Auth.mk (auth.RegisterUser a) (auth.AuthorizeUser a) (auth.IsAdmin a)
    (auth.ChangePassword a) (auth.GetAllUsers a) (auth.GetUserByTelegram a)
    (auth.MakeAdmin a) (auth.GetJWT a) (auth.DeleteJWT a).

Definition server (tokenTTL : Z) : authgrpc.ServerAPI :=
  authgrpc.mkServerAPI (as_grpc (authService tokenTTL)).

End app.
End app.

(** ** Package app/grpc: the admission interceptor *)

Definition ascii_ToLower (c : ascii) : ascii :=
  let n := nat_of_ascii c in
  if ((65 <=? n) && (n <=? 90))%nat then ascii_of_nat (n + 32) else c.

(** [strings.ToLower] on ASCII text *)
Fixpoint strings_ToLower (s : string) : string :=
  match s with
  | EmptyString => EmptyString
  | String c s' => String (ascii_ToLower c) (strings_ToLower s')
  end.

(** [metadata.MD]: the keys are stored in lower case and [Get] lowers the key
    it is given. *)
Definition MD := gmap string (list string).

Definition MD_Get (md : MD) (k : string) : list string :=
  default [] (md !! strings_ToLower k).

Module grpcapp.
Section grpcapp.
  (** The type of responses; the handler of the method called is a parameter
      of the interceptor. *)
  Context {R : Type}.

Definition publicMethods : gmap string bool :=
  <["/Auth/AuthorizeUser" := true]> (<["/Auth/RegisterNewUser" := true]> ∅).

(** [m[k]] on a Go map of booleans. *)
Definition map_index (m : gmap string bool) (k : string) : bool :=
  default false (m !! k).

Fixpoint findSesion (users : list models.User) : M Z :=
  match users with
  | [] => ret (-1)
  | u :: rest =>
      let uid := models.ID u in
      do '(_, err) <- TokenStorage.JWT uid;
      match err with
      | None => ret uid
      | Some _ => findSesion rest
      end
  end.

(** [ctx_md] is what [metadata.FromIncomingContext(ctx)] returns: the
    metadata, when there is any. *)
Definition UnaryInterceptor (ctx_md : option MD) (FullMethod : string)
    (handler : M (option R * option error)) : M (option R * option error) :=
  match ctx_md with
  | None => ret (None, Some (status_Error Unauthenticated "missing metadata"))
  | Some md =>
      let telegramLogin := MD_Get md "telegramLogin" in
      match telegramLogin with
      | [] => ret (None, Some (status_Error Unauthenticated "missing login in header"))
      | telegramLogin0 :: _ =>
          do '(users, err) <- UserDAO.GetUserByTelegram telegramLogin0;
          match err with
          | Some e =>
              if errors_Is e storage_ErrUserNotFound
                 && bool_decide (FullMethod = "/Auth/RegisterNewUser")
              then handler
              else ret (None, Some (status_Error Unauthenticated
                     ("user with such telegram login not found: " +:+ Error e)))
          | None =>
              do userID <- findSesion users;
              if bool_decide (userID = -1)
              then
                if map_index publicMethods FullMethod
                then handler
                else ret (None, Some (status_Error Unauthenticated "missing user"))
              else
                if map_index publicMethods FullMethod
                then ret (None, Some (status_Error PermissionDenied
                            "access denied for authenticated users"))
                else
                  do '(isAdmin, err) <- UserDAO.IsAdmin userID;
                  match err with
                  | Some e =>
                      ret (None, Some (status_Error Internal
                             ("error checking admin status: " +:+ Error e)))
                  | None =>
                      if isAdmin then handler
                      else if bool_decide (FullMethod = "/Auth/ChangePassword")
                      then handler
                      else ret (None, Some (status_Error PermissionDenied "access denied"))
                  end
          end
      end
  end.

End grpcapp.
End grpcapp.

(** ** Package grpc/auth: the remaining methods of the facade *)

(** Their messages (package ssov1). *)
Module ssov1_rest.

Module IsAdminRequest.
Record t := mk { UserId : Z }.
End IsAdminRequest.

Module IsAdminResponse.
Record t := mk { IsAdmin : bool }.
End IsAdminResponse.

Module MakeAdminRequest.
Record t := mk { UserId : Z }.
End MakeAdminRequest.

Module GetJWTRequest.
Record t := mk { UserId : Z }.
End GetJWTRequest.

Module GetJWTResponse.
Record t := mk { Token : string }.
End GetJWTResponse.

Module DeleteJWTRequest.
Record t := mk { UserId : Z }.
End DeleteJWTRequest.

End ssov1_rest.

Module authgrpc_rest.

Definition IsAdmin (s : authgrpc.ServerAPI) (req : ssov1_rest.IsAdminRequest.t)
  : M (option ssov1_rest.IsAdminResponse.t * option error) :=
  do '(isAdmin, err) <- authgrpc.Auth.IsAdmin (authgrpc.auth s)
                          (ssov1_rest.IsAdminRequest.UserId req);
  match err with
  | Some _ => ret (None, Some (status_Error Internal "internal error"))
  | None => ret (Some (ssov1_rest.IsAdminResponse.mk isAdmin), None)
  end.

(** The request is [emptypb.Empty]. *)
Definition GetAllUsers (s : authgrpc.ServerAPI) (req : unit)
  : M (option ssov1.ListOfUsers.t * option error) :=
  do '(users, err) <- authgrpc.Auth.GetAllUsers (authgrpc.auth s);
  match err with
  | Some _ => ret (None, Some (status_Error Internal "internal error"))
  | None => ret (Some (ssov1.ListOfUsers.mk users), None)
  end.

Definition MakeAdmin (s : authgrpc.ServerAPI) (req : ssov1_rest.MakeAdminRequest.t)
  : M (option unit * option error) :=
  do err <- authgrpc.Auth.MakeAdmin (authgrpc.auth s)
              (ssov1_rest.MakeAdminRequest.UserId req);
  match err with
  | Some _ => ret (None, Some (status_Error Internal "internal error"))
  | None => ret (Some tt, None)
  end.

Definition GetJWT (s : authgrpc.ServerAPI) (req : ssov1_rest.GetJWTRequest.t)
  : M (option ssov1_rest.GetJWTResponse.t * option error) :=
  do '(token, err) <- authgrpc.Auth.GetJWT (authgrpc.auth s)
                        (ssov1_rest.GetJWTRequest.UserId req);
  match err with
  | Some _ => ret (None, Some (status_Error Internal "internal error"))
  | None => ret (Some (ssov1_rest.GetJWTResponse.mk token), None)
  end.

Definition DeleteJWT (s : authgrpc.ServerAPI) (req : ssov1_rest.DeleteJWTRequest.t)
  : M (option unit * option error) :=
  do err <- authgrpc.Auth.DeleteJWT (authgrpc.auth s)
              (ssov1_rest.DeleteJWTRequest.UserId req);
  match err with
  | Some _ => ret (None, Some (status_Error Internal "internal error"))
  | None => ret (Some tt, None)
  end.

End authgrpc_rest.

(** * Vocabulary of the properties *)


(** What the next driver call fails with, and the first [n] driver calls all
    succeeding. *)
Definition next_fault (w : World) : option error := head (faults w) ≫= id.

Definition calls_ok (n : nat) (w : World) : Prop :=
  Forall (λ f, f = None) (take n (faults w)).

(** The record with a given id, login: what [FindOne] finds. *)
Definition stored_by_id (w : World) (id : Z) : option models.User :=
  find (matches (by_id id)) (users w).
Definition stored_by_login (w : World) (login : string) : option models.User :=
  find (matches (by_login login)) (users w).

(** The stored admin flag of the user with a given id. *)
Definition is_admin_of (w : World) (id : Z) : option bool :=
  models.IsAdmin <$> stored_by_id w id.

(** The error both failures of [AuthorizeUser] return. *)
Definition InvalidCredentials : error :=
  fmt_Errorf "auth.AuthorizeUser: " (errors_New auth_ErrInvalidCredentials).

(** A computation leaves a part of the world as it was. *)
Definition preserves {A B} (proj : World → B) (m : M A) : Prop :=
  ∀ w, proj (m w).2 = proj w.

(** ** The core operations and their sequences *)

Inductive Op :=
  | OpRegisterUser (login password telegramLogin : string)
  | OpAuthorizeUser (login password : string)
  | OpIsAdmin (userID : Z)
  | OpChangePassword (userID : Z) (newPassword : string)
  | OpGetUserByTelegram (telegramLogin : string)
  | OpGetAllUsers
  | OpMakeAdmin (userID : Z)
  | OpGetJWT (userID : Z)
  | OpDeleteJWT (userID : Z).

Section steps.
  Context {libs : Libs}.

(** The world after a call of the auth service. *)
Definition exec (a : auth.Auth) (op : Op) (w : World) : World :=
  match op with
  | OpRegisterUser l p tl => (auth.RegisterUser a l p tl w).2
  | OpAuthorizeUser l p => (auth.AuthorizeUser a l p w).2
  | OpIsAdmin id => (auth.IsAdmin a id w).2
  | OpChangePassword id p => (auth.ChangePassword a id p w).2
  | OpGetUserByTelegram tl => (auth.GetUserByTelegram a tl w).2
  | OpGetAllUsers => (auth.GetAllUsers a w).2
  | OpMakeAdmin id => (auth.MakeAdmin a id w).2
  | OpGetJWT id => (auth.GetJWT a id w).2
  | OpDeleteJWT id => (auth.DeleteJWT a id w).2
  end.

(** One step of the running service: a call of the auth service, or the
    environment moving on (time passes, the drivers start or stop failing,
    randomness is drawn elsewhere, the interceptor uses up driver calls):
    anything that leaves the two stores as they are. A call is one step
    from its start to its end: runs in which the database calls of two
    handlers alternate are not sequences of steps. *)
Inductive step (tokenTTL : Z) : World → World → Prop :=
  | step_op op w :
      step tokenTTL w (exec (app.authService tokenTTL) op w)
  | step_env w w' :
      users w' = users w → tokens w' = tokens w → step tokenTTL w w'.

(** The states of a service started on empty stores. *)
Definition reachable (tokenTTL : Z) (w : World) : Prop :=
  ∃ w0, users w0 = [] ∧ tokens w0 = ∅ ∧ rtc (step tokenTTL) w0 w.

(** The ids [SaveUser] hands out. *)
Definition ids_in_range (w : World) : Prop :=
  Forall (λ u, 0 ≤ models.ID u < 2 ^ 32) (users w).

End steps.

(** How one call of the service may change the user collection: not at all,
    by a new record, by a new password hash or by the admin flag of the record
    with a given id. *)
Inductive users_change (us : list models.User) : list models.User → Prop :=
  | users_unchanged :
      users_change us us
  | users_inserted u :
      0 ≤ models.ID u < 2 ^ 32 →
      violates_unique_index u us = false →
      users_change us (us ++ [u])
  | users_new_hash id u h :
      find (matches (by_id id)) us = Some u →
      users_change us (replace_first (by_id id) (models.with_PassHash h u) us)
  | users_made_admin id u :
      find (matches (by_id id)) us = Some u →
      users_change us (replace_first (by_id id) (models.with_IsAdmin true u) us).

(** ** Admission, as the specification words it *)

Inductive verdict := Admit | Reject (c : Code).

Definition is_public (method : string) : bool :=
  bool_decide (method = "/Auth/RegisterNewUser" ∨ method = "/Auth/AuthorizeUser").

(** "The first record whose TC.Get(id) succeeds", or none. *)
Fixpoint active_session (us : list models.User) : M (option Z) :=
  match us with
  | [] => ret None
  | u :: rest =>
      do '(_, err) <- TokenStorage.JWT (models.ID u);
      match err with
      | None => ret (Some (models.ID u))
      | Some _ => active_session rest
      end
  end.



(** The classification of the interceptor: as above, but a failed admin lookup
    rejects the call with [Internal], whatever the method. *)
Definition admission (method : string) (session : option Z)
    (isAdmin : bool * option error) : verdict :=
  match session with
  | None => if is_public method then Admit else Reject Unauthenticated
  | Some _ =>
      if is_public method then Reject PermissionDenied
      else match isAdmin with
           | (_, Some _) => Reject Internal
           | (true, None) => Admit
           | (false, None) =>
               if bool_decide (method = "/Auth/ChangePassword") then Admit
               else Reject PermissionDenied
           end
  end.

(** An admitted call returns what the handler returns; a rejected one returns
    no response and a status of the given code. *)
Definition outcome_is {R} (v : verdict) (handler : M (option R * option error))
    (w' : World) (r : (option R * option error) * World) : Prop :=
  match v with
  | Admit => r = handler w'
  | Reject c => ∃ msg, r = ((None, Some (status_Error c msg)), w')
  end.

(** ** Laws of the libraries *)

Section laws.
  Context {libs : Libs}.

(** A hash verifies against the password it was generated from. *)
Definition bcrypt_sound : Prop :=
  ∀ password cost salt hash,
    bcrypt_GenerateFromPassword password cost salt = (hash, None) →
    bcrypt_CompareHashAndPassword hash password = None.

(** Signing does not fail. *)
Definition jwt_signs : Prop :=
  ∀ claims key, (jwt_SignedString claims key).2 = None.

(** [parse] reads the claims back from a token signed with the same key. *)
Definition jwt_roundtrip (parse : string → list byte → option (gmap string claim)) : Prop :=
  ∀ claims key token,
    jwt_SignedString claims key = (token, None) → parse token key = Some claims.

End laws.

(** ** A small instance of the libraries, for the examples

The hash of a password is the password reversed; a token is the claims
written in binary. *)

Global Instance claim_eq_dec : EqDecision claim.
Proof. solve_decision. Defined.

Global Instance claim_countable : Countable claim.
Proof.
  refine (inj_countable'
    (λ c, match c with
          | claim_int n => inl n
          | claim_string s => inr (inl s)
          | claim_time t => inr (inr t)
          end)
    (λ x, match x with
          | inl n => claim_int n
          | inr (inl s) => claim_string s
          | inr (inr t) => claim_time t
          end) _).
  by intros [].
Defined.

Fixpoint binary_of_positive (p : positive) : string :=
  match p with
  | xH => ""
  | xO p' => String "0" (binary_of_positive p')
  | xI p' => String "1" (binary_of_positive p')
  end.

Fixpoint positive_of_binary (s : string) : option positive :=
  match s with
  | EmptyString => Some xH
  | String c s' =>
      if bool_decide (c = "0"%char) then xO <$> positive_of_binary s'
      else if bool_decide (c = "1"%char) then xI <$> positive_of_binary s'
      else None
  end.

Definition toy_hash (password : list byte) : list byte := rev password.

Definition toy_libs : Libs := {|
  bcrypt_GenerateFromPassword password cost salt :=
    if bool_decide (72 < length password)%nat
    then ([], Some (lib_error "bcrypt: password length exceeds 72 bytes"))
    else (toy_hash password, None);
  bcrypt_CompareHashAndPassword hashedPassword password :=
    if bool_decide (string_of hashedPassword = string_of (toy_hash password))
    then None
    else Some (lib_error "crypto/bcrypt: hashedPassword is not the hash of the given password");
  jwt_SignedString claims key := (binary_of_positive (encode claims), None);
|}.

Definition toy_parse (token : string) (key : list byte) : option (gmap string claim) :=
  positive_of_binary token ≫= decode.

(** ** Example worlds *)

(** Empty stores at time 1000; the random source gives a salt and the UUID
    whose first four bytes are 7. *)
Definition w_empty : World :=
  mkWorld [] ∅ 1000 [] [5; 7 * 2 ^ 96 + 9] "s3cret".

(** alice registered (she gets the id 7) ... *)
Definition w_registered : World :=
  exec (libs := toy_libs) (app.authService 60) (OpRegisterUser "a" "x" "tg=alice") w_empty.

(** ... and logged in. *)
Definition w_session : World :=
  exec (libs := toy_libs) (app.authService 60) (OpAuthorizeUser "a" "x") w_registered.

(** The same, with the user directory failing at the fourth driver call. *)
Definition w_flaky : World :=
  set_faults [None; None; None; Some (lib_error "connection reset by peer")] w_session.

(** alice made an admin, a second user registered, alice's password changed. *)
Definition w_admin : World :=
  exec (libs := toy_libs) (app.authService 60) (OpMakeAdmin 7) w_session.

Definition w_bob : World :=
  exec (libs := toy_libs) (app.authService 60) (OpRegisterUser "b" "z" "tg=bob") w_admin.

Definition w_later : World :=
  exec (libs := toy_libs) (app.authService 60) (OpChangePassword 7 "y") w_bob.

(** Empty stores, and a user directory that reports "no documents". *)
Definition w_no_documents : World :=
  set_faults [Some (errors_New mongo_ErrNoDocuments)] w_empty.

Definition md_alice : MD := {[ "telegramlogin" := ["tg=alice"] ]}.

Definition handler_ok : M (option unit * option error) := ret (Some tt, None).

(** * Further vocabulary *)

(** The errors of the token store and of the by-id operations, as returned. *)
Definition TokenNotFound : error :=
  fmt_Errorf "storage.redis.JWT: " (errors_New storage_ErrTokenNotFound).

Definition TokenExists : error :=
  fmt_Errorf "storage.redis.SaveJWT " (errors_New storage_ErrTokenExists).

(** Durations are counted in nanoseconds ([time.Duration]). The Redis client
    sends a time to live in whole milliseconds, and the server keeps time in
    milliseconds: it is for a time to live of whole milliseconds that the
    expiry the keyspace holds is the one the server applies. *)
Definition millisecond : Z := 1000000.
Definition minute : Z := 60 * 1000 * millisecond.

Definition whole_milliseconds (ttl : Z) : Prop :=
  0 < ttl ∧ ttl mod millisecond = 0.

(** The claims [jwt.NewToken] signs for a user, expiring at [exp]. *)
Definition claims_of (u : models.User) (exp : Z) : gmap string claim :=
  <["exp" := claim_time exp]>
    (<["login" := claim_string (models.Login u)]>
       (<["uid" := claim_int (models.ID u)]> ∅)).

(** The id [SaveUser] assigns when [RegisterUser] runs in [w]: the salt of the
    hash is drawn first, the UUID second. *)
Definition next_id (w : World) : Z :=
  int64_of_uint32 (uuid_ID (uuid_New (rand_Read w).2).1).

(** Ids, logins and telegram logins are pairwise distinct. *)
Definition unique_users (us : list models.User) : Prop :=
  NoDup (map models.ID us)
  ∧ NoDup (map models.Login us)
  ∧ NoDup (map models.TelegramLogin us).

(** What a method of the facade returns when called in [w]: a response, or a
    rejected argument with the world untouched, or "internal error". *)
Definition facade_result {R} (w : World) (r : (option R * option error) * World) : Prop :=
  (∃ resp, r.1 = (Some resp, None))
  ∨ (∃ msg, r = ((None, Some (status_Error InvalidArgument msg)), w))
  ∨ (∃ w', r = ((None, Some (status_Error Internal "internal error")), w')).

Section more_laws.
  Context {libs : Libs}.

(** The password can be hashed, whatever the salt. *)
Definition hashable (password : string) : Prop :=
  ∀ salt, (bcrypt_GenerateFromPassword (bytes_of password) bcrypt_DefaultCost salt).2 = None.

End more_laws.

(** A computation that writes to neither store. *)
Definition read_only {A} (m : M A) : Prop :=
  preserves users m ∧ preserves tokens m.

(** What the interceptor may do with a call: hand it to the handler, or
    reject it with one of three codes; either way in a world whose stores are
    those it started with. *)
Definition gate {R} (handler : M (option R * option error))
    (m : M (option R * option error)) : Prop :=
  ∀ w, ∃ w', users w' = users w ∧ tokens w' = tokens w
             ∧ (m w = handler w'
                ∨ ∃ c msg, m w = ((None, Some (status_Error c msg)), w')
                           ∧ (c = Unauthenticated ∨ c = PermissionDenied ∨ c = Internal)).

(** alice logged in for a minute. *)
Definition w_session_minute : World :=
  exec (libs := toy_libs) (app.authService minute) (OpAuthorizeUser "a" "x") w_registered.

(** * Admission by live tokens, and overlapping calls *)



(** [UserDAO.ChangePassword] from the point where its lookup has returned
    [user]: the hash is set on the record read and the whole record is written
    back. The handlers of two calls run in parallel, so other calls may run
    between the lookup and this. *)
Definition ChangePassword_after_lookup (userID : Z) (newPasswordHash : list byte)
    (user : models.User) : M (option error) :=
  let op := "storage.mongo.ChangePassword" in
  let user := models.with_PassHash newPasswordHash user in
  do err <- mongo_ReplaceOne (by_id userID) user;
  match err with
  | Some e => ret (Some (fmt_Errorf (op +:+ ": ") e))
  | None => ret None
  end.

(** A [ChangePassword] and a [MakeAdmin] for alice (id 7, logged in, no
    admin) that overlap: [ChangePassword] has looked her record up ... *)
Definition w_looked_up : World := (UserDAO.findByID 7 w_session).2.

(** ... [MakeAdmin] runs from start to end ... *)
Definition w_promoted : World :=
  (auth.MakeAdmin (app.authService 60) 7 w_looked_up).2.

(** ... and [ChangePassword] writes the record it had read, with the new hash. *)
Definition w_written_back : World :=
  (ChangePassword_after_lookup 7 (toy_hash (bytes_of "y"))
     (UserDAO.findByID 7 w_session).1.1 w_promoted).2.

(** * Properties *)

(** ** Running the model *)

Lemma bind_run {A B} (m : M A) (k : A → M B) w :
  bind m k w = k (m w).1 (m w).2.
Proof. unfold bind. by destruct (m w). Qed.

Lemma driver_call_run w :
  driver_call w = (head (faults w) ≫= id, set_faults (tail (faults w)) w).
Proof. unfold driver_call. destruct w as [? ? ? [|f fs] ? ?]; done. Qed.

(** The driver calls touch nothing but the schedule of faults. *)
Lemma driver_call_users w : users (driver_call w).2 = users w.
Proof. rewrite driver_call_run. done. Qed.

Lemma driver_call_tokens w : tokens (driver_call w).2 = tokens w.
Proof. rewrite driver_call_run. done. Qed.

Lemma driver_call_clock w : clock (driver_call w).2 = clock w.
Proof. rewrite driver_call_run. done. Qed.

Global Arguments driver_call : simpl never.
Global Arguments rand_Read : simpl never.

Ltac run_step :=
  rewrite ?bind_run; unfold ret, gets, modify; cbn [fst snd].

(** Decides the comparisons of constants that running the model leaves. *)
Ltac settle :=
  repeat first
    [ rewrite bool_decide_eq_true_2 by done
    | rewrite bool_decide_eq_false_2 by done
    | progress cbn
    | progress unfold ret ].

(** ** What the drivers return *)

Lemma mongo_FindOne_run f w :
  mongo_FindOne f w
  = match next_fault w with
    | Some e => ((models.zero, Some e), (driver_call w).2)
    | None =>
        match find (matches f) (users w) with
        | Some u => ((u, None), (driver_call w).2)
        | None => ((models.zero, Some (errors_New mongo_ErrNoDocuments)), (driver_call w).2)
        end
    end.
Proof.
  unfold mongo_FindOne, next_fault. rewrite bind_run, driver_call_run. cbn [fst snd].
  destruct (head (faults w) ≫= id); [done|]. run_step. cbn.
  by destruct (find _ _).
Qed.

Lemma mongo_InsertOne_run u w :
  mongo_InsertOne u w
  = match next_fault w with
    | Some e => (Some e, (driver_call w).2)
    | None =>
        if violates_unique_index u (users w)
        then (Some (mongo_DuplicateKey "E11000 duplicate key error"), (driver_call w).2)
        else (None, set_users (users w ++ [u]) (driver_call w).2)
    end.
Proof.
  unfold mongo_InsertOne, next_fault. rewrite bind_run, driver_call_run. cbn [fst snd].
  destruct (head (faults w) ≫= id); [done|]. run_step.
  by destruct (violates_unique_index _ _).
Qed.

Lemma mongo_ReplaceOne_run f u w :
  mongo_ReplaceOne f u w
  = match next_fault w with
    | Some e => (Some e, (driver_call w).2)
    | None => (None, set_users (replace_first f u (users w)) (driver_call w).2)
    end.
Proof.
  unfold mongo_ReplaceOne, next_fault. rewrite bind_run, driver_call_run. cbn [fst snd].
  by destruct (head (faults w) ≫= id).
Qed.

Lemma findByID_run id w :
  UserDAO.findByID id w
  = match next_fault w with
    | Some e => ((models.zero, Some e), (driver_call w).2)
    | None =>
        match stored_by_id w id with
        | Some u => ((u, None), (driver_call w).2)
        | None => ((models.zero, Some (errors_New mongo_ErrNoDocuments)), (driver_call w).2)
        end
    end.
Proof.
  unfold UserDAO.findByID, stored_by_id. rewrite bind_run, mongo_FindOne_run.
  destruct (next_fault w); [done|]. by destruct (find _ _).
Qed.

(** ** Frames: what a computation leaves as it was *)

Lemma preserves_ret {A B} (proj : World → B) (a : A) : preserves proj (ret a).
Proof. done. Qed.

Lemma preserves_gets {A B} (proj : World → B) (f : World → A) : preserves proj (gets f).
Proof. done. Qed.

Lemma preserves_bind {A B C} (proj : World → C) (m : M A) (k : A → M B) :
  preserves proj m → (∀ a, preserves proj (k a)) → preserves proj (bind m k).
Proof. intros Hm Hk w. rewrite bind_run, Hk. apply Hm. Qed.

Lemma driver_call_preserves_users : preserves users driver_call.
Proof. intros w. apply driver_call_users. Qed.

Lemma driver_call_preserves_tokens : preserves tokens driver_call.
Proof. intros w. apply driver_call_tokens. Qed.

Lemma rand_Read_preserves_users : preserves users rand_Read.
Proof. intros [? ? ? ? [|r rs] ?]; done. Qed.

Lemma rand_Read_preserves_tokens : preserves tokens rand_Read.
Proof. intros [? ? ? ? [|r rs] ?]; done. Qed.

Lemma set_tokens_preserves_users f : preserves users (modify (λ w, set_tokens (f w) w)).
Proof. done. Qed.

Lemma set_users_preserves_tokens f : preserves tokens (modify (set_users f)).
Proof. done. Qed.

Create HintDb frame discriminated.
#[export] Hint Resolve preserves_ret preserves_gets driver_call_preserves_users
  driver_call_preserves_tokens rand_Read_preserves_users rand_Read_preserves_tokens
  set_tokens_preserves_users set_users_preserves_tokens : frame.

(** Splits a computation along its binds and case distinctions. *)
Ltac frame :=
  repeat first
    [ progress intros
    | apply preserves_bind
    | solve [eauto with frame]
    | progress cbv zeta
    | match goal with
      | |- preserves _ (match ?x with _ => _ end) => destruct x
      | |- preserves _ (if ?x then _ else _) => destruct x
      | |- preserves _ (let '(_, _) := ?x in _) => destruct x
      end ].

Lemma mongo_FindOne_preserves_users f : preserves users (mongo_FindOne f).
Proof. unfold mongo_FindOne. frame. Qed.

Lemma mongo_Find_preserves_users f : preserves users (mongo_Find f).
Proof. unfold mongo_Find. frame. Qed.

Lemma mongo_cursor_drain_preserves_users c : preserves users (mongo_cursor_drain c).
Proof. unfold mongo_cursor_drain. frame. Qed.

Lemma redis_Get_preserves_users k : preserves users (redis_Get k).
Proof. unfold redis_Get. frame. Qed.

Lemma redis_SetNX_preserves_users k v ttl : preserves users (redis_SetNX k v ttl).
Proof. unfold redis_SetNX. frame. Qed.

Lemma redis_Del_preserves_users k : preserves users (redis_Del k).
Proof. unfold redis_Del. frame. Qed.

#[export] Hint Resolve mongo_FindOne_preserves_users mongo_Find_preserves_users
  mongo_cursor_drain_preserves_users redis_Get_preserves_users
  redis_SetNX_preserves_users redis_Del_preserves_users : frame.

Lemma findByID_preserves_users id : preserves users (UserDAO.findByID id).
Proof. unfold UserDAO.findByID. frame. Qed.

Lemma User_preserves_users l : preserves users (UserDAO.User l).
Proof. unfold UserDAO.User. frame. Qed.

Lemma IsAdmin_preserves_users id : preserves users (UserDAO.IsAdmin id).
Proof. unfold UserDAO.IsAdmin, UserDAO.findByID. frame. Qed.

Lemma GetUserByTelegram_preserves_users tl : preserves users (UserDAO.GetUserByTelegram tl).
Proof. unfold UserDAO.GetUserByTelegram. frame. Qed.

Lemma GetAllUsers_preserves_users : preserves users UserDAO.GetAllUsers.
Proof. unfold UserDAO.GetAllUsers. frame. Qed.

Lemma JWT_preserves_users id : preserves users (TokenStorage.JWT id).
Proof. unfold TokenStorage.JWT. frame. Qed.

Lemma SaveJWT_preserves_users t id ttl : preserves users (TokenStorage.SaveJWT t id ttl).
Proof. unfold TokenStorage.SaveJWT. frame. Qed.

Lemma DeleteJWT_preserves_users id : preserves users (TokenStorage.DeleteJWT id).
Proof. unfold TokenStorage.DeleteJWT. frame. Qed.

#[export] Hint Resolve findByID_preserves_users User_preserves_users IsAdmin_preserves_users
  GetUserByTelegram_preserves_users GetAllUsers_preserves_users JWT_preserves_users
  SaveJWT_preserves_users DeleteJWT_preserves_users : frame.

(** ** The views of the user list (C10) *)

Section views.
  Context {libs : Libs}.

Lemma mongo_Find_ok f w us w' :
  mongo_Find f w = ((us, None), w') →
  us = filter (λ u, matches f u = true) (users w).
Proof.
  unfold mongo_Find. run_step.
  destruct (driver_call w).1 eqn:E; run_step; intros [= <- <-]; [].
  by rewrite driver_call_users.
Qed.



Lemma GetUserByTelegram_ok tl w us w' :
  UserDAO.GetUserByTelegram tl w = ((us, None), w') →
  us = filter (λ u, models.TelegramLogin u = tl) (users w).
Proof.
  unfold UserDAO.GetUserByTelegram. run_step.
  destruct (mongo_Find (by_telegramLogin tl) w) as [[cursor [e|]] w1] eqn:E; run_step.
  { destruct (errors_Is e mongo_ErrNoDocuments); intros [= ]. }
  apply mongo_Find_ok in E. subst cursor.
  unfold mongo_cursor_drain. run_step.
  destruct (driver_call w1).1; run_step; intros [= <- <-].
  apply list_filter_iff. intros u. cbn. by rewrite bool_decide_eq_true.
Qed.


End views.

(** ** The facade (C6, C7) *)

(** C7. Once the fields of an [AuthorizeUser] request are valid, whatever
    error the auth service returns (invalid credentials, an existing token,
    anything else), the facade answers with no response and the status
    [Internal] with the text "internal error": the error of the service does
    not reach the caller. *)
Theorem C7_AuthorizeUser_every_failure_is_Internal
    (s : authgrpc.ServerAPI) (req : ssov1.AutohrizeRequest.t) w token e w' :
  authgrpc.validateAuth req = None →
  authgrpc.Auth.AuthorizeUser (authgrpc.auth s)
    (ssov1.AutohrizeRequest.Login req) (ssov1.AutohrizeRequest.Password req) w
  = ((token, Some e), w') →
  authgrpc.AuthorizeUser s req w
  = ((None, Some (status_Error Internal "internal error")), w')
  ∧ status_Code (authgrpc.AuthorizeUser s req w).1.2 = Internal.
Proof.
  intros Hvalid Hcall. unfold authgrpc.AuthorizeUser.
  rewrite Hvalid. run_step. by rewrite Hcall.
Qed.

(** The wired service on a wrong password: [InvalidCredentials] inside,
    [Internal] outside. *)
Lemma C7_witness_invalid_credentials :
  (auth.AuthorizeUser (libs := toy_libs) (app.authService 60) "a" "wrong" w_registered).1
  = ("", Some InvalidCredentials)
  ∧ (authgrpc.AuthorizeUser (app.server (libs := toy_libs) 60)
       (ssov1.AutohrizeRequest.mk "a" "wrong") w_registered).1
    = (None, Some (status_Error Internal "internal error")).
Proof.
  split; [vm_compute; reflexivity|].
  refine (f_equal fst (proj1 (C7_AuthorizeUser_every_failure_is_Internal
    (app.server (libs := toy_libs) 60) (ssov1.AutohrizeRequest.mk "a" "wrong")
    w_registered "" InvalidCredentials
    (auth.AuthorizeUser (libs := toy_libs) (app.authService 60) "a" "wrong" w_registered).2
    _ _))).
  - reflexivity.
  - vm_compute; reflexivity.
Defined.

(** A second login while the token of the first is live: [TokenExists]
    inside, [Internal] outside. *)
Example AuthorizeUser_token_exists_is_Internal :
  (auth.AuthorizeUser (libs := toy_libs) (app.authService 60) "a" "x" w_session).1.2
  = Some (fmt_Errorf "auth.AuthorizeUser: "
            (fmt_Errorf "storage.redis.SaveJWT " (errors_New storage_ErrTokenExists)))
  ∧ (authgrpc.AuthorizeUser (app.server (libs := toy_libs) 60)
       (ssov1.AutohrizeRequest.mk "a" "x") w_session).1
    = (None, Some (status_Error Internal "internal error")).
Proof. split; vm_compute; reflexivity. Qed.

(** C6, on the code. A registration with a login and a password and an empty
    caller identifier passes [validateRegister]; the facade calls the auth
    service, which stores a user whose telegram login is empty, and answers
    without error. The validation of [GetUserByTelegram] does reject the empty
    telegram login. *)
Theorem C6_RegisterNewUser_accepts_empty_caller_identifier :
  authgrpc.validateRegister (ssov1.RegisterRequest.mk "a" "x" "") = None
  ∧ (authgrpc.RegisterNewUser (app.server (libs := toy_libs) 60)
       (ssov1.RegisterRequest.mk "a" "x" "") w_empty).1 = (Some tt, None)
  ∧ users (authgrpc.RegisterNewUser (app.server (libs := toy_libs) 60)
       (ssov1.RegisterRequest.mk "a" "x" "") w_empty).2
    = [models.mkUser 7 "a" (toy_hash (bytes_of "x")) false ""]
  ∧ authgrpc.validateGetUserByTelegram (ssov1.GetUserByTelegramRequest.mk "")
    = Some (status_Error InvalidArgument "telegram login is required").
Proof. repeat split; vm_compute; reflexivity. Qed.

(** The two fields that are checked are rejected before the service is
    called: the world is untouched. *)
Lemma RegisterNewUser_rejects_empty_login_or_password
    (s : authgrpc.ServerAPI) (req : ssov1.RegisterRequest.t) w :
  ssov1.RegisterRequest.Login req = "" ∨ ssov1.RegisterRequest.Password req = "" →
  ∃ msg, authgrpc.RegisterNewUser s req w
         = ((None, Some (status_Error InvalidArgument msg)), w).
Proof.
  intros Hempty. unfold authgrpc.RegisterNewUser, authgrpc.validateRegister.
  repeat case_bool_decide; try (by eexists); by destruct Hempty.
Qed.

(** ** The token cache (C2) *)

Lemma redis_SetNX_run key val ttl w :
  redis_SetNX key val ttl w
  = match next_fault w with
    | Some e => ((false, Some e), (driver_call w).2)
    | None =>
        match live_entry w key with
        | Some _ => ((false, None), (driver_call w).2)
        | None =>
            ((true, None),
             set_tokens
               (<[key := mkEntry val (if bool_decide (ttl = 0) then None
                                      else Some (clock w + ttl))]> (tokens w))
               (driver_call w).2)
        end
    end.
Proof.
  unfold redis_SetNX, next_fault, live_entry. rewrite bind_run, driver_call_run. cbn [fst snd].
  destruct (head (faults w) ≫= id); [done|]. run_step. cbn.
  destruct (tokens w !! key) as [e|]; [destruct (live (clock w) e)|]; done.
Qed.

(** C2. [SaveJWT] returns without error only when the user had no live
    entry, and then the entry holds the token; when the user has a live entry
    the keyspace is left exactly as it was (same token, same expiry), and the
    call fails: with [ErrTokenExists] whenever the Redis call itself went
    through. *)
Theorem C2_SaveJWT_inserts_only_if_absent (token : string) (userID ttl : Z) (w : World) :
  ((TokenStorage.SaveJWT token userID ttl w).1 = None →
     live_entry w (token_key userID) = None
     ∧ value <$> tokens (TokenStorage.SaveJWT token userID ttl w).2 !! token_key userID
       = Some token)
  ∧ (∀ e, live_entry w (token_key userID) = Some e →
     tokens (TokenStorage.SaveJWT token userID ttl w).2 = tokens w
     ∧ (TokenStorage.SaveJWT token userID ttl w).1 ≠ None
     ∧ (next_fault w = None →
        (TokenStorage.SaveJWT token userID ttl w).1
        = Some (fmt_Errorf "storage.redis.SaveJWT " (errors_New storage_ErrTokenExists))
        ∧ live_entry (TokenStorage.SaveJWT token userID ttl w).2 (token_key userID) = Some e)).
Proof.
  unfold TokenStorage.SaveJWT. rewrite bind_run, redis_SetNX_run.
  destruct (next_fault w) as [f|] eqn:Hf; cbn [fst snd]; unfold ret; cbn [fst snd].
  - split; [done|]. intros e He. by rewrite driver_call_tokens.
  - destruct (live_entry w (token_key userID)) as [e|] eqn:He; cbn.
    + split; [done|]. intros e' [= <-]. rewrite driver_call_tokens.
      split; [done|]. split; [done|]. intros _. split; [done|].
      unfold live_entry in *. by rewrite driver_call_tokens, driver_call_clock.
    + split; [|done]. intros _. split; [done|]. by rewrite lookup_insert_eq.
Qed.

(** alice logged in: she has a live entry, and a second [SaveJWT] leaves it. *)
Lemma C2_witness :
  tokens (TokenStorage.SaveJWT "other" 7 60 w_session).2 = tokens w_session
  ∧ (TokenStorage.SaveJWT "other" 7 60 w_session).1
    = Some (fmt_Errorf "storage.redis.SaveJWT " (errors_New storage_ErrTokenExists)).
Proof.
  destruct (live_entry w_session (token_key 7)) as [e|] eqn:He;
    [|vm_compute in He; discriminate He].
  destruct (proj2 (C2_SaveJWT_inserts_only_if_absent "other" 7 60 w_session) e He)
    as (Hsame & _ & Herr).
  split; [exact Hsame|]. exact (proj1 (Herr eq_refl)).
Defined.

(** ** Authorization failures (C1) *)

Section authorize.
  Context {libs : Libs}.

Lemma UserDAO_User_run login w :
  next_fault w = None →
  UserDAO.User login w
  = match stored_by_login w login with
    | Some u => ((u, None), (driver_call w).2)
    | None =>
        ((models.zero,
          Some (fmt_Errorf "storage.mongo.User: " (errors_New storage_ErrUserNotFound))),
         (driver_call w).2)
    end.
Proof.
  intros Hf. unfold UserDAO.User, stored_by_login.
  rewrite bind_run, mongo_FindOne_run, Hf.
  by destruct (find _ _).
Qed.

(** C1. When the user directory answers, [AuthorizeUser] returns the same
    error, [InvalidCredentials] wrapped with the name of the operation, and
    the empty token, both when no record has the login and when the record
    with the login has a hash the password does not verify against. Neither
    store is touched. *)
Theorem C1_AuthorizeUser_failures_are_indistinguishable
    (ttl : Z) (login password : string) (w : World) :
  next_fault w = None →
  (stored_by_login w login = None
   ∨ ∃ u, stored_by_login w login = Some u
          ∧ bcrypt_CompareHashAndPassword (models.PassHash u) (bytes_of password) ≠ None) →
  (auth.AuthorizeUser (app.authService ttl) login password w).1
  = ("", Some InvalidCredentials)
  ∧ errors_Is InvalidCredentials auth_ErrInvalidCredentials = true
  ∧ users (auth.AuthorizeUser (app.authService ttl) login password w).2 = users w
  ∧ tokens (auth.AuthorizeUser (app.authService ttl) login password w).2 = tokens w.
Proof.
  intros Hf Hcase. unfold auth.AuthorizeUser. cbn [auth.usrProvider app.authService
    auth.UserProvider.User app.userDAO_provider].
  rewrite bind_run, (UserDAO_User_run _ _ Hf).
  destruct Hcase as [Hnone|(u & Hu & Hbad)].
  - rewrite Hnone. settle. by rewrite driver_call_users, driver_call_tokens.
  - rewrite Hu. cbn [fst snd].
    destruct (bcrypt_CompareHashAndPassword _ _); [|done].
    settle. by rewrite driver_call_users, driver_call_tokens.
Qed.

End authorize.

(** An unknown login and a wrong password for alice. *)
Lemma C1_witness :
  (auth.AuthorizeUser (libs := toy_libs) (app.authService 60) "nobody" "x" w_registered).1
  = (auth.AuthorizeUser (libs := toy_libs) (app.authService 60) "a" "wrong" w_registered).1.
Proof.
  etransitivity; [|symmetry].
  - refine (proj1 (C1_AuthorizeUser_failures_are_indistinguishable (libs := toy_libs)
      60 "nobody" "x" w_registered eq_refl (or_introl eq_refl))).
  - refine (proj1 (C1_AuthorizeUser_failures_are_indistinguishable (libs := toy_libs)
      60 "a" "wrong" w_registered eq_refl (or_intror _))).
    eexists. split; [reflexivity|]. vm_compute. discriminate.
Defined.

(** ** The ids of stored users (C9) *)

Lemma uuid_ID_range u : 0 ≤ uuid_ID u < 2 ^ 32.
Proof.
  unfold uuid_ID. change 0xffffffff with (Z.ones 32).
  rewrite Z.land_ones by lia. apply Z.mod_pos_bound. lia.
Qed.

Lemma int64_of_uint32_id x : 0 ≤ x < 2 ^ 32 → int64_of_uint32 x = x.
Proof.
  intros Hx. unfold int64_of_uint32.
  rewrite Z.mod_small by lia. rewrite bool_decide_eq_true_2; lia.
Qed.

Lemma assigned_id_range u : 0 ≤ int64_of_uint32 (uuid_ID u) < 2 ^ 32.
Proof. rewrite int64_of_uint32_id; apply uuid_ID_range. Qed.

Lemma uuid_New_preserves_users : preserves users uuid_New.
Proof. unfold uuid_New. frame. Qed.

#[export] Hint Resolve uuid_New_preserves_users : frame.

Lemma SaveUser_effect (u : models.User) (w : World) :
  ((UserDAO.SaveUser u w).1 = None
   ∧ ∃ id, 0 ≤ id < 2 ^ 32
       ∧ violates_unique_index (models.with_ID id u) (users w) = false
       ∧ users (UserDAO.SaveUser u w).2 = (users w ++ [models.with_ID id u])%list)
  ∨ ((UserDAO.SaveUser u w).1 ≠ None ∧ users (UserDAO.SaveUser u w).2 = users w).
Proof.
  unfold UserDAO.SaveUser. rewrite !bind_run, mongo_InsertOne_run.
  pose proof (uuid_New_preserves_users w) as Hu.
  destruct (uuid_New w) as [r w1]. cbn [fst snd] in *.
  destruct (next_fault w1) as [e|]; cbn [fst snd].
  { right. destruct (mongo_IsDuplicateKeyError e); cbn; by rewrite driver_call_users. }
  rewrite Hu.
  destruct (violates_unique_index _ (users w)) eqn:Hv; cbn.
  - right. by rewrite driver_call_users.
  - left. split; [done|]. eexists. split; [apply assigned_id_range|]. done.
Qed.

Lemma SaveUser_discards_ID (i : Z) (u : models.User) (w : World) :
  UserDAO.SaveUser (models.with_ID i u) w = UserDAO.SaveUser u w.
Proof. reflexivity. Qed.

Section invariants.
  Context {libs : Libs}.

Lemma ChangePassword_users_change id h w :
  users_change (users w) (users (UserDAO.ChangePassword id h w).2).
Proof.
  unfold UserDAO.ChangePassword. rewrite bind_run, findByID_run.
  destruct (next_fault w) as [e|]; cbn [fst snd].
  { destruct (errors_Is e mongo_ErrNoDocuments); cbn; rewrite driver_call_users; constructor. }
  destruct (stored_by_id w id) as [u|] eqn:Hu; cbn [fst snd].
  2: { settle. rewrite driver_call_users. constructor. }
  rewrite bind_run, mongo_ReplaceOne_run.
  destruct (next_fault _) as [e|]; cbn; rewrite !driver_call_users; [constructor|].
  by apply users_new_hash.
Qed.

Lemma MakeAdmin_users_change id w :
  users_change (users w) (users (UserDAO.MakeAdmin id w).2).
Proof.
  unfold UserDAO.MakeAdmin. rewrite bind_run, findByID_run.
  destruct (next_fault w) as [e|]; cbn [fst snd].
  { destruct (errors_Is e mongo_ErrNoDocuments); cbn; rewrite driver_call_users; constructor. }
  destruct (stored_by_id w id) as [u|] eqn:Hu; cbn [fst snd].
  2: { settle. rewrite driver_call_users. constructor. }
  rewrite bind_run, mongo_ReplaceOne_run.
  destruct (next_fault _) as [e|]; cbn; rewrite !driver_call_users; [constructor|].
  by apply users_made_admin.
Qed.

Lemma NewToken_preserves_users u d : preserves users (jwt.NewToken u d).
Proof. unfold jwt.NewToken. frame. Qed.

Hint Resolve NewToken_preserves_users : frame.

Lemma exec_users_change ttl op w :
  users_change (users w) (users (exec (app.authService ttl) op w)).
Proof.
  destruct op as [l p tl|l p|id|id p|tl| |id|id|id]; cbn [exec].
  - (* RegisterUser *)
    unfold auth.RegisterUser. rewrite bind_run.
    pose proof (rand_Read_preserves_users w) as Hr.
    destruct (rand_Read w) as [salt w1]. cbn [fst snd] in *.
    destruct (bcrypt_GenerateFromPassword _ _ _) as [h [e|]]; cbn [fst snd].
    { unfold ret. cbn. rewrite Hr. constructor. }
    rewrite bind_run. cbn [auth.usrChanger app.authService auth.UserChanger.SaveUser
      app.userDAO_changer].
    destruct (SaveUser_effect (models.mkUser 0 l h false tl) w1)
      as [(Hok & i & Hi & Hv & Hus)|(Hfail & Hus)].
    + rewrite Hok. cbn. rewrite Hus, Hr. apply users_inserted; [done|by rewrite <- Hr].
    + destruct (UserDAO.SaveUser _ w1) as [[e|] w2]; [|done]. cbn [fst snd] in *.
      destruct (errors_Is e storage_ErrUserExists); cbn; rewrite Hus, Hr; constructor.
  - (* AuthorizeUser *)
    assert (preserves users (auth.AuthorizeUser (app.authService ttl) l p)) as ->;
      [|constructor].
    unfold auth.AuthorizeUser. cbn. frame.
  - assert (preserves users (auth.IsAdmin (app.authService ttl) id)) as ->; [|constructor].
    unfold auth.IsAdmin. cbn. frame.
  - (* ChangePassword *)
    unfold auth.ChangePassword. rewrite bind_run.
    pose proof (rand_Read_preserves_users w) as Hr.
    destruct (rand_Read w) as [salt w1]. cbn [fst snd] in *.
    destruct (bcrypt_GenerateFromPassword _ _ _) as [h [e|]]; cbn [fst snd].
    { unfold ret. cbn. rewrite Hr. constructor. }
    rewrite bind_run. cbn [auth.usrChanger app.authService auth.UserChanger.ChangePassword
      app.userDAO_changer].
    pose proof (ChangePassword_users_change id h w1) as Hc. rewrite Hr in Hc.
    destruct (UserDAO.ChangePassword id h w1) as [[e|] w2]; cbn [fst snd] in *; [|done].
    by destruct (errors_Is e storage_ErrUserNotFound).
  - assert (preserves users (auth.GetUserByTelegram (app.authService ttl) tl)) as ->;
      [|constructor].
    unfold auth.GetUserByTelegram. cbn. frame.
  - assert (preserves users (auth.GetAllUsers (app.authService ttl))) as ->; [|constructor].
    unfold auth.GetAllUsers. cbn. frame.
  - (* MakeAdmin *)
    unfold auth.MakeAdmin. rewrite bind_run.
    cbn [auth.usrChanger app.authService auth.UserChanger.MakeAdmin app.userDAO_changer].
    pose proof (MakeAdmin_users_change id w) as Hc.
    destruct (UserDAO.MakeAdmin id w) as [[e|] w2]; cbn [fst snd] in *; [|done].
    by destruct (errors_Is e storage_ErrUserNotFound).
  - assert (preserves users (auth.GetJWT (app.authService ttl) id)) as ->; [|constructor].
    unfold auth.GetJWT. cbn. frame.
  - assert (preserves users (auth.DeleteJWT (app.authService ttl) id)) as ->; [|constructor].
    unfold auth.DeleteJWT. cbn. frame.
Qed.

End invariants.

Lemma Forall_replace_first (P : models.User → Prop) f u' us :
  Forall P us → P u' → Forall P (replace_first f u' us).
Proof.
  intros Hus Hu'. induction Hus as [|v us Hv Hus IH]; cbn; [constructor|].
  destruct (matches f v); by constructor.
Qed.

Lemma find_by_id_ID id us u : find (matches (by_id id)) us = Some u → models.ID u = id ∧ u ∈ us.
Proof.
  intros Hf. apply find_some in Hf as [Hin Hm].
  split; [by apply bool_decide_eq_true in Hm|by apply list_elem_of_In].
Qed.

Lemma users_change_ids us us' :
  users_change us us' →
  Forall (λ u, 0 ≤ models.ID u < 2 ^ 32) us → Forall (λ u, 0 ≤ models.ID u < 2 ^ 32) us'.
Proof.
  intros [|u Hu _|id u h Hf|id u Hf] Hus; [done|..].
  - apply Forall_app. split; [done|by constructor].
  - apply Forall_replace_first; [done|]. apply find_by_id_ID in Hf as [_ Hin].
    rewrite Forall_forall in Hus. by apply (Hus u).
  - apply Forall_replace_first; [done|]. apply find_by_id_ID in Hf as [_ Hin].
    rewrite Forall_forall in Hus. by apply (Hus u).
Qed.

Section ids.
  Context {libs : Libs}.

Lemma step_ids ttl w w' : step ttl w w' → ids_in_range w → ids_in_range w'.
Proof.
  unfold ids_in_range. intros [op w0|w0 w1 Hus _].
  - apply users_change_ids, exec_users_change.
  - by rewrite Hus.
Qed.

Lemma steps_ids ttl w w' : rtc (step ttl) w w' → ids_in_range w → ids_in_range w'.
Proof. induction 1 as [|w0 w1 w2 Hstep _ IH]; eauto using step_ids. Qed.

Lemma reachable_ids ttl w : reachable ttl w → ids_in_range w.
Proof.
  intros (w0 & Hus & _ & Hsteps). apply (steps_ids _ _ _ Hsteps).
  unfold ids_in_range. rewrite Hus. constructor.
Qed.

(** C9. [SaveUser] stores the record under an id of its own, the 32-bit
    number read off a fresh UUID, whatever id the record came with; hence
    every user of a service started on empty stores has an id between 0 and
    2^32 - 1, and none has the id -1 that [findSesion] returns for "no
    session". *)
Theorem C9_stored_ids_are_uint32 (ttl : Z) :
  (∀ u w,
     (UserDAO.SaveUser u w).1 = None →
     ∃ id, 0 ≤ id < 2 ^ 32
           ∧ users (UserDAO.SaveUser u w).2 = (users w ++ [models.with_ID id u])%list)
  ∧ (∀ i u w, UserDAO.SaveUser (models.with_ID i u) w = UserDAO.SaveUser u w)
  ∧ (∀ w, reachable ttl w →
       ∀ u, u ∈ users w → 0 ≤ models.ID u < 2 ^ 32 ∧ models.ID u ≠ -1).
Proof.
  split; [|split].
  - intros u w Hok. destruct (SaveUser_effect u w) as [(_ & i & Hi & _ & Hus)|[Hfail _]];
      [by exists i|done].
  - intros i u w. apply SaveUser_discards_ID.
  - intros w Hreach u Hu. apply reachable_ids in Hreach.
    unfold ids_in_range in Hreach. rewrite Forall_forall in Hreach.
    specialize (Hreach u Hu). lia.
Qed.

End ids.

(** The example worlds are states of a running service. *)
Lemma w_session_reachable : reachable (libs := toy_libs) 60 w_session.
Proof.
  exists w_empty. split; [done|]. split; [done|].
  apply (rtc_l _ _ w_registered); [apply step_op|].
  apply (rtc_l _ _ w_session); [apply step_op|]. apply rtc_refl.
Qed.

Lemma w_flaky_reachable : reachable (libs := toy_libs) 60 w_flaky.
Proof.
  destruct w_session_reachable as (w0 & Hus & Hts & Hsteps).
  exists w0. split; [done|]. split; [done|].
  eapply rtc_r; [exact Hsteps|]. by apply step_env.
Qed.

(** alice, registered through the service, has the id 7. *)
Lemma C9_witness :
  Forall (λ u, 0 ≤ models.ID u < 2 ^ 32 ∧ models.ID u ≠ -1) (users w_session).
Proof.
  apply Forall_forall. intros u Hu.
  exact (proj2 (proj2 (C9_stored_ids_are_uint32 (libs := toy_libs) 60))
           w_session w_session_reachable u Hu).
Defined.

(** ** The admin flag *)

Lemma find_snoc {A} (p : A → bool) (l : list A) (x : A) :
  find p (l ++ [x]) = match find p l with
                      | Some y => Some y
                      | None => if p x then Some x else None
                      end.
Proof. induction l as [|y l IH]; cbn; [done|]. by destruct (p y). Qed.

Lemma find_replace_first id j u' us :
  models.ID u' = id →
  find (matches (by_id j)) (replace_first (by_id id) u' us)
  = match find (matches (by_id id)) us with
    | Some _ => if bool_decide (j = id) then Some u' else find (matches (by_id j)) us
    | None => find (matches (by_id j)) us
    end.
Proof.
  intros Hu'. induction us as [|v us IH]; [done|]. cbn.
  destruct (decide (models.ID v = id)) as [Hv|Hv].
  - rewrite (bool_decide_eq_true_2 (models.ID v = id)) by done. cbn. rewrite Hu', Hv.
    destruct (decide (id = j)) as [->|Hj].
    + by rewrite !bool_decide_eq_true_2.
    + rewrite (bool_decide_eq_false_2 (id = j)), (bool_decide_eq_false_2 (j = id)); done.
  - rewrite (bool_decide_eq_false_2 (models.ID v = id)) by done. cbn.
    destruct (decide (models.ID v = j)) as [Hj|Hj].
    + rewrite (bool_decide_eq_true_2 (models.ID v = j)) by done.
      destruct (find _ us); [|done]. rewrite bool_decide_eq_false_2; congruence.
    + by rewrite (bool_decide_eq_false_2 (models.ID v = j)).
Qed.

(** No change of the collection takes the flag of a user away. *)
Lemma users_change_is_admin w w' j :
  users_change (users w) (users w') →
  is_admin_of w j = Some true → is_admin_of w' j = Some true.
Proof.
  unfold is_admin_of, stored_by_id.
  intros Hch. inversion Hch as [Heq|u _ _ Heq|id u h Hf Heq|id u Hf Heq]; intros Hj.
  - done.
  - rewrite find_snoc. by destruct (find _ (users w)).
  - rewrite find_replace_first, Hf by (by apply find_by_id_ID in Hf as [? _]).
    case_bool_decide as Hid; [|done]. subst j. by rewrite Hf in Hj.
  - rewrite find_replace_first, Hf by (by apply find_by_id_ID in Hf as [? _]).
    by case_bool_decide.
Qed.

Lemma UserDAO_IsAdmin_run id w :
  next_fault w = None →
  (UserDAO.IsAdmin id w).1
  = match stored_by_id w id with
    | Some u => (models.IsAdmin u, None)
    | None => (false, Some (fmt_Errorf "storage.mongo.IsAdmin: "
                              (errors_New storage_ErrUserNotFound)))
    end.
Proof.
  intros Hf. unfold UserDAO.IsAdmin. rewrite bind_run, findByID_run, Hf.
  by destruct (stored_by_id w id).
Qed.

Lemma UserDAO_IsAdmin_true id w :
  (UserDAO.IsAdmin id w).1 = (true, None) → is_admin_of w id = Some true.
Proof.
  unfold UserDAO.IsAdmin, is_admin_of. rewrite bind_run, findByID_run.
  destruct (next_fault w) as [e|]; cbn [fst snd].
  { by destruct (errors_Is e mongo_ErrNoDocuments). }
  destruct (stored_by_id w id) as [u|]; cbn; [|by settle].
  by intros [= ->].
Qed.

Section admin_flag.
  Context {libs : Libs}.

Lemma steps_is_admin ttl w w' j :
  rtc (step ttl) w w' → is_admin_of w j = Some true → is_admin_of w' j = Some true.
Proof.
  induction 1 as [|w0 w1 w2 Hstep _ IH]; [done|]. intros Hj. apply IH.
  destruct Hstep as [op w0|w0 w1 Hus _].
  - eapply users_change_is_admin; [apply exec_users_change|done].
  - unfold is_admin_of, stored_by_id in *. by rewrite Hus.
Qed.

Lemma ChangePassword_keeps_is_admin ttl id p w j :
  is_admin_of (auth.ChangePassword (app.authService ttl) id p w).2 j = is_admin_of w j.
Proof.
  assert (∀ h w, is_admin_of (UserDAO.ChangePassword id h w).2 j = is_admin_of w j) as Hdao.
  { clear. intros h w. unfold is_admin_of, stored_by_id, UserDAO.ChangePassword.
    rewrite bind_run, findByID_run.
    destruct (next_fault w) as [e|]; cbn [fst snd].
    { destruct (errors_Is e mongo_ErrNoDocuments); cbn; by rewrite driver_call_users. }
    destruct (stored_by_id w id) as [u|] eqn:Hu; cbn [fst snd].
    2: { settle. by rewrite driver_call_users. }
    rewrite bind_run, mongo_ReplaceOne_run.
    destruct (next_fault _) as [e|]; cbn; rewrite !driver_call_users; [done|].
    unfold stored_by_id in Hu. pose proof Hu as [Hid _]%find_by_id_ID.
    rewrite find_replace_first, Hu by done.
    case_bool_decide as Hj; [|done]. subst j. by rewrite Hu. }
  unfold auth.ChangePassword. rewrite bind_run.
  pose proof (rand_Read_preserves_users w) as Hr.
  destruct (rand_Read w) as [salt w1]. cbn [fst snd] in *.
  assert (is_admin_of w1 j = is_admin_of w j) as <-.
  { unfold is_admin_of, stored_by_id. by rewrite Hr. }
  destruct (bcrypt_GenerateFromPassword _ _ _) as [h [e|]]; cbn [fst snd]; [done|].
  rewrite bind_run. cbn [auth.usrChanger app.authService auth.UserChanger.ChangePassword
    app.userDAO_changer].
  specialize (Hdao h w1).
  destruct (UserDAO.ChangePassword id h w1) as [[e|] w2]; cbn [fst snd] in *; [|done].
  by destruct (errors_Is e storage_ErrUserNotFound).
Qed.

Lemma MakeAdmin_sets_is_admin ttl id w :
  (auth.MakeAdmin (app.authService ttl) id w).1 = None →
  is_admin_of (auth.MakeAdmin (app.authService ttl) id w).2 id = Some true.
Proof.
  unfold auth.MakeAdmin. rewrite bind_run.
  cbn [auth.usrChanger app.authService auth.UserChanger.MakeAdmin app.userDAO_changer].
  unfold UserDAO.MakeAdmin. rewrite bind_run, findByID_run.
  destruct (next_fault w) as [e|]; cbn [fst snd].
  { destruct (errors_Is e mongo_ErrNoDocuments); cbn; settle;
      by destruct (errors_Is e storage_ErrUserNotFound). }
  destruct (stored_by_id w id) as [u|] eqn:Hu; cbn [fst snd]; [|by settle].
  rewrite bind_run, mongo_ReplaceOne_run.
  destruct (next_fault _) as [e|]; cbn [fst snd].
  { settle. by destruct (errors_Is e storage_ErrUserNotFound). }
  intros _. cbn. unfold is_admin_of, stored_by_id. cbn.
  rewrite !driver_call_users.
  unfold stored_by_id in Hu. pose proof Hu as [Hid _]%find_by_id_ID.
  rewrite find_replace_first, Hu by done.
  by rewrite bool_decide_eq_true_2.
Qed.

End admin_flag.

(** ** Admission (C4) *)

Section admission.
  Context {libs : Libs} {R : Type}.
  Implicit Types (handler : M (option R * option error)) (md : MD).

(** C4. When the lookup of the caller's records fails: if the error is
    [ErrUserNotFound] and the method is [RegisterNewUser] the interceptor
    runs the handler (in the world the lookup left) and returns what it
    returns; in every other case (another error, or another method) it
    returns no response and an [Unauthenticated] status. *)
Theorem C4_failed_caller_lookup md tl rest method handler w us e w1 :
  MD_Get md "telegramLogin" = tl :: rest →
  UserDAO.GetUserByTelegram tl w = ((us, Some e), w1) →
  (errors_Is e storage_ErrUserNotFound = true ∧ method = "/Auth/RegisterNewUser" →
     grpcapp.UnaryInterceptor (Some md) method handler w = handler w1)
  ∧ (errors_Is e storage_ErrUserNotFound = false ∨ method ≠ "/Auth/RegisterNewUser" →
     ∃ msg, grpcapp.UnaryInterceptor (Some md) method handler w
            = ((None, Some (status_Error Unauthenticated msg)), w1)).
Proof.
  intros Hmd Hlookup. unfold grpcapp.UnaryInterceptor.
  rewrite Hmd, bind_run, Hlookup. cbn [fst snd].
  split.
  - intros [-> ->]. by rewrite bool_decide_eq_true_2.
  - intros [->|Hm]; [by eexists|].
    rewrite (bool_decide_eq_false_2 _ Hm), andb_false_r. by eexists.
Qed.

End admission.

(** A caller the directory has no document for: registration is let in, any
    other method is turned away. *)
Lemma C4_witness :
  (grpcapp.UnaryInterceptor (Some md_alice) "/Auth/RegisterNewUser" handler_ok
     w_no_documents).1 = (Some tt, None)
  ∧ ∃ msg, (grpcapp.UnaryInterceptor (Some md_alice) "/Auth/AuthorizeUser" handler_ok
              w_no_documents).1 = (None, Some (status_Error Unauthenticated msg)).
Proof.
  pose (lookup := UserDAO.GetUserByTelegram "tg=alice" w_no_documents).
  assert (UserDAO.GetUserByTelegram "tg=alice" w_no_documents
          = (([], Some (fmt_Errorf "storage.mongo.GetUserByTelegram: "
                          (errors_New storage_ErrUserNotFound))), lookup.2)) as Hlookup
    by (vm_compute; reflexivity).
  split.
  - rewrite (proj1 (C4_failed_caller_lookup md_alice "tg=alice" [] "/Auth/RegisterNewUser"
      handler_ok w_no_documents _ _ _ eq_refl Hlookup) (conj eq_refl eq_refl)).
    reflexivity.
  - destruct (proj2 (C4_failed_caller_lookup md_alice "tg=alice" [] "/Auth/AuthorizeUser"
      handler_ok w_no_documents _ _ _ eq_refl Hlookup)) as [msg Hmsg].
    + right. discriminate.
    + exists msg. by rewrite Hmsg.
Defined.

Lemma publicMethods_is_public (method : string) :
  grpcapp.map_index grpcapp.publicMethods method = is_public method.
Proof.
  unfold grpcapp.map_index, grpcapp.publicMethods, is_public.
  destruct (decide (method = "/Auth/AuthorizeUser")) as [->|Ha].
  { rewrite lookup_insert_eq. symmetry. apply bool_decide_eq_true_2. by right. }
  rewrite lookup_insert_ne by done.
  destruct (decide (method = "/Auth/RegisterNewUser")) as [->|Hr].
  { rewrite lookup_insert_eq. symmetry. apply bool_decide_eq_true_2. by left. }
  rewrite lookup_insert_ne, lookup_empty by done.
  symmetry. apply bool_decide_eq_false_2. by intros [?|?].
Qed.

(** With no stored id equal to -1, [findSesion] returns -1 exactly when no
    record has a token [JWT] can read. *)
Lemma findSesion_active_session (us : list models.User) (w : World) :
  Forall (λ u, models.ID u ≠ -1) us →
  grpcapp.findSesion us w
  = (default (-1) (active_session us w).1, (active_session us w).2)
  ∧ (active_session us w).1 ≠ Some (-1).
Proof.
  intros Hus. revert w. induction Hus as [|u us Hu Hus IH]; intros w; [done|].
  cbn [grpcapp.findSesion active_session]. rewrite !bind_run.
  destruct (TokenStorage.JWT (models.ID u) w) as [[token [e|]] w1]; cbn [fst snd].
  - apply IH.
  - split; [done|]. cbn. congruence.
Qed.


Section admission_table.
  Context {libs : Libs} {R : Type}.
  Implicit Types (handler : M (option R * option error)) (md : MD).

(** The interceptor, whatever the drivers do. Once the lookup of the
    caller's records has succeeded, let the active session be the first
    record whose token [JWT] reads (a read that fails counts as no token).
    With no active session, public methods are admitted and the others
    rejected with [Unauthenticated]. With an active session, public methods
    are rejected with [PermissionDenied]; for the other methods the admin
    flag of the session user is looked up: a failed lookup rejects the call
    with [Internal], an admin is admitted, and a user who is no admin is
    admitted to [ChangePassword] and rejected with [PermissionDenied]
    elsewhere. *)
Lemma admission_of_interceptor ttl md tl rest method handler w us w1 :
  reachable ttl w →
  MD_Get md "telegramLogin" = tl :: rest →
  UserDAO.GetUserByTelegram tl w = ((us, None), w1) →
  match active_session us w1 with
  | (None, w2) =>
      outcome_is (admission method None (false, None)) handler w2
        (grpcapp.UnaryInterceptor (Some md) method handler w)
  | (Some uid, w2) =>
      if is_public method
      then outcome_is (Reject PermissionDenied) handler w2
             (grpcapp.UnaryInterceptor (Some md) method handler w)
      else outcome_is (admission method (Some uid) (UserDAO.IsAdmin uid w2).1) handler
             (UserDAO.IsAdmin uid w2).2
             (grpcapp.UnaryInterceptor (Some md) method handler w)
  end.
Proof.
  intros Hreach Hmd Hlookup.
  assert (Forall (λ u, models.ID u ≠ -1) us) as Hids.
  { apply reachable_ids in Hreach. apply GetUserByTelegram_ok in Hlookup. subst us.
    apply Forall_forall. intros u [_ Hu]%list_elem_of_filter.
    unfold ids_in_range in Hreach. rewrite Forall_forall in Hreach.
    specialize (Hreach u Hu). lia. }
  unfold grpcapp.UnaryInterceptor.
  rewrite Hmd, bind_run, Hlookup. cbn [fst snd]. rewrite bind_run.
  destruct (findSesion_active_session us w1 Hids) as [-> Hnot].
  rewrite !publicMethods_is_public.
  destruct (active_session us w1) as [[uid|] w2]; cbn [fst snd default from_option id] in *.
  - rewrite bool_decide_eq_false_2 by congruence.
    destruct (is_public method) eqn:Hpub; [by eexists|].
    rewrite bind_run. unfold admission. rewrite Hpub.
    destruct (UserDAO.IsAdmin uid w2) as [[[|] [e|]] w3]; cbn [fst snd outcome_is];
      try (by eexists); try done.
    case_bool_decide; [done|by eexists].
  - rewrite bool_decide_eq_true_2 by done. unfold admission.
    destruct (is_public method); [done|by eexists].
Qed.

End admission_table.

(** ** Register, then authorize (C5) *)

Lemma calls_ok_S n w :
  calls_ok (S n) w → next_fault w = None ∧ calls_ok n (driver_call w).2.
Proof.
  unfold calls_ok, next_fault. rewrite driver_call_run. cbn [snd].
  destruct w as [? ? ? [|f fs] ? ?]; cbn.
  - intros _. split; [done|]. rewrite take_nil. constructor.
  - intros [-> Hfs]%Forall_cons. done.
Qed.

Lemma find_by_login_new (us : list models.User) (u : models.User) :
  violates_unique_index u us = false →
  find (matches (by_login (models.Login u))) (us ++ [u]) = Some u.
Proof.
  intros Hv. rewrite find_snoc.
  destruct (find _ us) as [v|] eqn:Hfind.
  - apply find_some in Hfind as [Hin Hm]. cbn in Hm.
    unfold violates_unique_index in Hv.
    assert (existsb (λ v, bool_decide (models.ID v = models.ID u)
                          || bool_decide (models.Login v = models.Login u)
                          || bool_decide (models.TelegramLogin v = models.TelegramLogin u)) us
            = true) as Hex; [|congruence].
    apply existsb_exists. exists v. split; [done|]. rewrite Hm. by rewrite orb_true_r.
  - cbn. by rewrite bool_decide_eq_true_2.
Qed.

Section register_authorize.
  Context {libs : Libs}.

Lemma RegisterUser_ok ttl login password tl w w1 :
  auth.RegisterUser (app.authService ttl) login password tl w = (None, w1) →
  ∃ salt hash id,
    bcrypt_GenerateFromPassword (bytes_of password) bcrypt_DefaultCost salt = (hash, None)
    ∧ 0 ≤ id < 2 ^ 32
    ∧ violates_unique_index (models.mkUser id login hash false tl) (users w) = false
    ∧ users w1 = (users w ++ [models.mkUser id login hash false tl])%list.
Proof.
  unfold auth.RegisterUser. rewrite bind_run.
  pose proof (rand_Read_preserves_users w) as Hr.
  destruct (rand_Read w) as [salt w0]. cbn [fst snd] in *.
  destruct (bcrypt_GenerateFromPassword _ _ _) as [h [e|]] eqn:Hgen; cbn [fst snd]; [done|].
  rewrite bind_run. cbn [auth.usrChanger app.authService auth.UserChanger.SaveUser
    app.userDAO_changer].
  destruct (SaveUser_effect (models.mkUser 0 login h false tl) w0)
    as [(Hok & i & Hi & Hv & Hus)|(Hfail & Hus)].
  - rewrite Hok. intros [= <-]. exists salt, h, i. rewrite Hus, <- Hr. done.
  - destruct (UserDAO.SaveUser _ w0) as [[e|] w2]; [|done]. cbn [fst snd].
    by destruct (errors_Is e storage_ErrUserExists).
Qed.

(** C5. Under the laws of the libraries (a bcrypt hash verifies against its
    password; signing succeeds and the claims can be read back), if
    [RegisterUser] succeeds it has added one record [u] with the login, and
    in any later world with the same user collection, where the user has no
    live token and the next two driver calls go through, [AuthorizeUser]
    with the same login and password returns a token and no error; the
    token's [uid] and [login] claims are the id and login of [u], and the
    token is stored as the user's live entry. *)
Theorem C5_register_then_authorize
    (parse : string → list byte → option (gmap string claim))
    (ttl : Z) (login password tl : string) (w w1 : World) :
  bcrypt_sound → jwt_signs → jwt_roundtrip parse →
  auth.RegisterUser (app.authService ttl) login password tl w = (None, w1) →
  ∃ u, users w1 = (users w ++ [u])%list
       ∧ models.Login u = login
       ∧ ∀ w2, users w2 = users w1 →
               calls_ok 2 w2 →
               live_entry w2 (token_key (models.ID u)) = None →
               ∃ token claims,
                 (auth.AuthorizeUser (app.authService ttl) login password w2).1
                 = (token, None)
                 ∧ parse token (bytes_of (SECRET w2)) = Some claims
                 ∧ claims !! "uid" = Some (claim_int (models.ID u))
                 ∧ claims !! "login" = Some (claim_string (models.Login u))
                 ∧ value <$> tokens (auth.AuthorizeUser (app.authService ttl)
                                        login password w2).2
                               !! token_key (models.ID u)
                   = Some token.
Proof.
  intros Hbcrypt Hsigns Hparse Hreg.
  apply RegisterUser_ok in Hreg as (salt & h & i & Hgen & Hi & Hv & Hus).
  exists (models.mkUser i login h false tl). split; [done|]. split; [done|].
  intros w2 Hus2 Hcalls Hlive. cbn [models.ID models.Login] in *.
  apply calls_ok_S in Hcalls as [Hf1 Hcalls]. apply calls_ok_S in Hcalls as [Hf2 _].
  unfold auth.AuthorizeUser. cbn [auth.usrProvider auth.tknProvider auth.tokenTTL
    app.authService auth.UserProvider.User auth.TokenProvider.SaveJWT
    app.userDAO_provider app.redisclient].
  rewrite bind_run, (UserDAO_User_run _ _ Hf1).
  unfold stored_by_login. rewrite Hus2, Hus.
  pose proof (find_by_login_new (users w) (models.mkUser i login h false tl) Hv) as Hfind.
  cbn [models.Login] in Hfind. rewrite Hfind.
  cbn [fst snd models.PassHash]. rewrite (Hbcrypt _ _ _ _ Hgen).
  rewrite bind_run. unfold jwt.NewToken. run_step. cbn [models.ID models.Login].
  set (claims := <["exp" := _]> _).
  pose proof (Hsigns claims (bytes_of (SECRET (driver_call w2).2))) as Hsig.
  destruct (jwt_SignedString claims _) as [token [e|]] eqn:Hsign; [done|].
  cbn [fst snd]. rewrite bind_run.
  unfold TokenStorage.SaveJWT. rewrite bind_run, redis_SetNX_run, Hf2.
  assert (live_entry (driver_call w2).2 (token_key i) = None) as ->.
  { unfold live_entry in *. by rewrite driver_call_tokens, driver_call_clock. }
  cbn. exists token, claims.
  assert (SECRET (driver_call w2).2 = SECRET w2) as HS.
  { rewrite driver_call_run. done. }
  rewrite HS in Hsign. rewrite (Hparse _ _ _ Hsign).
  split; [done|]. split; [done|]. split; [done|]. split; [done|].
  by rewrite lookup_insert_eq.
Qed.

End register_authorize.

(** The laws hold of the example libraries. *)
Lemma toy_bcrypt_sound : bcrypt_sound (libs := toy_libs).
Proof.
  intros password cost salt hash. cbn.
  case_bool_decide; [done|]. intros [= <-]. by rewrite bool_decide_eq_true_2.
Qed.

Lemma toy_jwt_signs : jwt_signs (libs := toy_libs).
Proof. done. Qed.

Lemma positive_of_binary_of_positive p : positive_of_binary (binary_of_positive p) = Some p.
Proof. induction p as [p IH|p IH|]; cbn; [by rewrite IH..|done]. Qed.

Lemma toy_jwt_roundtrip : jwt_roundtrip (libs := toy_libs) toy_parse.
Proof.
  intros claims key token [= <-]. unfold toy_parse.
  rewrite positive_of_binary_of_positive. cbn. apply decode_encode.
Qed.

(** alice registers and logs in. *)
Lemma C5_witness :
  ∃ token claims,
    (auth.AuthorizeUser (libs := toy_libs) (app.authService 60) "a" "x" w_registered).1
    = (token, None)
    ∧ toy_parse token (bytes_of "s3cret") = Some claims
    ∧ claims !! "uid" = Some (claim_int 7)
    ∧ claims !! "login" = Some (claim_string "a").
Proof.
  destruct (C5_register_then_authorize (libs := toy_libs) toy_parse 60 "a" "x" "tg=alice"
              w_empty w_registered toy_bcrypt_sound toy_jwt_signs toy_jwt_roundtrip)
    as (u & Hus & Hlogin & Hauth).
  { vm_compute; reflexivity. }
  assert (models.ID u = 7) as Hid.
  { assert (users w_registered
            = [models.mkUser 7 "a" (toy_hash (bytes_of "x")) false "tg=alice"]) as Heq
      by (vm_compute; reflexivity).
    rewrite Heq in Hus. cbn in Hus. by injection Hus as <-. }
  destruct (Hauth w_registered eq_refl) as (token & claims & Hok & Hparse & Huid & Hl & _).
  { repeat constructor. }
  { rewrite Hid. vm_compute; reflexivity. }
  assert (SECRET w_registered = "s3cret") as Hsecret by (vm_compute; reflexivity).
  rewrite Hsecret in Hparse. rewrite Hid in Huid. rewrite Hlogin in Hl.
  exists token, claims. exact (conj Hok (conj Hparse (conj Huid Hl))).
Defined.


(** * Further properties of the code *)

(** ** The token store *)

Lemma redis_Get_run key w :
  redis_Get key w
  = match next_fault w with
    | Some e => (("", Some e), (driver_call w).2)
    | None =>
        match live_entry w key with
        | Some e => ((value e, None), (driver_call w).2)
        | None => (("", Some (errors_New redis_Nil)), (driver_call w).2)
        end
    end.
Proof.
  unfold redis_Get, next_fault. rewrite bind_run, driver_call_run. cbn [fst snd].
  destruct (head (faults w) ≫= id); [done|]. run_step.
  unfold live_entry. cbn. by destruct (tokens w !! key) as [e|]; [destruct (live _ e)|].
Qed.

Lemma redis_Del_run key w :
  redis_Del key w
  = match next_fault w with
    | Some e => (Some e, (driver_call w).2)
    | None => (None, set_tokens (delete key (tokens w)) (driver_call w).2)
    end.
Proof.
  unfold redis_Del, next_fault. rewrite bind_run, driver_call_run. cbn [fst snd].
  by destruct (head (faults w) ≫= id).
Qed.

Lemma JWT_run id w :
  next_fault w = None →
  TokenStorage.JWT id w
  = match live_entry w (token_key id) with
    | Some e => ((value e, None), (driver_call w).2)
    | None => (("", Some TokenNotFound), (driver_call w).2)
    end.
Proof.
  intros Hf. unfold TokenStorage.JWT. rewrite bind_run, redis_Get_run, Hf.
  destruct (live_entry w (token_key id)); [done|]. cbn [fst snd].
  by rewrite bool_decide_eq_true_2.
Qed.

Lemma SaveJWT_run token id ttl w :
  next_fault w = None →
  TokenStorage.SaveJWT token id ttl w
  = match live_entry w (token_key id) with
    | Some _ => (Some TokenExists, (driver_call w).2)
    | None =>
        (None,
         set_tokens
           (<[token_key id := mkEntry token (if bool_decide (ttl = 0) then None
                                             else Some (clock w + ttl))]> (tokens w))
           (driver_call w).2)
    end.
Proof.
  intros Hf. unfold TokenStorage.SaveJWT. rewrite bind_run, redis_SetNX_run, Hf.
  by destruct (live_entry w (token_key id)).
Qed.

Lemma DeleteJWT_run id w :
  TokenStorage.DeleteJWT id w
  = match next_fault w with
    | Some e => (Some (fmt_Errorf "storage.redis.DeleteJWT: " e), (driver_call w).2)
    | None => (None, set_tokens (delete (token_key id) (tokens w)) (driver_call w).2)
    end.
Proof.
  unfold TokenStorage.DeleteJWT. rewrite bind_run, redis_Del_run.
  by destruct (next_fault w).
Qed.

Lemma SaveJWT_ok_fault token id ttl w :
  (TokenStorage.SaveJWT token id ttl w).1 = None → next_fault w = None.
Proof.
  unfold TokenStorage.SaveJWT. rewrite bind_run, redis_SetNX_run.
  by destruct (next_fault w).
Qed.

(** X1. A token saved with a time to live of whole milliseconds is what
    [JWT] returns for the user up to a millisecond before the time to live
    has passed, and [JWT] answers [ErrTokenNotFound] from a millisecond after
    it has passed (the keyspace being left alone and the Redis call going
    through). The millisecond on either side is the grain of the server's
    clock. *)
Theorem X1_saved_token_is_read_back_until_it_expires
    (token : string) (id ttl : Z) (w w2 : World) :
  whole_milliseconds ttl →
  (TokenStorage.SaveJWT token id ttl w).1 = None →
  tokens w2 = tokens (TokenStorage.SaveJWT token id ttl w).2 →
  next_fault w2 = None →
  ((clock w2 + millisecond ≤ clock w + ttl)%Z → (TokenStorage.JWT id w2).1 = (token, None))
  ∧ ((clock w + ttl + millisecond ≤ clock w2)%Z →
     (TokenStorage.JWT id w2).1 = ("", Some TokenNotFound)).
Proof.
  intros [Httl _] Hok Hts Hf2. pose proof (SaveJWT_ok_fault _ _ _ _ Hok) as Hf.
  rewrite (SaveJWT_run _ _ _ _ Hf) in Hok, Hts.
  destruct (live_entry w (token_key id)); [done|]. cbn [fst snd] in Hts.
  rewrite bool_decide_eq_false_2 in Hts by lia. cbn in Hts.
  rewrite (JWT_run _ _ Hf2). unfold live_entry. rewrite Hts, lookup_insert_eq.
  unfold live. cbn [expires].
  split; intros Hclock.
  - rewrite bool_decide_eq_true_2; [done|]. unfold millisecond in Hclock. lia.
  - rewrite bool_decide_eq_false_2; [done|]. unfold millisecond in Hclock. lia.
Qed.

(** alice's token, saved at time 1000 for a minute: read back a second before
    the minute is over, gone a millisecond after it. *)
Lemma X1_witness :
  (TokenStorage.JWT 7 (mkWorld [] (tokens (TokenStorage.SaveJWT "t" 7 minute w_empty).2)
                         (1000 + 59 * 1000 * millisecond) [] [] "")).1 = ("t", None)
  ∧ (TokenStorage.JWT 7 (mkWorld [] (tokens (TokenStorage.SaveJWT "t" 7 minute w_empty).2)
                           (1000 + minute + millisecond) [] [] "")).1 = ("", Some TokenNotFound).
Proof.
  assert (whole_milliseconds minute) as Hms by (split; [reflexivity|reflexivity]).
  split.
  - apply (X1_saved_token_is_read_back_until_it_expires "t" 7 minute w_empty
             (mkWorld [] (tokens (TokenStorage.SaveJWT "t" 7 minute w_empty).2)
                (1000 + 59 * 1000 * millisecond) [] [] ""));
      [exact Hms|vm_compute; reflexivity|reflexivity|reflexivity|vm_compute; discriminate].
  - apply (X1_saved_token_is_read_back_until_it_expires "t" 7 minute w_empty
             (mkWorld [] (tokens (TokenStorage.SaveJWT "t" 7 minute w_empty).2)
                (1000 + minute + millisecond) [] [] ""));
      [exact Hms|vm_compute; reflexivity|reflexivity|reflexivity|vm_compute; discriminate].
Defined.

(** X2. [DeleteJWT] succeeds whether or not the user has an entry, as long as
    the Redis call goes through; after it [JWT] answers [ErrTokenNotFound]
    and a new token can be saved. A failed call leaves the keyspace as it
    was. *)
Theorem X2_DeleteJWT_clears_the_entry (id : Z) (w : World) :
  (next_fault w = None →
     (TokenStorage.DeleteJWT id w).1 = None
     ∧ ∀ w2, tokens w2 = tokens (TokenStorage.DeleteJWT id w).2 →
             next_fault w2 = None →
             (TokenStorage.JWT id w2).1 = ("", Some TokenNotFound)
             ∧ ∀ token ttl, (TokenStorage.SaveJWT token id ttl w2).1 = None)
  ∧ ((TokenStorage.DeleteJWT id w).1 ≠ None →
     tokens (TokenStorage.DeleteJWT id w).2 = tokens w).
Proof.
  rewrite DeleteJWT_run. split.
  - intros ->. split; [done|]. cbn [fst snd]. intros w2 Hts Hf2.
    assert (live_entry w2 (token_key id) = None) as Hnone.
    { unfold live_entry. rewrite Hts. cbn. by rewrite lookup_delete_eq. }
    rewrite (JWT_run _ _ Hf2), Hnone. split; [done|].
    intros token ttl. by rewrite (SaveJWT_run _ _ _ _ Hf2), Hnone.
  - destruct (next_fault w); [|done]. intros _. cbn. apply driver_call_tokens.
Qed.

(** alice logs out. *)
Lemma X2_witness :
  (TokenStorage.DeleteJWT 7 w_session).1 = None
  ∧ (TokenStorage.JWT 7 (TokenStorage.DeleteJWT 7 w_session).2).1 = ("", Some TokenNotFound).
Proof.
  destruct (proj1 (X2_DeleteJWT_clears_the_entry 7 w_session) eq_refl) as [Hok Hafter].
  split; [exact Hok|].
  exact (proj1 (Hafter (TokenStorage.DeleteJWT 7 w_session).2 eq_refl
                 ltac:(vm_compute; reflexivity))).
Defined.

Lemma token_key_inj : Inj (=) (=) token_key.
Proof.
  intros i j Hij. unfold token_key in Hij.
  apply (inj (String.app "user:")) in Hij. by apply (inj pretty) in Hij.
Qed.

(** X3. The key of a user is the key of no other user: saving or deleting the
    token of one user leaves the entry of every other user as it was. *)
Theorem X3_token_entries_are_per_user (token : string) (id id' ttl : Z) (w : World) :
  id' ≠ id →
  token_key id' ≠ token_key id
  ∧ tokens (TokenStorage.SaveJWT token id ttl w).2 !! token_key id' = tokens w !! token_key id'
  ∧ tokens (TokenStorage.DeleteJWT id w).2 !! token_key id' = tokens w !! token_key id'.
Proof.
  intros Hne. assert (token_key id ≠ token_key id') as Hkey.
  { intros Heq. by apply token_key_inj in Heq. }
  split; [done|]. split.
  - unfold TokenStorage.SaveJWT. rewrite bind_run, redis_SetNX_run.
    destruct (next_fault w); cbn; [by rewrite driver_call_tokens|].
    destruct (live_entry w (token_key id)); cbn; rewrite ?lookup_insert_ne by done;
      by rewrite ?driver_call_tokens.
  - rewrite DeleteJWT_run. destruct (next_fault w); cbn;
      rewrite ?lookup_delete_ne by done; by rewrite ?driver_call_tokens.
Qed.

Lemma X3_witness :
  tokens (TokenStorage.DeleteJWT 8 w_session).2 !! token_key 7
  = tokens w_session !! token_key 7.
Proof.
  exact (proj2 (proj2 (X3_token_entries_are_per_user "" 8 7 0 w_session
                         ltac:(discriminate)))).
Defined.

(** ** The auth service on the token store *)

Lemma driver_call_SECRET w : SECRET (driver_call w).2 = SECRET w.
Proof. by rewrite driver_call_run. Qed.

Lemma live_entry_driver_call w key : live_entry (driver_call w).2 key = live_entry w key.
Proof. unfold live_entry. by rewrite driver_call_tokens, driver_call_clock. Qed.

Lemma User_cases login w :
  (∃ e, UserDAO.User login w = ((models.zero, Some e), (driver_call w).2))
  ∨ (∃ u, next_fault w = None ∧ stored_by_login w login = Some u
          ∧ UserDAO.User login w = ((u, None), (driver_call w).2)).
Proof.
  unfold UserDAO.User, stored_by_login. rewrite bind_run, mongo_FindOne_run.
  destruct (next_fault w) as [e|]; cbn [fst snd].
  { left. destruct (errors_Is e mongo_ErrNoDocuments); by eexists. }
  destruct (find _ (users w)) as [u|]; cbn [fst snd].
  - right. by exists u.
  - left. settle. by eexists.
Qed.

Section authorize_more.
  Context {libs : Libs}.

Lemma NewToken_run u ttl w :
  jwt.NewToken u ttl w
  = match jwt_SignedString (claims_of u (clock w + ttl)) (bytes_of (SECRET w)) with
    | (_, Some e) => (("", Some e), w)
    | (token, None) => ((token, None), w)
    end.
Proof.
  unfold jwt.NewToken, claims_of. run_step.
  by destruct (jwt_SignedString _ _) as [token [e|]].
Qed.

Lemma AuthorizeUser_run ttl login password w u token :
  calls_ok 2 w →
  stored_by_login w login = Some u →
  bcrypt_CompareHashAndPassword (models.PassHash u) (bytes_of password) = None →
  jwt_SignedString (claims_of u (clock w + ttl)) (bytes_of (SECRET w)) = (token, None) →
  auth.AuthorizeUser (app.authService ttl) login password w
  = match live_entry w (token_key (models.ID u)) with
    | Some _ =>
        (("", Some (fmt_Errorf "auth.AuthorizeUser: " TokenExists)),
         (driver_call (driver_call w).2).2)
    | None =>
        ((token, None),
         set_tokens
           (<[token_key (models.ID u) :=
                mkEntry token (if bool_decide (ttl = 0) then None
                               else Some (clock w + ttl))]> (tokens w))
           (driver_call (driver_call w).2).2)
    end.
Proof.
  intros Hcalls Hu Hcmp Hsign.
  apply calls_ok_S in Hcalls as [Hf1 Hcalls]. apply calls_ok_S in Hcalls as [Hf2 _].
  unfold auth.AuthorizeUser. cbn [auth.usrProvider auth.tknProvider auth.tokenTTL
    app.authService auth.UserProvider.User auth.TokenProvider.SaveJWT
    app.userDAO_provider app.redisclient].
  rewrite bind_run, (UserDAO_User_run _ _ Hf1), Hu. cbn [fst snd]. rewrite Hcmp.
  rewrite bind_run, NewToken_run, driver_call_clock, driver_call_SECRET, Hsign.
  cbn [fst snd]. rewrite bind_run, (SaveJWT_run _ _ _ _ Hf2), live_entry_driver_call.
  destruct (live_entry w (token_key (models.ID u))); cbn [fst snd]; [done|].
  by rewrite driver_call_tokens, driver_call_clock.
Qed.

(** X4. [auth.GetJWT] for a user without a live token, the Redis call going
    through: the error is [storage.ErrTokenNotFound] wrapped twice; it is
    not [auth.ErrUserNotFound], the error the function looks for. With a
    live token the token is returned. Nothing is written. *)
Theorem X4_GetJWT_reports_token_not_found (ttl id : Z) (w : World) :
  next_fault w = None →
  (auth.GetJWT (app.authService ttl) id w).1
  = match live_entry w (token_key id) with
    | Some e => (value e, None)
    | None => ("", Some (fmt_Errorf "auth.GetJWT: " TokenNotFound))
    end
  ∧ errors_Is (fmt_Errorf "auth.GetJWT: " TokenNotFound) storage_ErrTokenNotFound = true
  ∧ errors_Is (fmt_Errorf "auth.GetJWT: " TokenNotFound) auth_ErrUserNotFound = false
  ∧ tokens (auth.GetJWT (app.authService ttl) id w).2 = tokens w
  ∧ users (auth.GetJWT (app.authService ttl) id w).2 = users w.
Proof.
  intros Hf. unfold auth.GetJWT. cbn [auth.tknProvider app.authService
    auth.TokenProvider.JWT app.redisclient].
  rewrite bind_run, (JWT_run _ _ Hf).
  destruct (live_entry w (token_key id)); cbn [fst snd]; settle;
    by rewrite driver_call_tokens, driver_call_users.
Qed.

(** X5. A second login while the user's token is live (right password, the
    driver calls going through, signing succeeding) fails with
    [storage.ErrTokenExists] under the names of the two operations, returns
    no token, and leaves the keyspace, so the first token, as it was. The
    error is not [auth.ErrTokenExists]. *)
Theorem X5_second_login_keeps_the_first_token
    (ttl : Z) (login password : string) (w : World) (u : models.User) (e : TokenEntry) :
  jwt_signs →
  calls_ok 2 w →
  stored_by_login w login = Some u →
  bcrypt_CompareHashAndPassword (models.PassHash u) (bytes_of password) = None →
  live_entry w (token_key (models.ID u)) = Some e →
  (auth.AuthorizeUser (app.authService ttl) login password w).1
  = ("", Some (fmt_Errorf "auth.AuthorizeUser: " TokenExists))
  ∧ errors_Is (fmt_Errorf "auth.AuthorizeUser: " TokenExists) storage_ErrTokenExists = true
  ∧ errors_Is (fmt_Errorf "auth.AuthorizeUser: " TokenExists) auth_ErrTokenExists = false
  ∧ tokens (auth.AuthorizeUser (app.authService ttl) login password w).2 = tokens w
  ∧ live_entry (auth.AuthorizeUser (app.authService ttl) login password w).2
      (token_key (models.ID u)) = Some e.
Proof.
  intros Hsigns Hcalls Hu Hcmp Hlive.
  pose proof (Hsigns (claims_of u (clock w + ttl)) (bytes_of (SECRET w))) as Hsig.
  destruct (jwt_SignedString _ _) as [token [err|]] eqn:Hsign; [done|].
  rewrite (AuthorizeUser_run ttl login password w u token Hcalls Hu Hcmp Hsign), Hlive.
  cbn [fst snd]. rewrite !live_entry_driver_call, !driver_call_tokens. done.
Qed.

Lemma AuthorizeUser_outcomes (ttl : Z) (login password : string) (w : World) :
  users (auth.AuthorizeUser (app.authService ttl) login password w).2 = users w
  ∧ (∀ token,
       (auth.AuthorizeUser (app.authService ttl) login password w).1 = (token, None) →
       ∃ u, stored_by_login w login = Some u
            ∧ bcrypt_CompareHashAndPassword (models.PassHash u) (bytes_of password) = None
            ∧ live_entry w (token_key (models.ID u)) = None
            ∧ jwt_SignedString (claims_of u (clock w + ttl)) (bytes_of (SECRET w))
              = (token, None)
            ∧ tokens (auth.AuthorizeUser (app.authService ttl) login password w).2
              = <[token_key (models.ID u) :=
                    mkEntry token (if bool_decide (ttl = 0) then None
                                   else Some (clock w + ttl))]> (tokens w))
  ∧ ((auth.AuthorizeUser (app.authService ttl) login password w).1.2 ≠ None →
       (auth.AuthorizeUser (app.authService ttl) login password w).1.1 = ""
       ∧ tokens (auth.AuthorizeUser (app.authService ttl) login password w).2 = tokens w).
Proof.
  split.
  { assert (preserves users (auth.AuthorizeUser (app.authService ttl) login password))
      as ->; [|done].
    unfold auth.AuthorizeUser. cbn. frame. }
  unfold auth.AuthorizeUser. cbn [auth.usrProvider auth.tknProvider auth.tokenTTL
    app.authService auth.UserProvider.User auth.TokenProvider.SaveJWT
    app.userDAO_provider app.redisclient].
  rewrite bind_run.
  destruct (User_cases login w) as [[e ->]|(u & Hf & Hu & ->)]; cbn [fst snd].
  { destruct (errors_Is e storage_ErrUserNotFound); cbn;
      (split; [done|]); intros _; by rewrite driver_call_tokens. }
  destruct (bcrypt_CompareHashAndPassword _ _) as [e|] eqn:Hcmp.
  { cbn. split; [done|]. intros _. by rewrite driver_call_tokens. }
  rewrite bind_run, NewToken_run, driver_call_clock, driver_call_SECRET.
  destruct (jwt_SignedString _ _) as [token [e|]] eqn:Hsign; cbn [fst snd].
  { cbn. split; [done|]. intros _. by rewrite driver_call_tokens. }
  rewrite bind_run. unfold TokenStorage.SaveJWT.
  rewrite bind_run, redis_SetNX_run, live_entry_driver_call.
  destruct (next_fault (driver_call w).2) as [e|]; cbn [fst snd].
  { cbn. split; [done|]. intros _. by rewrite !driver_call_tokens. }
  destruct (live_entry w (token_key (models.ID u))) as [e|] eqn:Hlive; cbn [fst snd].
  { cbn. split; [done|]. intros _. by rewrite !driver_call_tokens. }
  cbn. split; [|done]. intros ? [= <-]. exists u.
  by rewrite !driver_call_tokens, driver_call_clock.
Qed.

(** X6. What a login can and cannot do. It never changes the user
    collection. If it returns without error, the login belongs to a stored
    user whose hash the password verifies against, the user had no live
    token, the token returned is the signature of the user's claims, and
    that token is now the user's entry (nothing else of the keyspace
    changes). If it returns an error, the token returned is empty and the
    keyspace is as it was. *)
Theorem X6_login_is_sound_and_clean (ttl : Z) (login password : string) (w : World) :
  users (auth.AuthorizeUser (app.authService ttl) login password w).2 = users w
  ∧ (∀ token,
       (auth.AuthorizeUser (app.authService ttl) login password w).1 = (token, None) →
       ∃ u, stored_by_login w login = Some u
            ∧ bcrypt_CompareHashAndPassword (models.PassHash u) (bytes_of password) = None
            ∧ live_entry w (token_key (models.ID u)) = None
            ∧ jwt_SignedString (claims_of u (clock w + ttl)) (bytes_of (SECRET w))
              = (token, None)
            ∧ tokens (auth.AuthorizeUser (app.authService ttl) login password w).2
              = <[token_key (models.ID u) :=
                    mkEntry token (if bool_decide (ttl = 0) then None
                                   else Some (clock w + ttl))]> (tokens w))
  ∧ ((auth.AuthorizeUser (app.authService ttl) login password w).1.2 ≠ None →
       (auth.AuthorizeUser (app.authService ttl) login password w).1.1 = ""
       ∧ tokens (auth.AuthorizeUser (app.authService ttl) login password w).2 = tokens w).
Proof. apply AuthorizeUser_outcomes. Qed.

End authorize_more.

Lemma w_session_calls_ok : calls_ok 2 w_session.
Proof. vm_compute. constructor. Qed.

(** alice logs in a second time. *)
Lemma X5_witness :
  (auth.AuthorizeUser (libs := toy_libs) (app.authService 60) "a" "x" w_session).1
  = ("", Some (fmt_Errorf "auth.AuthorizeUser: " TokenExists)).
Proof.
  destruct (live_entry w_session (token_key 7)) as [e|] eqn:He;
    [|vm_compute in He; discriminate He].
  refine (proj1 (X5_second_login_keeps_the_first_token (libs := toy_libs) 60 "a" "x"
    w_session (models.mkUser 7 "a" (toy_hash (bytes_of "x")) false "tg=alice") e
    toy_jwt_signs w_session_calls_ok _ _ He)).
  - vm_compute; reflexivity.
  - vm_compute; reflexivity.
Defined.

Lemma X4_witness :
  (auth.GetJWT (app.authService 60) 7 w_registered).1
  = ("", Some (fmt_Errorf "auth.GetJWT: " TokenNotFound)).
Proof.
  rewrite (proj1 (X4_GetJWT_reports_token_not_found 60 7 w_registered
                    eq_refl)).
  vm_compute; reflexivity.
Defined.

Lemma X6_witness :
  ∃ u, stored_by_login w_registered "a" = Some u
       ∧ live_entry w_registered (token_key (models.ID u)) = None.
Proof.
  destruct (auth.AuthorizeUser (libs := toy_libs) (app.authService 60) "a" "x" w_registered)
    as [[token err] w'] eqn:Hrun.
  assert (err = None) as -> by (vm_compute in Hrun; by injection Hrun as _ <- _).
  destruct (proj1 (proj2 (X6_login_is_sound_and_clean (libs := toy_libs) 60 "a" "x"
              w_registered)) token) as (u & Hu & _ & Hlive & _).
  { by rewrite Hrun. }
  exists u. exact (conj Hu Hlive).
Defined.

(** ** Registration *)

Lemma rand_Read_next_fault w : next_fault (rand_Read w).2 = next_fault w.
Proof. by destruct w as [? ? ? ? [|r rs] ?]. Qed.

Lemma uuid_New_next_fault w : next_fault (uuid_New w).2 = next_fault w.
Proof. unfold uuid_New. rewrite bind_run. cbn. apply rand_Read_next_fault. Qed.

Lemma uuid_New_preserves_tokens : preserves tokens uuid_New.
Proof. unfold uuid_New. frame. Qed.

Lemma violates_unique_index_spec (u : models.User) (us : list models.User) :
  violates_unique_index u us = true
  ↔ ∃ v, v ∈ us ∧ (models.ID v = models.ID u ∨ models.Login v = models.Login u
                    ∨ models.TelegramLogin v = models.TelegramLogin u).
Proof.
  unfold violates_unique_index. rewrite existsb_exists. split.
  - intros (v & Hin & Hv). exists v. split; [by apply list_elem_of_In|].
    apply orb_true_iff in Hv as [Hv|Hv]; [apply orb_true_iff in Hv as [Hv|Hv]|];
      apply bool_decide_eq_true in Hv; auto.
  - intros (v & Hin & Hv). exists v. split; [by apply list_elem_of_In|].
    destruct Hv as [Hv|[Hv|Hv]]; rewrite (bool_decide_eq_true_2 _ Hv);
      by rewrite ?orb_true_r.
Qed.

Section registration.
  Context {libs : Libs}.

(** [RegisterUser] when the password can be hashed and the insert reaches
    the database. *)
Lemma RegisterUser_run ttl login password tl w :
  hashable password →
  next_fault w = None →
  auth.RegisterUser (app.authService ttl) login password tl w
  = let hash := (bcrypt_GenerateFromPassword (bytes_of password) bcrypt_DefaultCost
                   (rand_Read w).1).1 in
    let u := models.mkUser (next_id w) login hash false tl in
    let w' := (driver_call (uuid_New (rand_Read w).2).2).2 in
    if violates_unique_index u (users w)
    then (Some (fmt_Errorf "auth.RegisterUser: " (errors_New auth_ErrUserExists)), w')
    else (None, set_users (users w ++ [u]) w').
Proof.
  intros Hhash Hf. unfold auth.RegisterUser, next_id. rewrite bind_run.
  pose proof (rand_Read_preserves_users w) as Hr.
  pose proof (rand_Read_next_fault w) as Hrf.
  destruct (rand_Read w) as [salt w0]. cbn [fst snd] in *.
  specialize (Hhash salt).
  destruct (bcrypt_GenerateFromPassword _ _ _) as [h [e|]]; [done|]. cbn [fst snd].
  rewrite bind_run. cbn [auth.usrChanger app.authService auth.UserChanger.SaveUser
    app.userDAO_changer].
  unfold UserDAO.SaveUser. rewrite !bind_run, mongo_InsertOne_run.
  rewrite uuid_New_next_fault, Hrf, Hf, uuid_New_preserves_users, Hr.
  cbn [models.with_ID models.Login models.PassHash models.IsAdmin models.TelegramLogin].
  destruct (violates_unique_index _ (users w)); cbn [fst snd]; [|done].
  by settle.
Qed.

(** X7. Registering is refused with [auth.ErrUserExists], and nothing is
    stored, when a stored user has the login, or the telegram login, or the
    id the new record would get (the 32-bit id is random: a fresh login and
    telegram login do not rule the refusal out). *)
Theorem X7_RegisterUser_refuses_duplicates
    (ttl : Z) (login password tl : string) (w : World) (v : models.User) :
  hashable password →
  next_fault w = None →
  v ∈ users w →
  models.ID v = next_id w ∨ models.Login v = login ∨ models.TelegramLogin v = tl →
  (auth.RegisterUser (app.authService ttl) login password tl w).1
  = Some (fmt_Errorf "auth.RegisterUser: " (errors_New auth_ErrUserExists))
  ∧ users (auth.RegisterUser (app.authService ttl) login password tl w).2 = users w
  ∧ tokens (auth.RegisterUser (app.authService ttl) login password tl w).2 = tokens w.
Proof.
  intros Hhash Hf Hv Hdup. rewrite (RegisterUser_run _ _ _ _ _ Hhash Hf). cbv zeta.
  rewrite (proj2 (violates_unique_index_spec _ (users w))) by (by exists v).
  cbn [fst snd].
  rewrite driver_call_users, driver_call_tokens, uuid_New_preserves_users,
    uuid_New_preserves_tokens, rand_Read_preserves_users, rand_Read_preserves_tokens.
  done.
Qed.

Lemma RegisterUser_preserves_tokens ttl login password tl :
  preserves tokens (auth.RegisterUser (app.authService ttl) login password tl).
Proof.
  unfold auth.RegisterUser. cbn [auth.usrChanger app.authService
    auth.UserChanger.SaveUser app.userDAO_changer].
  unfold UserDAO.SaveUser, mongo_InsertOne, uuid_New. frame.
Qed.

(** X14. A successful registration adds exactly one record, at the end of
    the collection: it has the login and the telegram login given, is no
    admin, has an id between 0 and 2^32 - 1, a hash the password verifies
    against (bcrypt being sound), and shares neither id nor login nor
    telegram login with a record stored before. A failed registration
    leaves the collection as it was. The token cache is not touched. *)
Theorem X14_RegisterUser_adds_one_plain_user
    (ttl : Z) (login password tl : string) (w : World) :
  bcrypt_sound →
  ((auth.RegisterUser (app.authService ttl) login password tl w).1 = None →
     ∃ u, users (auth.RegisterUser (app.authService ttl) login password tl w).2
          = (users w ++ [u])%list
          ∧ models.Login u = login
          ∧ models.TelegramLogin u = tl
          ∧ models.IsAdmin u = false
          ∧ 0 ≤ models.ID u < 2 ^ 32
          ∧ bcrypt_CompareHashAndPassword (models.PassHash u) (bytes_of password) = None
          ∧ ∀ v, v ∈ users w →
                 models.ID v ≠ models.ID u ∧ models.Login v ≠ login
                 ∧ models.TelegramLogin v ≠ tl)
  ∧ ((auth.RegisterUser (app.authService ttl) login password tl w).1 ≠ None →
     users (auth.RegisterUser (app.authService ttl) login password tl w).2 = users w)
  ∧ tokens (auth.RegisterUser (app.authService ttl) login password tl w).2 = tokens w.
Proof.
  intros Hsound. split; [|split].
  - intros Hok.
    destruct (auth.RegisterUser (app.authService ttl) login password tl w)
      as [err w1] eqn:Hrun. cbn [fst snd] in *. subst err.
    apply RegisterUser_ok in Hrun as (salt & h & i & Hgen & Hi & Hv & Hus).
    exists (models.mkUser i login h false tl). cbn.
    repeat (split; [done|]). split; [by apply (Hsound _ _ _ _ Hgen)|].
    intros v Hin.
    destruct (violates_unique_index (models.mkUser i login h false tl) (users w)) eqn:Hviol;
      [done|].
    repeat split; intros Heq;
      (assert (violates_unique_index (models.mkUser i login h false tl) (users w) = true)
         as Habs; [apply violates_unique_index_spec; exists v; cbn; auto|congruence]).
  - intros Hfail.
    unfold auth.RegisterUser in *. rewrite bind_run in *.
    pose proof (rand_Read_preserves_users w) as Hr.
    destruct (rand_Read w) as [salt w0]. cbn [fst snd] in *.
    destruct (bcrypt_GenerateFromPassword _ _ _) as [h [e|]]; cbn [fst snd] in *; [done|].
    rewrite bind_run in *. cbn [auth.usrChanger app.authService auth.UserChanger.SaveUser
      app.userDAO_changer] in *.
    destruct (SaveUser_effect (models.mkUser 0 login h false tl) w0)
      as [(Hok & _)|(_ & Hus)].
    + rewrite Hok in Hfail. done.
    + destruct (UserDAO.SaveUser _ w0) as [[e|] w2]; cbn [fst snd] in *; [|done].
      destruct (errors_Is e storage_ErrUserExists); cbn; by rewrite Hus.
  - apply RegisterUser_preserves_tokens.
Qed.

End registration.

Lemma toy_hashable_short (password : string) :
  (length (bytes_of password) ≤ 72)%nat → hashable (libs := toy_libs) password.
Proof. intros Hlen salt. cbn. rewrite bool_decide_eq_false_2 by lia. done. Qed.

(** bob tries alice's login, then alice's telegram login. *)
Lemma X7_witness :
  (auth.RegisterUser (libs := toy_libs) (app.authService 60) "a" "z" "tg=bob" w_session).1
  = Some (fmt_Errorf "auth.RegisterUser: " (errors_New auth_ErrUserExists))
  ∧ (auth.RegisterUser (libs := toy_libs) (app.authService 60) "b" "z" "tg=alice" w_session).1
    = Some (fmt_Errorf "auth.RegisterUser: " (errors_New auth_ErrUserExists)).
Proof.
  assert (models.mkUser 7 "a" (toy_hash (bytes_of "x")) false "tg=alice" ∈ users w_session)
    as Hin by (vm_compute; left).
  assert (hashable (libs := toy_libs) "z") as Hz by (apply toy_hashable_short; cbn; lia).
  split.
  - exact (proj1 (X7_RegisterUser_refuses_duplicates (libs := toy_libs) 60 "a" "z" "tg=bob"
      w_session _ Hz eq_refl Hin (or_intror (or_introl eq_refl)))).
  - exact (proj1 (X7_RegisterUser_refuses_duplicates (libs := toy_libs) 60 "b" "z" "tg=alice"
      w_session _ Hz eq_refl Hin (or_intror (or_intror eq_refl)))).
Defined.

Lemma X14_witness :
  ∃ u, users w_registered = [u] ∧ models.Login u = "a" ∧ models.IsAdmin u = false.
Proof.
  destruct (proj1 (X14_RegisterUser_adds_one_plain_user (libs := toy_libs) 60 "a" "x"
              "tg=alice" w_empty toy_bcrypt_sound))
    as (u & Hus & Hlogin & _ & Hadmin & _).
  { vm_compute; reflexivity. }
  exists u. exact (conj Hus (conj Hlogin Hadmin)).
Defined.

(** ** Uniqueness of ids, logins and telegram logins *)

Lemma map_replace_first {B} (f : models.User → B) flt (u u' : models.User) us :
  find (matches flt) us = Some u → f u' = f u →
  map f (replace_first flt u' us) = map f us.
Proof.
  intros Hfind Hf. induction us as [|v us IH]; [done|]. cbn in *.
  destruct (matches flt v).
  - injection Hfind as ->. cbn. by rewrite Hf.
  - cbn. by rewrite IH.
Qed.

Lemma users_change_unique us us' :
  users_change us us' → unique_users us → unique_users us'.
Proof.
  unfold unique_users.
  intros [|u _ Hv|id u h Hf|id u Hf] (Hids & Hlogins & Htls); [done|..].
  - assert (∀ v, v ∈ us → models.ID v ≠ models.ID u ∧ models.Login v ≠ models.Login u
                          ∧ models.TelegramLogin v ≠ models.TelegramLogin u) as Hfresh.
    { intros v Hin. repeat split; intros Heq;
        (assert (violates_unique_index u us = true) as Habs;
           [apply violates_unique_index_spec; exists v; auto|congruence]). }
    rewrite !map_app. cbn.
    repeat split; apply NoDup_app; (split; [done|]);
      (split; [|apply NoDup_singleton]);
      intros x (v & Hx & Hin)%list_elem_of_fmap Hx'%list_elem_of_singleton;
      destruct (Hfresh v Hin) as (? & ? & ?); congruence.
  - by rewrite !(map_replace_first _ _ u _ _ Hf).
  - by rewrite !(map_replace_first _ _ u _ _ Hf).
Qed.

Lemma NoDup_map_elem_inj {B} (f : models.User → B) (us : list models.User) u v :
  NoDup (map f us) → u ∈ us → v ∈ us → f u = f v → u = v.
Proof.
  induction us as [|x us IH]; [by intros _ ?%elem_of_nil|].
  cbn. intros [Hx Hnd]%NoDup_cons Hu Hv Heq.
  apply elem_of_cons in Hu as [->|Hu]; apply elem_of_cons in Hv as [->|Hv]; [done|..].
  - exfalso. apply Hx. rewrite Heq. apply list_elem_of_fmap. by exists v.
  - exfalso. apply Hx. rewrite <- Heq. apply list_elem_of_fmap. by exists u.
  - by apply IH.
Qed.

Lemma filter_unique_length {B} `{EqDecision B} (f : models.User → B) (b : B) us :
  NoDup (map f us) → (length (filter (λ u, f u = b) us) ≤ 1)%nat.
Proof.
  induction us as [|x us IH]; [cbn; lia|].
  cbn [map]. intros [Hx Hnd]%NoDup_cons. specialize (IH Hnd).
  destruct (decide (f x = b)) as [Hb|Hb].
  - rewrite filter_cons_True by done. cbn.
    assert (filter (λ u, f u = b) us = []) as ->; [|cbn; lia].
    assert (∀ v, v ∈ us → f v ≠ b) as Hnone.
    { intros v Hv Hvb. apply Hx. rewrite Hb, <- Hvb. apply list_elem_of_fmap. by exists v. }
    clear -Hnone. induction us as [|v us IH']; [done|].
    rewrite filter_cons_False by (apply Hnone; left).
    apply IH'. intros v' Hv'. apply Hnone. by right.
  - by rewrite filter_cons_False.
Qed.

Section uniqueness.
  Context {libs : Libs}.

Lemma steps_unique ttl w w' :
  rtc (step ttl) w w' → unique_users (users w) → unique_users (users w').
Proof.
  induction 1 as [|w0 w1 w2 Hstep _ IH]; [done|]. intros Hw. apply IH.
  destruct Hstep as [op w0|w0 w1 Hus _].
  - eapply users_change_unique; [apply exec_users_change|done].
  - by rewrite Hus.
Qed.

(** X8. In every state of a service started on empty stores no two users
    share an id, a login or a telegram login. Hence the lookup by telegram
    login returns at most one record, and the record a login finds is the
    record its id finds. *)
Theorem X8_users_are_unique (ttl : Z) (w : World) :
  reachable ttl w →
  unique_users (users w)
  ∧ (∀ tl us w', UserDAO.GetUserByTelegram tl w = ((us, None), w') → (length us ≤ 1)%nat)
  ∧ (∀ login u, stored_by_login w login = Some u → stored_by_id w (models.ID u) = Some u).
Proof.
  intros (w0 & Hus & _ & Hsteps).
  assert (unique_users (users w)) as Huniq.
  { apply (steps_unique _ _ _ Hsteps). rewrite Hus. repeat split; constructor. }
  split; [done|]. destruct Huniq as (Hids & _ & Htls). split.
  - intros tl us w' Hlookup. apply GetUserByTelegram_ok in Hlookup as ->.
    by apply filter_unique_length.
  - intros login u Hu. unfold stored_by_login, stored_by_id in *.
    apply find_some in Hu as [Hin _]. apply list_elem_of_In in Hin.
    destruct (find (matches (by_id (models.ID u))) (users w)) as [v|] eqn:Hv.
    + apply find_by_id_ID in Hv as [Hid Hvin]. f_equal.
      by apply (NoDup_map_elem_inj models.ID (users w)).
    + exfalso. apply list_elem_of_In in Hin.
      apply (find_none _ _ Hv) in Hin. cbn in Hin.
      by rewrite bool_decide_eq_true_2 in Hin.
Qed.

End uniqueness.

Lemma w_bob_reachable : reachable (libs := toy_libs) 60 w_bob.
Proof.
  destruct w_session_reachable as (w0 & Hus & Hts & Hsteps).
  exists w0. split; [done|]. split; [done|].
  eapply (transitivity (R := rtc _)); [exact Hsteps|].
  apply (rtc_l _ _ w_admin); [apply step_op|]. apply rtc_once, step_op.
Qed.

(** alice and bob. *)
Lemma X8_witness : unique_users (users w_bob).
Proof. exact (proj1 (X8_users_are_unique (libs := toy_libs) 60 w_bob w_bob_reachable)). Defined.

(** ** Operations by id *)

Section by_id.
  Context {libs : Libs}.

(** X10. For an id no stored user has (the lookup going through):
    [UD.IsAdmin] answers [false] with [storage.ErrUserNotFound], which
    [auth.IsAdmin] passes on wrapped; [auth.MakeAdmin] and
    [auth.ChangePassword] (of a password that can be hashed) return
    [auth.ErrUserNotFound]; none of them changes the collection. *)
Theorem X10_unknown_id_is_user_not_found (ttl id : Z) (password : string) (w : World) :
  next_fault w = None →
  stored_by_id w id = None →
  (auth.IsAdmin (app.authService ttl) id w).1
  = (false, Some (fmt_Errorf "auth.IsAdmin: "
                    (fmt_Errorf "storage.mongo.IsAdmin: "
                       (errors_New storage_ErrUserNotFound))))
  ∧ (auth.MakeAdmin (app.authService ttl) id w).1
    = Some (fmt_Errorf "auth.MakeAdmin: " (errors_New auth_ErrUserNotFound))
  ∧ users (auth.MakeAdmin (app.authService ttl) id w).2 = users w
  ∧ (hashable password →
     (auth.ChangePassword (app.authService ttl) id password w).1
     = Some (fmt_Errorf "auth.ChangePassword: " (errors_New auth_ErrUserNotFound))
     ∧ users (auth.ChangePassword (app.authService ttl) id password w).2 = users w).
Proof.
  intros Hf Hnone. split; [|split; [|split]].
  - unfold auth.IsAdmin. cbn [auth.usrProvider app.authService
      auth.UserProvider.IsAdmin app.userDAO_provider].
    rewrite bind_run. pose proof (UserDAO_IsAdmin_run id w Hf) as Hrun.
    rewrite Hnone in Hrun.
    destruct (UserDAO.IsAdmin id w) as [[b err] w1]. cbn [fst snd] in *.
    by injection Hrun as -> ->.
  - unfold auth.MakeAdmin, UserDAO.MakeAdmin. cbn [auth.usrChanger app.authService
      auth.UserChanger.MakeAdmin app.userDAO_changer].
    unfold UserDAO.MakeAdmin. rewrite !bind_run, findByID_run, Hf, Hnone. by settle.
  - unfold auth.MakeAdmin, UserDAO.MakeAdmin. cbn [auth.usrChanger app.authService
      auth.UserChanger.MakeAdmin app.userDAO_changer].
    unfold UserDAO.MakeAdmin. rewrite !bind_run, findByID_run, Hf, Hnone. settle.
    apply driver_call_users.
  - intros Hhash. unfold auth.ChangePassword. rewrite bind_run.
    pose proof (rand_Read_preserves_users w) as Hr.
    pose proof (rand_Read_next_fault w) as Hrf.
    destruct (rand_Read w) as [salt w0]. cbn [fst snd] in *.
    specialize (Hhash salt).
    destruct (bcrypt_GenerateFromPassword _ _ _) as [h [e|]]; [done|]. cbn [fst snd].
    cbn [auth.usrChanger app.authService auth.UserChanger.ChangePassword
      app.userDAO_changer].
    unfold UserDAO.ChangePassword. rewrite !bind_run, findByID_run, Hrf, Hf.
    unfold stored_by_id in *. rewrite Hr, Hnone. settle.
    by rewrite driver_call_users.
Qed.

End by_id.

Lemma X10_witness :
  (auth.MakeAdmin (app.authService 60) 9 w_session).1
  = Some (fmt_Errorf "auth.MakeAdmin: " (errors_New auth_ErrUserNotFound)).
Proof.
  refine (proj1 (proj2 (X10_unknown_id_is_user_not_found (libs := toy_libs) 60 9 "y"
                          w_session eq_refl _))).
  vm_compute; reflexivity.
Defined.

(** ** Changing the password *)

Lemma find_by_login_replace_first id (u u' : models.User) us :
  find (matches (by_id id)) us = Some u →
  find (matches (by_login (models.Login u))) us = Some u →
  models.Login u' = models.Login u →
  find (matches (by_login (models.Login u))) (replace_first (by_id id) u' us) = Some u'.
Proof.
  intros Hid Hlogin Hu'. induction us as [|v us IH]; [done|]. cbn in *.
  destruct (decide (models.ID v = id)) as [Hv|Hv].
  - rewrite (bool_decide_eq_true_2 _ Hv) in *. cbn.
    by rewrite (bool_decide_eq_true_2 _ Hu').
  - rewrite (bool_decide_eq_false_2 _ Hv) in *. cbn.
    destruct (decide (models.Login v = models.Login u)) as [Hl|Hl].
    + rewrite (bool_decide_eq_true_2 _ Hl) in Hlogin. injection Hlogin as ->.
      apply find_by_id_ID in Hid as [Hid _]. done.
    + rewrite (bool_decide_eq_false_2 _ Hl) in *. by apply IH.
Qed.

Section change_password.
  Context {libs : Libs}.

Lemma ChangePassword_preserves_tokens ttl id password :
  preserves tokens (auth.ChangePassword (app.authService ttl) id password).
Proof.
  unfold auth.ChangePassword. cbn [auth.usrChanger app.authService
    auth.UserChanger.ChangePassword app.userDAO_changer].
  unfold UserDAO.ChangePassword, UserDAO.findByID, mongo_FindOne, mongo_ReplaceOne.
  frame.
Qed.

Lemma ChangePassword_ok ttl id password w w1 :
  auth.ChangePassword (app.authService ttl) id password w = (None, w1) →
  ∃ salt hash u,
    bcrypt_GenerateFromPassword (bytes_of password) bcrypt_DefaultCost salt = (hash, None)
    ∧ stored_by_id w id = Some u
    ∧ users w1 = replace_first (by_id id) (models.with_PassHash hash u) (users w).
Proof.
  unfold auth.ChangePassword. rewrite bind_run.
  pose proof (rand_Read_preserves_users w) as Hr.
  destruct (rand_Read w) as [salt w0]. cbn [fst snd] in *.
  destruct (bcrypt_GenerateFromPassword _ _ _) as [h [e|]] eqn:Hgen; cbn [fst snd]; [done|].
  rewrite bind_run. cbn [auth.usrChanger app.authService auth.UserChanger.ChangePassword
    app.userDAO_changer].
  unfold UserDAO.ChangePassword. rewrite bind_run, findByID_run.
  destruct (next_fault w0) as [e|]; cbn [fst snd].
  { destruct (errors_Is e mongo_ErrNoDocuments); settle;
      [done|by destruct (errors_Is e storage_ErrUserNotFound)]. }
  unfold stored_by_id. rewrite Hr.
  destruct (find _ (users w)) as [u|] eqn:Hu; cbn [fst snd]; [|by settle].
  rewrite bind_run, mongo_ReplaceOne_run.
  destruct (next_fault _) as [e|]; cbn [fst snd].
  { settle. by destruct (errors_Is e storage_ErrUserNotFound). }
  cbn. intros [= <-]. exists salt, h, u. cbn. by rewrite !driver_call_users, Hr.
Qed.

(** X9. After a successful [ChangePassword] for a stored user (whose login
    finds the same record as the id), bcrypt being sound and signing
    succeeding: the record keeps everything but its hash, and a login is
    checked against the new hash alone. The new password verifies and logs
    in once the user has no live token; every password the new hash does
    not verify is refused with [InvalidCredentials], whatever the old hash
    accepted. The token cache is not touched: a session opened before the
    change stays live. *)
Theorem X9_ChangePassword_switches_the_password
    (ttl id : Z) (newPassword : string) (w w1 : World) (u : models.User) :
  bcrypt_sound → jwt_signs →
  stored_by_id w id = Some u →
  stored_by_login w (models.Login u) = Some u →
  auth.ChangePassword (app.authService ttl) id newPassword w = (None, w1) →
  tokens w1 = tokens w
  ∧ ∃ hash,
      users w1 = replace_first (by_id id) (models.with_PassHash hash u) (users w)
      ∧ stored_by_login w1 (models.Login u) = Some (models.with_PassHash hash u)
      ∧ bcrypt_CompareHashAndPassword hash (bytes_of newPassword) = None
      ∧ ∀ w2, users w2 = users w1 → calls_ok 2 w2 →
          (∀ password,
             bcrypt_CompareHashAndPassword hash (bytes_of password) ≠ None →
             (auth.AuthorizeUser (app.authService ttl) (models.Login u) password w2).1
             = ("", Some InvalidCredentials))
          ∧ (live_entry w2 (token_key id) = None →
             ∃ token,
               (auth.AuthorizeUser (app.authService ttl) (models.Login u) newPassword w2).1
               = (token, None)).
Proof.
  intros Hsound Hsigns Hid Hlogin Hrun.
  split.
  { pose proof (ChangePassword_preserves_tokens ttl id newPassword w) as Hts.
    by rewrite Hrun in Hts. }
  apply ChangePassword_ok in Hrun as (salt & h & u' & Hgen & Hid' & Hus).
  rewrite Hid in Hid'. injection Hid' as <-.
  exists h. split; [done|].
  assert (stored_by_login w1 (models.Login u) = Some (models.with_PassHash h u)) as Hnew.
  { unfold stored_by_login. rewrite Hus. by apply find_by_login_replace_first. }
  split; [done|]. split; [by apply (Hsound _ _ _ _ Hgen)|]. intros w2 Hus2 Hcalls.
  assert (stored_by_login w2 (models.Login u) = Some (models.with_PassHash h u)) as Hnew2.
  { unfold stored_by_login in *. by rewrite Hus2. }
  split.
  - intros password Hbad. apply calls_ok_S in Hcalls as [Hf1 _].
    unfold auth.AuthorizeUser. cbn [auth.usrProvider app.authService
      auth.UserProvider.User app.userDAO_provider].
    rewrite bind_run, (UserDAO_User_run _ _ Hf1), Hnew2. cbn [fst snd models.PassHash
      models.with_PassHash].
    by destruct (bcrypt_CompareHashAndPassword h (bytes_of password)).
  - intros Hlive.
    pose proof (Hsigns (claims_of (models.with_PassHash h u) (clock w2 + ttl))
                  (bytes_of (SECRET w2))) as Hsig.
    destruct (jwt_SignedString _ _) as [token [e|]] eqn:Hsign; [done|].
    exists token.
    rewrite (AuthorizeUser_run ttl _ newPassword w2 _ token Hcalls Hnew2
               (Hsound _ _ _ _ Hgen) Hsign).
    apply find_by_id_ID in Hid as [Hid _]. cbn [models.ID models.with_PassHash].
    by rewrite Hid, Hlive.
Qed.

End change_password.

(** alice changes her password while logged in: her session stays, and her
    old password is refused. *)
Lemma X9_witness :
  tokens w_later = tokens w_bob
  ∧ (auth.AuthorizeUser (libs := toy_libs) (app.authService 60) "a" "x" w_later).1
    = ("", Some InvalidCredentials).
Proof.
  destruct (X9_ChangePassword_switches_the_password (libs := toy_libs) 60 7 "y" w_bob w_later
              (models.mkUser 7 "a" (toy_hash (bytes_of "x")) true "tg=alice")
              toy_bcrypt_sound toy_jwt_signs)
    as (Htokens & h & Hus & _ & _ & Hlogins).
  { vm_compute; reflexivity. }
  { vm_compute; reflexivity. }
  { vm_compute; reflexivity. }
  split; [exact Htokens|].
  assert (h = toy_hash (bytes_of "y")) as ->.
  { assert (map models.PassHash (users w_later)
            = map models.PassHash
                (replace_first (by_id 7)
                   (models.with_PassHash h
                      (models.mkUser 7 "a" (toy_hash (bytes_of "x")) true "tg=alice"))
                   (users w_bob))) as Heq by (by rewrite Hus).
    vm_compute in Heq. by injection Heq as <-. }
  apply (Hlogins w_later eq_refl).
  - vm_compute. constructor.
  - vm_compute. discriminate.
Defined.

(** ** The interceptor *)

Lemma mongo_Find_run f w :
  mongo_Find f w
  = match next_fault w with
    | Some e => (([], Some e), (driver_call w).2)
    | None => ((filter (λ u, matches f u = true) (users w), None), (driver_call w).2)
    end.
Proof.
  unfold mongo_Find, next_fault. rewrite bind_run, driver_call_run. cbn [fst snd].
  by destruct (head (faults w) ≫= id).
Qed.

Lemma mongo_cursor_drain_run cursor w :
  mongo_cursor_drain cursor w
  = match next_fault w with
    | Some e => (([], Some e), (driver_call w).2)
    | None => ((cursor, None), (driver_call w).2)
    end.
Proof.
  unfold mongo_cursor_drain, next_fault. rewrite bind_run, driver_call_run. cbn [fst snd].
  by destruct (head (faults w) ≫= id).
Qed.

Lemma GetUserByTelegram_run tl w :
  calls_ok 2 w →
  UserDAO.GetUserByTelegram tl w
  = ((filter (λ u, models.TelegramLogin u = tl) (users w), None),
     (driver_call (driver_call w).2).2).
Proof.
  intros Hcalls.
  apply calls_ok_S in Hcalls as [Hf1 Hcalls]. apply calls_ok_S in Hcalls as [Hf2 _].
  unfold UserDAO.GetUserByTelegram.
  rewrite bind_run, mongo_Find_run, Hf1. cbn [fst snd].
  rewrite bind_run, mongo_cursor_drain_run, Hf2. cbn [fst snd]. unfold ret.
  f_equal. f_equal. apply list_filter_iff. intros u. cbn. by rewrite bool_decide_eq_true.
Qed.

Section interceptor.
  Context {R : Type}.
  Implicit Types (handler : M (option R * option error)) (md : MD).

(** X11. While the user directory answers, the lookup by telegram login
    does not fail: it returns the matching records, none for an unknown
    caller. So a caller without any record is let into both public methods
    ([RegisterNewUser] and [AuthorizeUser]) and into nothing else
    ([Unauthenticated], "missing user"); no token is looked up. *)
Theorem X11_unknown_caller_may_call_public_methods md tl rest method handler w :
  calls_ok 2 w →
  (UserDAO.GetUserByTelegram tl w).1
  = (filter (λ u, models.TelegramLogin u = tl) (users w), None)
  ∧ (MD_Get md "telegramLogin" = tl :: rest →
     (∀ u, u ∈ users w → models.TelegramLogin u ≠ tl) →
     grpcapp.UnaryInterceptor (Some md) method handler w
     = if is_public method
       then handler (driver_call (driver_call w).2).2
       else ((None, Some (status_Error Unauthenticated "missing user")),
             (driver_call (driver_call w).2).2)).
Proof.
  intros Hcalls. rewrite (GetUserByTelegram_run _ _ Hcalls). split; [done|].
  intros Hmd Hnone. unfold grpcapp.UnaryInterceptor.
  rewrite Hmd, bind_run, (GetUserByTelegram_run _ _ Hcalls). cbn [fst snd].
  assert (filter (λ u, models.TelegramLogin u = tl) (users w) = []) as ->.
  { induction (users w) as [|v us IH]; [done|].
    rewrite filter_cons_False by (apply Hnone; left).
    apply IH. intros u Hu. apply Hnone. by right. }
  rewrite bind_run. cbn [grpcapp.findSesion]. unfold ret. cbn [fst snd].
  rewrite bool_decide_eq_true_2 by done. rewrite publicMethods_is_public.
  by destruct (is_public method).
Qed.

Lemma read_only_bind {A B} (m : M A) (k : A → M B) :
  read_only m → (∀ a, read_only (k a)) → read_only (bind m k).
Proof.
  intros [Hu Ht] Hk. split; apply preserves_bind; try done; intros a; apply Hk.
Qed.

Lemma GetUserByTelegram_read_only tl : read_only (UserDAO.GetUserByTelegram tl).
Proof.
  split; unfold UserDAO.GetUserByTelegram, mongo_Find, mongo_cursor_drain; frame.
Qed.

Lemma JWT_read_only id : read_only (TokenStorage.JWT id).
Proof. split; unfold TokenStorage.JWT, redis_Get; frame. Qed.

Lemma IsAdmin_read_only id : read_only (UserDAO.IsAdmin id).
Proof. split; unfold UserDAO.IsAdmin, UserDAO.findByID, mongo_FindOne; frame. Qed.

Lemma findSesion_read_only us : read_only (grpcapp.findSesion us).
Proof.
  induction us as [|u us IH]; [by split|].
  cbn [grpcapp.findSesion]. apply read_only_bind; [apply JWT_read_only|].
  intros [token [e|]]; [done|by split].
Qed.

Lemma gate_handler handler : gate handler handler.
Proof. intros w. exists w. auto. Qed.

Lemma gate_reject handler c msg :
  c = Unauthenticated ∨ c = PermissionDenied ∨ c = Internal →
  gate handler (ret (None, Some (status_Error c msg))).
Proof. intros Hc w. exists w. split; [done|]. split; [done|]. right. by exists c, msg. Qed.

Lemma gate_bind {A} handler (m : M A) (k : A → M (option R * option error)) :
  read_only m → (∀ a, gate handler (k a)) → gate handler (bind m k).
Proof.
  intros [Hu Ht] Hk w. rewrite bind_run.
  destruct (Hk (m w).1 (m w).2) as (w' & Hu' & Ht' & Hw').
  exists w'. rewrite Hu', Ht', Hu, Ht. done.
Qed.

(** X12. The interceptor writes nothing: whatever the metadata, the method
    and the state of the stores and drivers, it either runs the handler, in
    a world with the same user collection and the same token cache, or
    returns no response and a status whose code is [Unauthenticated],
    [PermissionDenied] or [Internal], having changed neither store. *)
Theorem X12_interceptor_reads_only (ctx_md : option MD) (method : string) handler :
  gate handler (grpcapp.UnaryInterceptor ctx_md method handler).
Proof.
  unfold grpcapp.UnaryInterceptor.
  destruct ctx_md as [md|]; [|apply gate_reject; auto].
  destruct (MD_Get md "telegramLogin") as [|tl rest]; [apply gate_reject; auto|].
  apply gate_bind; [apply GetUserByTelegram_read_only|]. intros [us [e|]].
  { destruct (_ && _); [apply gate_handler|apply gate_reject; auto]. }
  apply gate_bind; [apply findSesion_read_only|]. intros userID.
  destruct (bool_decide (userID = -1)).
  { destruct (grpcapp.map_index _ _); [apply gate_handler|apply gate_reject; auto]. }
  destruct (grpcapp.map_index _ _); [apply gate_reject; auto|].
  apply gate_bind; [apply IsAdmin_read_only|]. intros [[|] [e|]];
    try (apply gate_reject; auto); try apply gate_handler.
  destruct (bool_decide _); [apply gate_handler|apply gate_reject; auto].
Qed.

End interceptor.

(** A caller nobody knows, on empty stores. *)
Lemma X11_witness :
  grpcapp.UnaryInterceptor (Some md_alice) "/Auth/AuthorizeUser" handler_ok w_empty
  = handler_ok (driver_call (driver_call w_empty).2).2
  ∧ (grpcapp.UnaryInterceptor (Some md_alice) "/Auth/IsAdmin" handler_ok w_empty).1
    = (None, Some (status_Error Unauthenticated "missing user")).
Proof.
  assert (calls_ok 2 w_empty) as Hcalls by (vm_compute; constructor).
  assert (∀ u, u ∈ users w_empty → models.TelegramLogin u ≠ "tg=alice") as Hnone.
  { intros u Hu. cbn in Hu. by apply elem_of_nil in Hu. }
  split.
  - exact (proj2 (X11_unknown_caller_may_call_public_methods md_alice "tg=alice" []
      "/Auth/AuthorizeUser" handler_ok w_empty Hcalls) eq_refl Hnone).
  - exact (f_equal fst (proj2 (X11_unknown_caller_may_call_public_methods md_alice
      "tg=alice" [] "/Auth/IsAdmin" handler_ok w_empty Hcalls) eq_refl Hnone)).
Defined.

(** ** The facade *)

Section facade.
  Implicit Types (s : authgrpc.ServerAPI).

Lemma facade_result_of_call {A R} (w : World) (call : M (A * option error))
    (resp : A → R) :
  facade_result w
    (bind call (λ '(a, err),
       match err with
       | Some _ => ret (None, Some (status_Error Internal "internal error"))
       | None => ret (Some (resp a), None)
       end) w).
Proof.
  rewrite bind_run. destruct (call w) as [[a [e|]] w']; cbn.
  - right. right. by eexists.
  - left. by eexists.
Qed.

Lemma facade_result_of_call_err {R} (w : World) (call : M (option error)) (resp : R) :
  facade_result w
    (bind call (λ err,
       match err with
       | Some _ => ret (None, Some (status_Error Internal "internal error"))
       | None => ret (Some resp, None)
       end) w).
Proof.
  rewrite bind_run. destruct (call w) as [[e|] w']; cbn.
  - right. right. by eexists.
  - left. by eexists.
Qed.

Lemma facade_result_invalid {R} (w : World) msg :
  facade_result (R := R) w (ret (None, Some (status_Error InvalidArgument msg)) w).
Proof. right. left. by exists msg. Qed.

(** X13. Whatever the service behind it does, every method of the facade
    returns a response without error, or no response and one of two
    statuses: [InvalidArgument], in which case the service was not called
    (the world is untouched), or [Internal] with the text "internal error".
    [InvalidArgument] is returned exactly when a checked field is empty:
    login or password for [RegisterNewUser] and [AuthorizeUser], the new
    password for [ChangePassword], the telegram login for
    [GetUserByTelegram]; the other five methods check nothing. *)
Theorem X13_facade_statuses s (w : World) :
  (∀ req, facade_result w (authgrpc.RegisterNewUser s req w)
          ∧ (status_Code (authgrpc.RegisterNewUser s req w).1.2 = InvalidArgument
             ↔ ssov1.RegisterRequest.Login req = ""
               ∨ ssov1.RegisterRequest.Password req = ""))
  ∧ (∀ req, facade_result w (authgrpc.AuthorizeUser s req w)
            ∧ (status_Code (authgrpc.AuthorizeUser s req w).1.2 = InvalidArgument
               ↔ ssov1.AutohrizeRequest.Login req = ""
                 ∨ ssov1.AutohrizeRequest.Password req = ""))
  ∧ (∀ req, facade_result w (authgrpc.ChangePassword s req w)
            ∧ (status_Code (authgrpc.ChangePassword s req w).1.2 = InvalidArgument
               ↔ ssov1.ChangePasswordRequest.NewPassword req = ""))
  ∧ (∀ req, facade_result w (authgrpc.GetUserByTelegram s req w)
            ∧ (status_Code (authgrpc.GetUserByTelegram s req w).1.2 = InvalidArgument
               ↔ ssov1.GetUserByTelegramRequest.TelegramLogin req = ""))
  ∧ (∀ req, facade_result w (authgrpc_rest.IsAdmin s req w)
            ∧ status_Code (authgrpc_rest.IsAdmin s req w).1.2 ≠ InvalidArgument)
  ∧ (∀ req, facade_result w (authgrpc_rest.GetAllUsers s req w)
            ∧ status_Code (authgrpc_rest.GetAllUsers s req w).1.2 ≠ InvalidArgument)
  ∧ (∀ req, facade_result w (authgrpc_rest.MakeAdmin s req w)
            ∧ status_Code (authgrpc_rest.MakeAdmin s req w).1.2 ≠ InvalidArgument)
  ∧ (∀ req, facade_result w (authgrpc_rest.GetJWT s req w)
            ∧ status_Code (authgrpc_rest.GetJWT s req w).1.2 ≠ InvalidArgument)
  ∧ (∀ req, facade_result w (authgrpc_rest.DeleteJWT s req w)
            ∧ status_Code (authgrpc_rest.DeleteJWT s req w).1.2 ≠ InvalidArgument).
Proof.
  repeat split.
  - unfold authgrpc.RegisterNewUser, authgrpc.validateRegister.
    repeat case_bool_decide; try apply facade_result_invalid.
    apply (facade_result_of_call_err w _ tt).
  - unfold authgrpc.RegisterNewUser, authgrpc.validateRegister.
    repeat case_bool_decide; cbn; auto. rewrite bind_run.
    destruct (authgrpc.Auth.RegisterUser _ _ _ _ w) as [[e|] w']; cbn; done.
  - unfold authgrpc.RegisterNewUser, authgrpc.validateRegister.
    intros [?|?]; repeat case_bool_decide; done.
  - unfold authgrpc.AuthorizeUser, authgrpc.validateAuth.
    repeat case_bool_decide; try apply facade_result_invalid.
    apply (facade_result_of_call w _ ssov1.AuthorizeResponse.mk).
  - unfold authgrpc.AuthorizeUser, authgrpc.validateAuth.
    repeat case_bool_decide; cbn; auto. rewrite bind_run.
    destruct (authgrpc.Auth.AuthorizeUser _ _ _ w) as [[t [e|]] w']; cbn; done.
  - unfold authgrpc.AuthorizeUser, authgrpc.validateAuth.
    intros [?|?]; repeat case_bool_decide; done.
  - unfold authgrpc.ChangePassword, authgrpc.validateChangePassword.
    repeat case_bool_decide; try apply facade_result_invalid.
    apply (facade_result_of_call_err w _ tt).
  - unfold authgrpc.ChangePassword, authgrpc.validateChangePassword.
    repeat case_bool_decide; cbn; auto. rewrite bind_run.
    destruct (authgrpc.Auth.ChangePassword _ _ _ w) as [[e|] w']; cbn; done.
  - unfold authgrpc.ChangePassword, authgrpc.validateChangePassword.
    intros ?; repeat case_bool_decide; done.
  - unfold authgrpc.GetUserByTelegram, authgrpc.validateGetUserByTelegram.
    repeat case_bool_decide; try apply facade_result_invalid.
    apply (facade_result_of_call w _ ssov1.ListOfUsers.mk).
  - unfold authgrpc.GetUserByTelegram, authgrpc.validateGetUserByTelegram.
    repeat case_bool_decide; cbn; auto. rewrite bind_run.
    destruct (authgrpc.Auth.GetUserByTelegram _ _ w) as [[t [e|]] w']; cbn; done.
  - unfold authgrpc.GetUserByTelegram, authgrpc.validateGetUserByTelegram.
    intros ?; repeat case_bool_decide; done.
  - apply (facade_result_of_call w _ ssov1_rest.IsAdminResponse.mk).
  - unfold authgrpc_rest.IsAdmin. rewrite bind_run.
    destruct (authgrpc.Auth.IsAdmin _ _ w) as [[t [e|]] w']; cbn; done.
  - apply (facade_result_of_call w _ ssov1.ListOfUsers.mk).
  - unfold authgrpc_rest.GetAllUsers. rewrite bind_run.
    destruct (authgrpc.Auth.GetAllUsers _ w) as [[t [e|]] w']; cbn; done.
  - apply (facade_result_of_call_err w _ tt).
  - unfold authgrpc_rest.MakeAdmin. rewrite bind_run.
    destruct (authgrpc.Auth.MakeAdmin _ _ w) as [[e|] w']; cbn; done.
  - apply (facade_result_of_call w _ ssov1_rest.GetJWTResponse.mk).
  - unfold authgrpc_rest.GetJWT. rewrite bind_run.
    destruct (authgrpc.Auth.GetJWT _ _ w) as [[t [e|]] w']; cbn; done.
  - apply (facade_result_of_call_err w _ tt).
  - unfold authgrpc_rest.DeleteJWT. rewrite bind_run.
    destruct (authgrpc.Auth.DeleteJWT _ _ w) as [[e|] w']; cbn; done.
Qed.

End facade.

(** ** Logging out, and logging in again *)

Section sessions.
  Context {libs : Libs}.

Lemma AuthorizeUser_after ttl login password w token :
  (auth.AuthorizeUser (app.authService ttl) login password w).1 = (token, None) →
  ∃ u, stored_by_login w login = Some u
       ∧ bcrypt_CompareHashAndPassword (models.PassHash u) (bytes_of password) = None
       ∧ tokens (auth.AuthorizeUser (app.authService ttl) login password w).2
         = <[token_key (models.ID u) :=
               mkEntry token (if bool_decide (ttl = 0) then None
                              else Some (clock w + ttl))]> (tokens w).
Proof.
  intros Hok.
  destruct (proj1 (proj2 (AuthorizeUser_outcomes ttl login password w)) token Hok)
    as (u & Hu & Hcmp & _ & _ & Hts).
  by exists u.
Qed.

(** X15. Logging out and in again. [auth.DeleteJWT] for a stored user
    succeeds when the Redis call goes through, whether or not the user was
    logged in, and leaves the user collection alone; afterwards
    [auth.GetJWT] reports [ErrTokenNotFound] and [auth.AuthorizeUser] with
    the user's login and password returns a token (signing succeeding, the
    driver calls going through). *)
Theorem X15_logout_then_login
    (ttl : Z) (login password : string) (w : World) (u : models.User) :
  jwt_signs →
  next_fault w = None →
  stored_by_login w login = Some u →
  bcrypt_CompareHashAndPassword (models.PassHash u) (bytes_of password) = None →
  (auth.DeleteJWT (app.authService ttl) (models.ID u) w).1 = None
  ∧ users (auth.DeleteJWT (app.authService ttl) (models.ID u) w).2 = users w
  ∧ ∀ w2, users w2 = users w →
          tokens w2 = tokens (auth.DeleteJWT (app.authService ttl) (models.ID u) w).2 →
          calls_ok 2 w2 →
          (auth.GetJWT (app.authService ttl) (models.ID u) w2).1
          = ("", Some (fmt_Errorf "auth.GetJWT: " TokenNotFound))
          ∧ ∃ token,
              (auth.AuthorizeUser (app.authService ttl) login password w2).1
              = (token, None).
Proof.
  intros Hsigns Hf Hu Hcmp.
  unfold auth.DeleteJWT. cbn [auth.tknProvider app.authService
    auth.TokenProvider.DeleteJWT app.redisclient].
  rewrite bind_run, DeleteJWT_run, Hf. cbn [fst snd]. unfold ret. cbn [fst snd].
  split; [done|]. split; [apply driver_call_users|].
  intros w2 Hus2 Hts2 Hcalls. cbn in Hts2.
  assert (live_entry w2 (token_key (models.ID u)) = None) as Hnone.
  { unfold live_entry. by rewrite Hts2, lookup_delete_eq. }
  pose proof (calls_ok_S _ _ Hcalls) as [Hf2 _].
  split.
  - unfold auth.GetJWT. cbn [auth.tknProvider app.authService
      auth.TokenProvider.JWT app.redisclient].
    rewrite bind_run, (JWT_run _ _ Hf2), Hnone. by settle.
  - pose proof (Hsigns (claims_of u (clock w2 + ttl)) (bytes_of (SECRET w2))) as Hsig.
    destruct (jwt_SignedString _ _) as [token [e|]] eqn:Hsign; [done|].
    exists token.
    assert (stored_by_login w2 login = Some u) as Hu2.
    { unfold stored_by_login in *. by rewrite Hus2. }
    by rewrite (AuthorizeUser_run ttl login password w2 u token Hcalls Hu2 Hcmp Hsign),
      Hnone.
Qed.

(** X16. A login whose token has expired can be repeated: after a
    successful [AuthorizeUser] with a time to live of whole milliseconds,
    the same call succeeds again in any later world with the same stores
    whose clock is a millisecond, the grain of the server's clock, past the
    expiry (signing succeeding, the driver calls going through). *)
Theorem X16_login_again_after_expiry
    (ttl : Z) (login password token : string) (w w2 : World) :
  jwt_signs →
  whole_milliseconds ttl →
  (auth.AuthorizeUser (app.authService ttl) login password w).1 = (token, None) →
  users w2 = users w →
  tokens w2 = tokens (auth.AuthorizeUser (app.authService ttl) login password w).2 →
  calls_ok 2 w2 →
  (clock w + ttl + millisecond ≤ clock w2)%Z →
  ∃ token2,
    (auth.AuthorizeUser (app.authService ttl) login password w2).1 = (token2, None).
Proof.
  intros Hsigns [Httl _] Hok Hus2 Hts2 Hcalls Hclock.
  apply AuthorizeUser_after in Hok as (u & Hu & Hcmp & Hts). rewrite Hts in Hts2.
  rewrite bool_decide_eq_false_2 in Hts2 by lia.
  assert (live_entry w2 (token_key (models.ID u)) = None) as Hnone.
  { unfold live_entry. rewrite Hts2, lookup_insert_eq. unfold live. cbn.
    rewrite bool_decide_eq_false_2; [done|]. unfold millisecond in Hclock. lia. }
  pose proof (Hsigns (claims_of u (clock w2 + ttl)) (bytes_of (SECRET w2))) as Hsig.
  destruct (jwt_SignedString _ _) as [token2 [e|]] eqn:Hsign; [done|].
  exists token2.
  assert (stored_by_login w2 login = Some u) as Hu2.
  { unfold stored_by_login in *. by rewrite Hus2. }
  by rewrite (AuthorizeUser_run ttl login password w2 u token2 Hcalls Hu2 Hcmp Hsign),
    Hnone.
Qed.

End sessions.

(** alice logs out of her session and in again. *)
Lemma X15_witness :
  (auth.DeleteJWT (app.authService 60) 7 w_session).1 = None
  ∧ ∃ token,
      (auth.AuthorizeUser (libs := toy_libs) (app.authService 60) "a" "x"
         (auth.DeleteJWT (app.authService 60) 7 w_session).2).1 = (token, None).
Proof.
  destruct (X15_logout_then_login (libs := toy_libs) 60 "a" "x" w_session
              (models.mkUser 7 "a" (toy_hash (bytes_of "x")) false "tg=alice")
              toy_jwt_signs eq_refl)
    as (Hout & Hus & Hin).
  { vm_compute; reflexivity. }
  { vm_compute; reflexivity. }
  split; [exact Hout|].
  destruct (Hin (auth.DeleteJWT (app.authService 60) 7 w_session).2 Hus eq_refl)
    as [_ Hlogin].
  { vm_compute. constructor. }
  exact Hlogin.
Defined.

(** alice's session of a minute has run out a minute and a millisecond later. *)
Lemma X16_witness :
  ∃ token2,
    (auth.AuthorizeUser (libs := toy_libs) (app.authService minute) "a" "x"
       (mkWorld (users w_session_minute) (tokens w_session_minute)
          (1000 + minute + millisecond) [] [] "s3cret")).1
    = (token2, None).
Proof.
  destruct (auth.AuthorizeUser (libs := toy_libs) (app.authService minute) "a" "x"
              w_registered) as [[token err] w'] eqn:Hrun.
  assert (err = None) as -> by (vm_compute in Hrun; by injection Hrun as _ <- _).
  apply (X16_login_again_after_expiry (libs := toy_libs) minute "a" "x" token w_registered
           (mkWorld (users w_session_minute) (tokens w_session_minute)
              (1000 + minute + millisecond) [] [] "s3cret")
           toy_jwt_signs).
  - split; reflexivity.
  - by rewrite Hrun.
  - vm_compute; reflexivity.
  - reflexivity.
  - constructor.
  - vm_compute. discriminate.
Defined.

(** * Admission by live tokens (C3) *)

Lemma driver_call_no_faults w : faults w = [] → driver_call w = (None, w).
Proof. intros Hf. unfold driver_call. by rewrite Hf. Qed.


Lemma IsAdmin_no_faults id w :
  faults w = [] →
  UserDAO.IsAdmin id w
  = (match stored_by_id w id with
     | Some u => (models.IsAdmin u, None)
     | None => (false, Some (fmt_Errorf "storage.mongo.IsAdmin: "
                               (errors_New storage_ErrUserNotFound)))
     end, w).
Proof.
  intros Hf. unfold UserDAO.IsAdmin. rewrite bind_run, findByID_run.
  unfold next_fault. rewrite Hf, (driver_call_no_faults w Hf). cbn [head mbind option_bind].
  cbn. by destruct (stored_by_id w id).
Qed.



Section live_tokens.
  Context {libs : Libs} {R : Type}.
  Implicit Types (handler : M (option R * option error)) (md : MD).


End live_tokens.


(** * Overlapping calls and the admin flag (C8) *)

Lemma ChangePassword_lookup_then_write (id : Z) (h : list byte) (w : World) :
  UserDAO.ChangePassword id h w
  = match UserDAO.findByID id w with
    | ((user, None), w1) => ChangePassword_after_lookup id h user w1
    | ((_, Some e), w1) =>
        (Some (fmt_Errorf "storage.mongo.ChangePassword: "
                 (if errors_Is e mongo_ErrNoDocuments
                  then errors_New storage_ErrUserNotFound else e)), w1)
    end.
Proof.
  unfold UserDAO.ChangePassword. rewrite bind_run.
  destruct (UserDAO.findByID id w) as [[user [e|]] w1]; cbn [fst snd]; [|done].
  by destruct (errors_Is e mongo_ErrNoDocuments).
Qed.

Lemma findByID_no_faults (id : Z) (w : World) :
  faults w = [] →
  UserDAO.findByID id w
  = (match stored_by_id w id with
     | Some u => (u, None)
     | None => (models.zero, Some (errors_New mongo_ErrNoDocuments))
     end, w).
Proof.
  intros Hf. rewrite findByID_run. unfold next_fault.
  rewrite Hf, (driver_call_no_faults w Hf). cbn. by destruct (stored_by_id w id).
Qed.

Lemma ReplaceOne_no_faults (f : Filter) (u : models.User) (w : World) :
  faults w = [] →
  mongo_ReplaceOne f u w = (None, set_users (replace_first f u (users w)) w).
Proof.
  intros Hf. rewrite mongo_ReplaceOne_run. unfold next_fault.
  by rewrite Hf, (driver_call_no_faults w Hf).
Qed.

(** C8. The flag does not only rise when two calls overlap. [ChangePassword]
    is a lookup followed by the write of the whole record it read. Take a
    stored user who is no admin, with the drivers answering: [ChangePassword]
    looks the record up; [MakeAdmin] for the same user then runs from start to
    end, succeeds, and [UD.IsAdmin] answers [true]; [ChangePassword] then
    writes the record it had read, with the new hash and the old flag, and
    succeeds; after that [UD.IsAdmin] answers [false]. *)
Theorem C8_overlapping_ChangePassword_revokes_admin
    (ttl id : Z) (h : list byte) (u : models.User) (w : World) :
  faults w = [] →
  stored_by_id w id = Some u →
  models.IsAdmin u = false →
  (∀ w0, UserDAO.ChangePassword id h w0
         = match UserDAO.findByID id w0 with
           | ((user, None), w1) => ChangePassword_after_lookup id h user w1
           | ((_, Some e), w1) =>
               (Some (fmt_Errorf "storage.mongo.ChangePassword: "
                        (if errors_Is e mongo_ErrNoDocuments
                         then errors_New storage_ErrUserNotFound else e)), w1)
           end)
  ∧ ∃ w1 w2 w3,
      UserDAO.findByID id w = ((u, None), w1)
      ∧ auth.MakeAdmin (app.authService ttl) id w1 = (None, w2)
      ∧ (UserDAO.IsAdmin id w2).1 = (true, None)
      ∧ ChangePassword_after_lookup id h u w2 = (None, w3)
      ∧ (UserDAO.IsAdmin id w3).1 = (false, None).
Proof.
  intros Hf Hu Hflag. split; [apply ChangePassword_lookup_then_write|].
  pose proof Hu as [Hid _]%find_by_id_ID.
  set (w2 := set_users (replace_first (by_id id) (models.with_IsAdmin true u) (users w)) w).
  set (w3 := set_users (replace_first (by_id id) (models.with_PassHash h u) (users w2)) w2).
  assert (faults w2 = []) as Hf2 by done.
  assert (faults w3 = []) as Hf3 by done.
  assert (stored_by_id w2 id = Some (models.with_IsAdmin true u)) as Hu2.
  { unfold stored_by_id, w2. cbn [users set_users].
    unfold stored_by_id in Hu. rewrite find_replace_first, Hu by done.
    by rewrite bool_decide_eq_true_2. }
  assert (stored_by_id w3 id = Some (models.with_PassHash h u)) as Hu3.
  { unfold stored_by_id, w3. cbn [users set_users].
    unfold stored_by_id in Hu2. rewrite find_replace_first, Hu2 by done.
    by rewrite bool_decide_eq_true_2. }
  exists w, w2, w3. split; [|split; [|split; [|split]]].
  - by rewrite (findByID_no_faults id w Hf), Hu.
  - unfold auth.MakeAdmin. rewrite bind_run.
    cbn [auth.usrChanger app.authService auth.UserChanger.MakeAdmin app.userDAO_changer].
    unfold UserDAO.MakeAdmin.
    rewrite bind_run, (findByID_no_faults id w Hf), Hu. cbn [fst snd].
    rewrite bind_run, (ReplaceOne_no_faults _ _ w Hf). done.
  - by rewrite (IsAdmin_no_faults id w2 Hf2), Hu2.
  - unfold ChangePassword_after_lookup.
    rewrite bind_run, (ReplaceOne_no_faults _ _ w2 Hf2). done.
  - rewrite (IsAdmin_no_faults id w3 Hf3), Hu3. cbn. by rewrite Hflag.
Qed.

(** alice (id 7, logged in, no admin) changes her password while she is made
    an admin: she is an admin once [MakeAdmin] has returned, and no more once
    [ChangePassword] has. *)
Lemma C8_witness :
  UserDAO.findByID 7 w_session
  = ((models.mkUser 7 "a" (toy_hash (bytes_of "x")) false "tg=alice", None), w_looked_up)
  ∧ auth.MakeAdmin (app.authService 60) 7 w_looked_up = (None, w_promoted)
  ∧ (UserDAO.IsAdmin 7 w_promoted).1 = (true, None)
  ∧ UserDAO.ChangePassword 7 (toy_hash (bytes_of "y")) w_session
    = ChangePassword_after_lookup 7 (toy_hash (bytes_of "y"))
        (models.mkUser 7 "a" (toy_hash (bytes_of "x")) false "tg=alice") w_looked_up
  ∧ (ChangePassword_after_lookup 7 (toy_hash (bytes_of "y"))
       (models.mkUser 7 "a" (toy_hash (bytes_of "x")) false "tg=alice") w_promoted).1 = None
  ∧ (UserDAO.IsAdmin 7 w_written_back).1 = (false, None).
Proof.
  pose (alice := models.mkUser 7 "a" (toy_hash (bytes_of "x")) false "tg=alice").
  assert (faults w_session = []) as Hf by (vm_compute; reflexivity).
  assert (stored_by_id w_session 7 = Some alice) as Hu by (vm_compute; reflexivity).
  destruct (C8_overlapping_ChangePassword_revokes_admin 60 7 (toy_hash (bytes_of "y"))
              alice w_session Hf Hu eq_refl)
    as (Hsplit & w1 & w2 & w3 & H1 & H2 & H3 & H4 & H5).
  assert (w1 = w_looked_up) as -> by (unfold w_looked_up; by rewrite H1).
  assert (w2 = w_promoted) as -> by (unfold w_promoted; by rewrite H2).
  assert (w3 = w_written_back) as ->.
  { unfold w_written_back. rewrite H1. cbn [fst snd]. fold alice. by rewrite H4. }
  fold alice. split; [exact H1|]. split; [exact H2|]. split; [exact H3|].
  split; [by rewrite (Hsplit w_session), H1|]. split; [by rewrite H4|exact H5].
Defined.

(** * The admin flag over calls that do not overlap *)

Section admin_flag_in_sequence.
  Context {libs : Libs}.

Lemma preserved_users_flag {A} (m : M A) (w : World) (j : Z) :
  preserves users m → is_admin_of (m w).2 j = is_admin_of w j.
Proof. intros Hp. unfold is_admin_of, stored_by_id. by rewrite (Hp w). Qed.

Lemma RegisterUser_keeps_flag ttl l p tl w j b :
  is_admin_of w j = Some b →
  is_admin_of (auth.RegisterUser (app.authService ttl) l p tl w).2 j = Some b.
Proof.
  intros Hj.
  assert (∀ w', users w' = users w ∨ (∃ u, users w' = (users w ++ [u])%list) →
                is_admin_of w' j = Some b) as Hkeep.
  { intros w' [Hus|[u Hus]]; unfold is_admin_of, stored_by_id in *; rewrite Hus; [done|].
    rewrite find_snoc. by destruct (find _ (users w)). }
  apply Hkeep.
  unfold auth.RegisterUser. rewrite bind_run.
  pose proof (rand_Read_preserves_users w) as Hr.
  destruct (rand_Read w) as [salt w1]. cbn [fst snd] in *.
  destruct (bcrypt_GenerateFromPassword _ _ _) as [h [e|]]; cbn [fst snd].
  { unfold ret. cbn. by left. }
  rewrite bind_run. cbn [auth.usrChanger app.authService auth.UserChanger.SaveUser
    app.userDAO_changer].
  destruct (SaveUser_effect (models.mkUser 0 l h false tl) w1)
    as [(Hok & i & Hi & Hv & Hus)|(Hfail & Hus)].
  - rewrite Hok. cbn. rewrite Hus, Hr. right. by eexists.
  - destruct (UserDAO.SaveUser _ w1) as [[e|] w2]; [|done]. cbn [fst snd] in *.
    destruct (errors_Is e storage_ErrUserExists); cbn; rewrite Hus, Hr; by left.
Qed.

Lemma exec_keeps_flag ttl op w j b :
  (∀ id, op ≠ OpMakeAdmin id) →
  is_admin_of w j = Some b →
  is_admin_of (exec (app.authService ttl) op w) j = Some b.
Proof.
  intros Hop Hj. destruct op as [l p tl|l p|id|id p|tl| |id|id|id]; cbn [exec].
  - by apply RegisterUser_keeps_flag.
  - rewrite preserved_users_flag; [done|]. unfold auth.AuthorizeUser. cbn. frame.
  - rewrite preserved_users_flag; [done|]. unfold auth.IsAdmin. cbn. frame.
  - by rewrite ChangePassword_keeps_is_admin.
  - rewrite preserved_users_flag; [done|]. unfold auth.GetUserByTelegram. cbn. frame.
  - rewrite preserved_users_flag; [done|]. unfold auth.GetAllUsers. cbn. frame.
  - by destruct (Hop id).
  - rewrite preserved_users_flag; [done|]. unfold auth.GetJWT. cbn. frame.
  - rewrite preserved_users_flag; [done|]. unfold auth.DeleteJWT. cbn. frame.
Qed.

Lemma MakeAdmin_keeps_other_flags ttl id w j :
  j ≠ id →
  is_admin_of (auth.MakeAdmin (app.authService ttl) id w).2 j = is_admin_of w j.
Proof.
  intros Hj. unfold auth.MakeAdmin. rewrite bind_run.
  cbn [auth.usrChanger app.authService auth.UserChanger.MakeAdmin app.userDAO_changer].
  assert (is_admin_of (UserDAO.MakeAdmin id w).2 j = is_admin_of w j) as Hdao.
  { unfold is_admin_of, stored_by_id, UserDAO.MakeAdmin.
    rewrite bind_run, findByID_run.
    destruct (next_fault w) as [e|]; cbn [fst snd].
    { destruct (errors_Is e mongo_ErrNoDocuments); cbn; by rewrite driver_call_users. }
    destruct (stored_by_id w id) as [u|] eqn:Hu; cbn [fst snd].
    2: { settle. by rewrite driver_call_users. }
    rewrite bind_run, mongo_ReplaceOne_run.
    destruct (next_fault _) as [e|]; cbn; rewrite !driver_call_users; [done|].
    unfold stored_by_id in Hu. pose proof Hu as [Hid _]%find_by_id_ID.
    rewrite find_replace_first, Hu by done.
    by rewrite bool_decide_eq_false_2. }
  destruct (UserDAO.MakeAdmin id w) as [[e|] w2]; cbn [fst snd] in *; [|done].
  by destruct (errors_Is e storage_ErrUserNotFound).
Qed.

(** X17. When the calls of the service run one after another, the admin flag
    only rises. Over any sequence of whole calls and moves of the
    environment, a user [UD.IsAdmin] has answered [true] for stays an admin,
    and [UD.IsAdmin] answers [true] again whenever its lookup goes through.
    A successful [MakeAdmin] sets the flag of its user, and [MakeAdmin]
    leaves the flag of every other user as it is. Every call other than
    [MakeAdmin] leaves the flag of every stored user as it is. *)
Theorem X17_admin_flag_rises_only_in_sequence (ttl : Z) :
  (∀ w w' id,
     (UserDAO.IsAdmin id w).1 = (true, None) →
     rtc (step ttl) w w' →
     is_admin_of w' id = Some true
     ∧ (next_fault w' = None → (UserDAO.IsAdmin id w').1 = (true, None)))
  ∧ (∀ w id,
     (auth.MakeAdmin (app.authService ttl) id w).1 = None →
     is_admin_of (auth.MakeAdmin (app.authService ttl) id w).2 id = Some true)
  ∧ (∀ w id j,
     j ≠ id →
     is_admin_of (auth.MakeAdmin (app.authService ttl) id w).2 j = is_admin_of w j)
  ∧ (∀ w op j b,
     (∀ id, op ≠ OpMakeAdmin id) →
     is_admin_of w j = Some b →
     is_admin_of (exec (app.authService ttl) op w) j = Some b).
Proof.
  split; [|split; [|split]].
  - intros w w' id Hw Hsteps. apply UserDAO_IsAdmin_true in Hw.
    pose proof (steps_is_admin _ _ _ _ Hsteps Hw) as Hw'. split; [done|].
    intros Hf. rewrite UserDAO_IsAdmin_run by done.
    unfold is_admin_of in Hw'. destruct (stored_by_id w' id) as [u|]; [|done].
    by injection Hw' as ->.
  - intros w id. apply MakeAdmin_sets_is_admin.
  - intros w id j. apply MakeAdmin_keeps_other_flags.
  - intros w op j b. apply exec_keeps_flag.
Qed.

End admin_flag_in_sequence.

(** alice stays an admin while bob registers and she changes her password. *)
Lemma X17_witness :
  is_admin_of w_later 7 = Some true
  ∧ (UserDAO.IsAdmin 7 w_later).1 = (true, None)
  ∧ is_admin_of w_bob 7 = Some true.
Proof.
  assert ((UserDAO.IsAdmin 7 w_admin).1 = (true, None)) as Hadmin
    by (vm_compute; reflexivity).
  assert (rtc (step (libs := toy_libs) 60) w_admin w_later) as Hsteps.
  { apply (rtc_l _ _ w_bob); [apply step_op|]. apply rtc_once, step_op. }
  destruct (proj1 (X17_admin_flag_rises_only_in_sequence (libs := toy_libs) 60)
              w_admin w_later 7 Hadmin Hsteps) as [Hflag Hanswer].
  split; [exact Hflag|]. split; [apply Hanswer; vm_compute; reflexivity|].
  vm_compute; reflexivity.
Defined.

(** * Admission when the drivers fail *)

Section admission_with_faults.
  Context {libs : Libs} {R : Type}.
  Implicit Types (handler : M (option R * option error)) (md : MD).

(** X18. The interceptor, whatever the drivers do after the lookup of the
    caller's records has succeeded. The session is the first of the records
    for which [JWT] returns no error, so a record whose read fails counts as
    one without a token. With no session, public methods are admitted and
    the others rejected with [Unauthenticated]. With a session, public
    methods are rejected with [PermissionDenied]; for the other methods the
    admin flag of the session user is looked up first: a failed lookup
    rejects the call with [Internal], [ChangePassword] included, an admin is
    admitted, and a user who is no admin is admitted to [ChangePassword] and
    rejected with [PermissionDenied] elsewhere. *)
Theorem X18_admission_when_drivers_fail ttl md tl rest method handler w us w1 :
  reachable ttl w →
  MD_Get md "telegramLogin" = tl :: rest →
  UserDAO.GetUserByTelegram tl w = ((us, None), w1) →
  match active_session us w1 with
  | (None, w2) =>
      outcome_is (admission method None (false, None)) handler w2
        (grpcapp.UnaryInterceptor (Some md) method handler w)
  | (Some uid, w2) =>
      if is_public method
      then outcome_is (Reject PermissionDenied) handler w2
             (grpcapp.UnaryInterceptor (Some md) method handler w)
      else outcome_is (admission method (Some uid) (UserDAO.IsAdmin uid w2).1) handler
             (UserDAO.IsAdmin uid w2).2
             (grpcapp.UnaryInterceptor (Some md) method handler w)
  end.
Proof. apply admission_of_interceptor. Qed.

End admission_with_faults.

(** alice, logged in and no admin, calls [ChangePassword] while the user
    directory fails at the admin lookup: the answer is [Internal]. *)
Lemma X18_witness :
  (∃ msg, grpcapp.UnaryInterceptor (Some md_alice) "/Auth/ChangePassword" handler_ok w_flaky
          = ((None, Some (status_Error Internal msg)),
             (UserDAO.IsAdmin 7 (active_session (users w_flaky)
                (UserDAO.GetUserByTelegram "tg=alice" w_flaky).2).2).2)).
Proof.
  pose (w1 := (UserDAO.GetUserByTelegram "tg=alice" w_flaky).2).
  assert (UserDAO.GetUserByTelegram "tg=alice" w_flaky = ((users w_flaky, None), w1))
    as Hlookup by (vm_compute; reflexivity).
  pose proof (X18_admission_when_drivers_fail (libs := toy_libs) 60 md_alice "tg=alice" []
    "/Auth/ChangePassword" handler_ok w_flaky (users w_flaky) w1
    w_flaky_reachable eq_refl Hlookup) as Htable.
  assert (active_session (users w_flaky) w1 = (Some 7, (active_session (users w_flaky) w1).2))
    as Hsession by (vm_compute; reflexivity).
  rewrite Hsession in Htable.
  change (is_public "/Auth/ChangePassword") with false in Htable.
  assert ((UserDAO.IsAdmin 7 (active_session (users w_flaky) w1).2).1
          = (false, Some (fmt_Errorf "storage.mongo.IsAdmin: "
                            (lib_error "connection reset by peer")))) as Hadmin
    by (vm_compute; reflexivity).
  rewrite Hadmin in Htable. exact Htable.
Defined.
